(** * AppStream XML data: a model of as-xmldata.c

    The development follows src/as-xmldata.c function by function.  The XML
    tree (libxml2), the GLib string helpers and the AppStream domain objects
    are collaborators of that file; the tree and the objects are given as
    plain data, and the collaborators whose code decides nothing in
    as-xmldata.c are gathered in the class [AsCollaborators]. *)

From Stdlib Require Import String Ascii List ZArith Lia Bool DecimalString.
From coqutil Require Import Datatypes.RecordSetters.
Import ListNotations.
Import TriangleBracketNotations.
Set Warnings "-register-all".
Local Open Scope string_scope.
Local Open Scope Z_scope.

(** ** GLib helpers *)

Definition strcmp (s1 s2 : string) : Z :=
  match String.compare s1 s2 with
  | Eq => 0
  | Lt => -1
  | Gt => 1
  end.

(** [g_strcmp0] compares two possibly-NULL strings; NULL sorts first. *)
Definition g_strcmp0 (str1 str2 : option string) : Z :=
  match str1, str2 with
  | None, None => 0
  | None, Some _ => -1
  | Some _, None => 1
  | Some a, Some b => strcmp a b
  end.

Definition as_str_empty (str : option string) : bool :=
  match str with
  | None => true
  | Some s => (s =? "")%string
  end.

Definition g_ascii_isspace (c : ascii) : bool :=
  let n := nat_of_ascii c in
  ((n =? 32) || ((9 <=? n) && (n <=? 13)))%nat.

Fixpoint g_strchug (s : string) : string :=
  match s with
  | EmptyString => EmptyString
  | String c s' => if g_ascii_isspace c then g_strchug s' else s
  end.

Fixpoint g_strchomp (s : string) : string :=
  match s with
  | EmptyString => EmptyString
  | String c s' =>
      let r := g_strchomp s' in
      if g_ascii_isspace c && (r =? "")%string then EmptyString else String c r
  end.

(** [g_strstrip] is a macro over chug and chomp; both give NULL back on NULL. *)
Definition g_strstrip (s : option string) : option string :=
  option_map (fun x => g_strchomp (g_strchug x)) s.

Fixpoint split_at_char (d : ascii) (s : string) : list string :=
  match s with
  | EmptyString => [EmptyString]
  | String c s' =>
      if Ascii.eqb c d then EmptyString :: split_at_char d s'
      else match split_at_char d s' with
           | h :: t => String c h :: t
           | [] => [String c EmptyString]
           end
  end.

(** [g_strsplit] with a one-character delimiter and no limit on the number
    of pieces.  Splitting the empty string gives the empty vector. *)
Definition g_strsplit (s : string) (delimiter : ascii) : list string :=
  if (s =? "")%string then [] else split_at_char delimiter s.

Definition concat_strings (l : list string) : string := fold_right String.append "" l.

(** printf's [%ld] and [%i] on a number already brought into the range of
    the C type. *)
Definition printf_d (z : Z) : string := NilZero.string_of_int (Z.to_int z).

Definition guint64_of (z : Z) : Z := z mod 2 ^ 64.

(** Conversion to the 32-bit signed [gint]. *)
Definition gint_of (z : Z) : Z :=
  let u := z mod 2 ^ 32 in
  if u <? 2 ^ 31 then u else u - 2 ^ 32.

(** printf's [%i]: the argument is read as a 32-bit [int]. *)
Definition printf_i (z : Z) : string := printf_d (gint_of z).

(** Conversion of a 64-bit pattern to the signed [glong] of an LP64 target. *)
Definition glong_of (z : Z) : Z :=
  let u := z mod 2 ^ 64 in
  if u <? 2 ^ 63 then u else u - 2 ^ 64.

(** Integers [lo, lo+1, ..., hi-1], the values a C [for] loop over an enum
    range visits. *)
Definition enum_range (lo hi : Z) : list Z :=
  map (fun i => lo + Z.of_nat i) (seq 0 (Z.to_nat (hi - lo))).

(** ** GHashTable with string or enum keys

    Insertion replaces the value of a key that is present; iteration in the
    model follows insertion order. *)

Section Table.
Context {K V : Type} (eqb : K -> K -> bool).

Fixpoint table_lookup (t : list (K * V)) (k : K) : option V :=
  match t with
  | [] => None
  | (k', v) :: t' => if eqb k' k then Some v else table_lookup t' k
  end.

Fixpoint table_insert (t : list (K * V)) (k : K) (v : V) : list (K * V) :=
  match t with
  | [] => [(k, v)]
  | (k', v') :: t' =>
      if eqb k' k then (k', v) :: t' else (k', v') :: table_insert t' k v
  end.
End Table.

Definition str_lookup {V} := @table_lookup string V String.eqb.
Definition str_insert {V} := @table_insert string V String.eqb.
Definition enum_lookup {V} := @table_lookup Z V Z.eqb.
Definition enum_insert {V} := @table_insert Z V Z.eqb.

(** ** The libxml2 tree *)

Inductive xmlElementType : Type :=
  | XML_ELEMENT_NODE
  | XML_TEXT_NODE
  | XML_CDATA_SECTION_NODE
  | XML_COMMENT_NODE.

Definition xmlElementType_eqb (a b : xmlElementType) : bool :=
  match a, b with
  | XML_ELEMENT_NODE, XML_ELEMENT_NODE
  | XML_TEXT_NODE, XML_TEXT_NODE
  | XML_CDATA_SECTION_NODE, XML_CDATA_SECTION_NODE
  | XML_COMMENT_NODE, XML_COMMENT_NODE => true
  | _, _ => false
  end.

(** A node carries its kind, its name, its attributes in document order,
    its own text (for text, CDATA and comment nodes) and its children. *)
Inductive xmlNode : Type :=
  | XmlNode (type : xmlElementType) (name : string)
            (properties : list (string * string)) (content : string)
            (children : list xmlNode).

Definition node_type (n : xmlNode) : xmlElementType :=
  match n with XmlNode t _ _ _ _ => t end.
Definition node_name (n : xmlNode) : string :=
  match n with XmlNode _ nm _ _ _ => nm end.
Definition node_properties (n : xmlNode) : list (string * string) :=
  match n with XmlNode _ _ ps _ _ => ps end.
Definition node_children (n : xmlNode) : list xmlNode :=
  match n with XmlNode _ _ _ _ ch => ch end.

Definition is_element (n : xmlNode) : bool :=
  xmlElementType_eqb (node_type n) XML_ELEMENT_NODE.

(** A document: its root element, if it has one. *)
Record xmlDoc : Type := { doc_root : option xmlNode }.

Definition xmlDocGetRootElement (doc : xmlDoc) : option xmlNode := doc_root doc.

(** [xmlGetProp]: the value of the first attribute of that name. *)
Definition xmlGetProp (node : xmlNode) (name : string) : option string :=
  str_lookup (node_properties node) name.

(** The text an element contributes to the content of an ancestor: text and
    CDATA descendants in document order, comments left out. *)
Fixpoint xmlBufGetNodeContent (n : xmlNode) : string :=
  match n with
  | XmlNode XML_ELEMENT_NODE _ _ _ ch => concat_strings (map xmlBufGetNodeContent ch)
  | XmlNode XML_TEXT_NODE _ _ c _ => c
  | XmlNode XML_CDATA_SECTION_NODE _ _ c _ => c
  | XmlNode XML_COMMENT_NODE _ _ _ _ => ""
  end.

(** [xmlNodeGetContent] gives NULL only for kinds of node that are not in
    the model (and when memory runs out); the callers' tests for NULL are
    kept all the same. *)
Definition xmlNodeGetContent (n : xmlNode) : option string :=
  match n with
  | XmlNode XML_ELEMENT_NODE _ _ _ _ => Some (xmlBufGetNodeContent n)
  | XmlNode _ _ _ c _ => Some c
  end.

Definition xmlNewNode (name : string) : xmlNode :=
  XmlNode XML_ELEMENT_NODE name [] "" [].

Definition xmlNewText (content : string) : xmlNode :=
  XmlNode XML_TEXT_NODE "text" [] content [].

(** [xmlNewProp] appends an attribute; a NULL value reads back as the empty
    string. *)
Definition xmlNewProp (node : xmlNode) (name : string) (value : option string) : xmlNode :=
  match node with
  | XmlNode XML_ELEMENT_NODE nm ps c ch =>
      XmlNode XML_ELEMENT_NODE nm
        (ps ++ [(name, match value with Some v => v | None => "" end)]) c ch
  | _ => node
  end.

Definition xmlNodeAddContent (node : xmlNode) (more : string) : xmlNode :=
  match node with
  | XmlNode t nm ps c ch => XmlNode t nm ps (c ++ more) ch
  end.

Definition node_content (n : xmlNode) : string :=
  match n with XmlNode _ _ _ c _ => c end.

Definition is_text (n : xmlNode) : bool :=
  xmlElementType_eqb (node_type n) XML_TEXT_NODE.

(** [xmlAddChild] under an element: the node goes to the end of the
    children, except that a text node is merged into a text node that is
    the last child already. *)
Definition xmlAddChild (parent cur : xmlNode) : xmlNode :=
  match parent with
  | XmlNode t nm ps c ch =>
      match rev ch with
      | l :: before =>
          if is_text cur && is_text l && (node_name l =? node_name cur)%string
          then XmlNode t nm ps c (rev before ++ [xmlNodeAddContent l (node_content cur)])
          else XmlNode t nm ps c (ch ++ [cur])
      | [] => XmlNode t nm ps c (ch ++ [cur])
      end
  end.

(** The element [xmlNewTextChild] and [xmlNewChild] create, before it is
    linked under its parent: it holds one text node unless the content is
    NULL. *)
Definition new_text_child (name : string) (content : option string) : xmlNode :=
  XmlNode XML_ELEMENT_NODE name [] ""
    match content with
    | Some c => [xmlNewText c]
    | None => []
    end.

(** ** Parser state *)

Inductive AsParserMode : Type :=
  | AS_PARSER_MODE_UPSTREAM
  | AS_PARSER_MODE_DISTRO.

Definition AsParserMode_eqb (a b : AsParserMode) : bool :=
  match a, b with
  | AS_PARSER_MODE_UPSTREAM, AS_PARSER_MODE_UPSTREAM
  | AS_PARSER_MODE_DISTRO, AS_PARSER_MODE_DISTRO => true
  | _, _ => false
  end.

Record AsXMLDataPrivate : Type := {
  priv_locale : option string;
  priv_locale_short : option string;
  priv_origin : option string;
  priv_media_baseurl : option string;
  priv_default_priority : Z;
  priv_mode : AsParserMode
}.

Definition set_mode (priv : AsXMLDataPrivate) (m : AsParserMode) : AsXMLDataPrivate :=
  priv <| priv_mode := m |>.

(** The instance as GObject hands it to [as_xmldata_init]: zeroed. *)
Definition as_xmldata_init : AsXMLDataPrivate :=
  {| priv_locale := None;
     priv_locale_short := None;
     priv_origin := None;
     priv_media_baseurl := None;
     priv_default_priority := 0;
     priv_mode := AS_PARSER_MODE_UPSTREAM |}.

Definition as_xmldata_initialize (priv : AsXMLDataPrivate) (locale : string)
    (origin media_baseurl : option string) (priority : Z) : AsXMLDataPrivate :=
  let strv := g_strsplit locale "_"%char in
  {| priv_locale := Some locale;
     priv_locale_short := hd_error strv;
     priv_origin := origin;
     priv_media_baseurl := media_baseurl;
     priv_default_priority := priority;
     priv_mode := priv_mode priv |}.

Definition as_xmldata_set_parser_mode := set_mode.

(** ** Locale of a node *)

Definition as_xmldata_get_node_locale (priv : AsXMLDataPrivate) (node : xmlNode)
    : option string :=
  match xmlGetProp node "lang" with
  | None => Some "C"
  | Some lang =>
      if g_strcmp0 (priv_locale priv) (Some "ALL") =? 0 then Some lang
      else if g_strcmp0 (Some lang) (priv_locale priv) =? 0 then Some lang
      else if g_strcmp0 (Some lang) (priv_locale_short priv) =? 0 then priv_locale priv
      else None
  end.

(** ** Domain objects

    AsComponent, AsScreenshot, AsImage, AsRelease and AsIcon are defined in
    other files of the library.  Here each object is the data its setters
    were given: a setter stores its argument, an adder appends, a keyed
    setter writes the entry of its key.  Enumerations that as-xmldata.c only
    handles through [_from_string], [_to_string] and named constants are
    integers whose constants come from [AsCollaborators]. *)

Inductive AsImageKind : Type :=
  | AS_IMAGE_KIND_SOURCE
  | AS_IMAGE_KIND_THUMBNAIL.

Inductive AsScreenshotKind : Type :=
  | AS_SCREENSHOT_KIND_NORMAL
  | AS_SCREENSHOT_KIND_DEFAULT.

Inductive AsIconKind : Type :=
  | AS_ICON_KIND_UNKNOWN
  | AS_ICON_KIND_STOCK
  | AS_ICON_KIND_CACHED
  | AS_ICON_KIND_LOCAL
  | AS_ICON_KIND_REMOTE.

Inductive AsProvidedKind : Type :=
  | AS_PROVIDED_KIND_LIBRARY
  | AS_PROVIDED_KIND_BINARY
  | AS_PROVIDED_KIND_FONT
  | AS_PROVIDED_KIND_MODALIAS
  | AS_PROVIDED_KIND_FIRMWARE_RUNTIME
  | AS_PROVIDED_KIND_FIRMWARE_FLASHED
  | AS_PROVIDED_KIND_PYTHON_2
  | AS_PROVIDED_KIND_PYTHON
  | AS_PROVIDED_KIND_DBUS_SYSTEM
  | AS_PROVIDED_KIND_DBUS_USER
  | AS_PROVIDED_KIND_MIMETYPE.

(** Modelled from the spec: the image record of as-image.c, which is not
    among the sources: URL, kind, width and height, zero standing for a
    size that is not given. *)
Record AsImage : Type := {
  img_kind : AsImageKind;
  img_url : option string;
  img_width : Z;
  img_height : Z
}.

Definition as_image_new : AsImage :=
  {| img_kind := AS_IMAGE_KIND_SOURCE; img_url := None; img_width := 0; img_height := 0 |}.
Definition as_image_set_width (img : AsImage) (w : Z) := img <| img_width := w |>.
Definition as_image_set_height (img : AsImage) (h : Z) := img <| img_height := h |>.
Definition as_image_set_kind (img : AsImage) (k : AsImageKind) := img <| img_kind := k |>.
Definition as_image_set_url (img : AsImage) (url : string) := img <| img_url := Some url |>.

(** Modelled from the spec: the screenshot record of as-screenshot.c: kind,
    caption by locale, and the images in the order they were added. *)
Record AsScreenshot : Type := {
  scr_kind : AsScreenshotKind;
  scr_active_locale : option string;
  scr_caption : list (string * string);
  scr_images : list AsImage
}.

Definition as_screenshot_new : AsScreenshot :=
  {| scr_kind := AS_SCREENSHOT_KIND_NORMAL; scr_active_locale := None;
     scr_caption := []; scr_images := [] |}.
Definition as_screenshot_set_active_locale (scr : AsScreenshot) (l : option string) :=
  scr <| scr_active_locale := l |>.
Definition as_screenshot_set_kind (scr : AsScreenshot) (k : AsScreenshotKind) :=
  scr <| scr_kind := k |>.
Definition as_screenshot_set_caption (scr : AsScreenshot) (caption locale : string) :=
  scr <| scr_caption ::= fun t => str_insert t locale caption |>.
Definition as_screenshot_add_image (scr : AsScreenshot) (img : AsImage) :=
  scr <| scr_images ::= fun l => (l ++ [img])%list |>.

(** Modelled from the spec: the release record of as-release.c: version,
    timestamp, urgency, download locations, one checksum and one size for
    each kind (a later value replaces an earlier one), description by
    locale. *)
Record AsRelease : Type := {
  rel_version : option string;
  rel_timestamp : Z;
  rel_urgency : option Z;
  rel_active_locale : option string;
  rel_locations : list (option string);
  rel_checksums : list (Z * option string);
  rel_sizes : list (Z * Z);
  rel_description : list (string * string)
}.

Definition as_release_new : AsRelease :=
  {| rel_version := None; rel_timestamp := 0; rel_urgency := None;
     rel_active_locale := None; rel_locations := []; rel_checksums := [];
     rel_sizes := []; rel_description := [] |}.
Definition as_release_set_active_locale (rel : AsRelease) (l : option string) :=
  rel <| rel_active_locale := l |>.
Definition as_release_set_version (rel : AsRelease) (v : option string) :=
  rel <| rel_version := v |>.
Definition as_release_set_timestamp (rel : AsRelease) (timestamp : Z) :=
  rel <| rel_timestamp := timestamp |>.
Definition as_release_set_urgency (rel : AsRelease) (u : Z) :=
  rel <| rel_urgency := Some u |>.
Definition as_release_add_location (rel : AsRelease) (loc : option string) :=
  rel <| rel_locations ::= fun l => (l ++ [loc])%list |>.
Definition as_release_set_checksum (rel : AsRelease) (value : option string) (kind : Z) :=
  rel <| rel_checksums ::= fun t => enum_insert t kind value |>.
Definition as_release_set_size (rel : AsRelease) (size : Z) (kind : Z) :=
  rel <| rel_sizes ::= fun t => enum_insert t kind size |>.
Definition as_release_set_description (rel : AsRelease) (description locale : string) :=
  rel <| rel_description ::= fun t => str_insert t locale description |>.

Definition as_release_get_version (rel : AsRelease) := rel_version rel.
Definition as_release_get_timestamp (rel : AsRelease) := rel_timestamp rel.
Definition as_release_get_locations (rel : AsRelease) := rel_locations rel.
Definition as_release_get_checksum (rel : AsRelease) (kind : Z) : option string :=
  match enum_lookup (rel_checksums rel) kind with
  | Some v => v
  | None => None
  end.
Definition as_release_get_size (rel : AsRelease) (kind : Z) : Z :=
  match enum_lookup (rel_sizes rel) kind with
  | Some v => v
  | None => 0
  end.

(** Modelled from the spec: the icon record of as-icon.c: kind, and name,
    file name or URL. *)
Record AsIcon : Type := {
  icon_kind : AsIconKind;
  icon_name : option string;
  icon_filename : option string;
  icon_url : option string
}.

Definition as_icon_new : AsIcon :=
  {| icon_kind := AS_ICON_KIND_UNKNOWN; icon_name := None;
     icon_filename := None; icon_url := None |}.
Definition as_icon_set_kind (icon : AsIcon) (k : AsIconKind) := icon <| icon_kind := k |>.
Definition as_icon_set_name (icon : AsIcon) (s : string) := icon <| icon_name := Some s |>.
Definition as_icon_set_filename (icon : AsIcon) (s : string) :=
  icon <| icon_filename := Some s |>.
Definition as_icon_set_url (icon : AsIcon) (s : string) := icon <| icon_url := Some s |>.

(** Modelled from the spec: the component record of as-component.c:
    identity, texts by locale with "C" for the text without a language,
    lists in the order their entries were added, one URL and one bundle id
    for each kind. *)
Record AsComponent : Type := {
  cpt_kind : Z;
  cpt_id : option string;
  cpt_priority : Z;
  cpt_active_locale : option string;
  cpt_origin : option string;
  cpt_source_pkgname : option string;
  cpt_pkgnames : option (list string);
  cpt_name : list (string * option string);
  cpt_summary : list (string * option string);
  cpt_developer_name : list (string * option string);
  cpt_description : list (string * string);
  cpt_project_license : option string;
  cpt_project_group : option string;
  cpt_compulsory_for_desktops : option (list string);
  cpt_categories : option (list string);
  cpt_keywords : option (list string);
  cpt_urls : list (Z * string);
  cpt_icons : list AsIcon;
  cpt_provided : list (AsProvidedKind * string);
  cpt_screenshots : list AsScreenshot;
  cpt_releases : list AsRelease;
  cpt_extends : list string;
  cpt_languages : list (option string * Z);
  cpt_bundles : list (Z * string)
}.

Definition as_component_set_kind (cpt : AsComponent) (k : Z) := cpt <| cpt_kind := k |>.
Definition as_component_get_kind (cpt : AsComponent) := cpt_kind cpt.
Definition as_component_set_id (cpt : AsComponent) (v : option string) :=
  cpt <| cpt_id := v |>.
Definition as_component_get_id (cpt : AsComponent) := cpt_id cpt.
Definition as_component_set_priority (cpt : AsComponent) (p : Z) :=
  cpt <| cpt_priority := p |>.
Definition as_component_set_active_locale (cpt : AsComponent) (l : option string) :=
  cpt <| cpt_active_locale := l |>.
Definition as_component_get_active_locale (cpt : AsComponent) := cpt_active_locale cpt.
Definition as_component_set_origin (cpt : AsComponent) (o : option string) :=
  cpt <| cpt_origin := o |>.
Definition as_component_set_source_pkgname (cpt : AsComponent) (v : option string) :=
  cpt <| cpt_source_pkgname := v |>.
Definition as_component_set_pkgnames (cpt : AsComponent) (strv : list string) :=
  cpt <| cpt_pkgnames := Some strv |>.
Definition as_component_get_pkgnames (cpt : AsComponent) := cpt_pkgnames cpt.
Definition as_component_set_name (cpt : AsComponent) (v : option string) (locale : string) :=
  cpt <| cpt_name ::= fun t => str_insert t locale v |>.
Definition as_component_set_summary (cpt : AsComponent) (v : option string) (locale : string) :=
  cpt <| cpt_summary ::= fun t => str_insert t locale v |>.
Definition as_component_set_developer_name (cpt : AsComponent) (v : option string)
    (locale : string) :=
  cpt <| cpt_developer_name ::= fun t => str_insert t locale v |>.
Definition as_component_set_description (cpt : AsComponent) (v : string) (locale : string) :=
  cpt <| cpt_description ::= fun t => str_insert t locale v |>.
Definition as_component_get_name_table (cpt : AsComponent) := cpt_name cpt.
Definition as_component_get_summary_table (cpt : AsComponent) := cpt_summary cpt.
Definition as_component_get_developer_name_table (cpt : AsComponent) :=
  cpt_developer_name cpt.
Definition as_component_get_description_table (cpt : AsComponent) := cpt_description cpt.
Definition as_component_set_project_license (cpt : AsComponent) (v : string) :=
  cpt <| cpt_project_license := Some v |>.
Definition as_component_get_project_license (cpt : AsComponent) := cpt_project_license cpt.
Definition as_component_set_project_group (cpt : AsComponent) (v : string) :=
  cpt <| cpt_project_group := Some v |>.
Definition as_component_get_project_group (cpt : AsComponent) := cpt_project_group cpt.
Definition as_component_set_compulsory_for_desktops (cpt : AsComponent) (strv : list string) :=
  cpt <| cpt_compulsory_for_desktops := Some strv |>.
Definition as_component_get_compulsory_for_desktops (cpt : AsComponent) :=
  cpt_compulsory_for_desktops cpt.
Definition as_component_set_categories (cpt : AsComponent) (strv : list string) :=
  cpt <| cpt_categories := Some strv |>.
Definition as_component_get_categories (cpt : AsComponent) := cpt_categories cpt.
Definition as_component_set_keywords (cpt : AsComponent) (strv : list string) :=
  cpt <| cpt_keywords := Some strv |>.
Definition as_component_get_keywords (cpt : AsComponent) := cpt_keywords cpt.
Definition as_component_add_url (cpt : AsComponent) (kind : Z) (url : string) :=
  cpt <| cpt_urls ::= fun t => enum_insert t kind url |>.
Definition as_component_get_url (cpt : AsComponent) (kind : Z) : option string :=
  enum_lookup (cpt_urls cpt) kind.
Definition as_component_add_icon (cpt : AsComponent) (icon : AsIcon) :=
  cpt <| cpt_icons ::= fun l => (l ++ [icon])%list |>.
Definition as_component_get_icons (cpt : AsComponent) := cpt_icons cpt.
Definition as_component_add_provided_item (cpt : AsComponent) (kind : AsProvidedKind)
    (item : string) :=
  cpt <| cpt_provided ::= fun l => (l ++ [(kind, item)])%list |>.
Definition as_component_add_screenshot (cpt : AsComponent) (scr : AsScreenshot) :=
  cpt <| cpt_screenshots ::= fun l => (l ++ [scr])%list |>.
Definition as_component_get_screenshots (cpt : AsComponent) := cpt_screenshots cpt.
Definition as_component_add_release (cpt : AsComponent) (rel : AsRelease) :=
  cpt <| cpt_releases ::= fun l => (l ++ [rel])%list |>.
Definition as_component_get_releases (cpt : AsComponent) := cpt_releases cpt.
Definition as_component_add_extends (cpt : AsComponent) (id : string) :=
  cpt <| cpt_extends ::= fun l => (l ++ [id])%list |>.
Definition as_component_get_extends (cpt : AsComponent) := cpt_extends cpt.
Definition as_component_add_language (cpt : AsComponent) (locale : option string)
    (percentage : Z) :=
  cpt <| cpt_languages ::= fun l => (l ++ [(locale, percentage)])%list |>.
Definition as_component_add_bundle_id (cpt : AsComponent) (kind : Z) (id : string) :=
  cpt <| cpt_bundles ::= fun t => enum_insert t kind id |>.
Definition as_component_get_bundle_id (cpt : AsComponent) (kind : Z) : option string :=
  enum_lookup (cpt_bundles cpt) kind.

(** ** Errors *)

Inductive AsMetadataError : Type :=
  | AS_METADATA_ERROR_FAILED
  | AS_METADATA_ERROR_UNEXPECTED_FORMAT_KIND.

Record GError : Type := { error_code : AsMetadataError; error_message : string }.

(** ** Collaborators

    What as-xmldata.c calls and does not define: the libxml2 parser and
    printers, GLib number and date conversions, the enumeration tables of
    as-enums and as-utils, and the validity, printing and localized getters
    of the domain objects.  A [GDateTime] is stood for by the number
    [g_date_time_to_unix] gives for it.  [read_freed_string s] stands for
    what a pointer to the string [s] reads as after the string has been
    released with [g_free]: the program does not determine it, and nothing
    is known about it here. *)

Class AsCollaborators : Type := {
  xmlParseDoc : string -> option xmlDoc;
  xmlNodeDump : xmlNode -> string;
  xmlDocDumpMemory : xmlDoc -> string;
  g_ascii_strtoll : string -> Z;
  g_ascii_strtoull : string -> Z;
  g_build_filename : string -> string -> string;
  read_freed_string : string -> string;
  g_time_val_to_iso8601 : Z -> option string;
  as_iso8601_to_datetime : string -> option Z;
  AS_COMPONENT_KIND_UNKNOWN : Z;
  AS_COMPONENT_KIND_GENERIC : Z;
  as_component_kind_from_string : option string -> Z;
  as_component_kind_to_string : Z -> option string;
  AS_URL_KIND_UNKNOWN : Z;
  AS_URL_KIND_LAST : Z;
  as_url_kind_from_string : option string -> Z;
  as_url_kind_to_string : Z -> option string;
  AS_BUNDLE_KIND_UNKNOWN : Z;
  AS_BUNDLE_KIND_LIMBA : Z;
  AS_BUNDLE_KIND_LAST : Z;
  as_bundle_kind_from_string : option string -> Z;
  as_bundle_kind_to_string : Z -> option string;
  AS_CHECKSUM_KIND_NONE : Z;
  AS_CHECKSUM_KIND_LAST : Z;
  as_checksum_kind_from_string : option string -> Z;
  as_checksum_kind_to_string : Z -> option string;
  AS_SIZE_KIND_UNKNOWN : Z;
  AS_SIZE_KIND_LAST : Z;
  as_size_kind_from_string : option string -> Z;
  as_size_kind_to_string : Z -> option string;
  AS_URGENCY_KIND_UNKNOWN : Z;
  as_urgency_kind_from_string : option string -> Z;
  as_urgency_kind_to_string : Z -> option string;
  as_icon_kind_to_string : AsIconKind -> option string;
  as_component_is_valid : AsComponent -> bool;
  as_component_to_string : AsComponent -> string;
  as_screenshot_is_valid : AsScreenshot -> bool;
  as_screenshot_get_caption : AsScreenshot -> option string;
  as_release_get_description : AsRelease -> option string
}.

(** ** Decoding *)

Definition newline : string := String "010"%char EmptyString.

(** printf's [%s]; GLib prints a NULL argument as [(null)]. *)
Definition printf_s (s : option string) : string :=
  match s with
  | Some x => x
  | None => "(null)"
  end.

(** [g_strcmp0 (a, b) == 0] *)
Definition streq (a b : option string) : bool := g_strcmp0 a b =? 0.

Definition as_xmldata_get_node_value (node : xmlNode) : option string :=
  xmlNodeGetContent node.

Section Decode.
Context {ext : AsCollaborators}.

Definition as_component_new : AsComponent :=
  {| cpt_kind := AS_COMPONENT_KIND_UNKNOWN; cpt_id := None; cpt_priority := 0;
     cpt_active_locale := None; cpt_origin := None; cpt_source_pkgname := None;
     cpt_pkgnames := None; cpt_name := []; cpt_summary := [];
     cpt_developer_name := []; cpt_description := [];
     cpt_project_license := None; cpt_project_group := None;
     cpt_compulsory_for_desktops := None; cpt_categories := None;
     cpt_keywords := None; cpt_urls := []; cpt_icons := []; cpt_provided := [];
     cpt_screenshots := []; cpt_releases := []; cpt_extends := [];
     cpt_languages := []; cpt_bundles := [] |}.

Definition as_release_get_urgency (rel : AsRelease) : Z :=
  match rel_urgency rel with
  | Some u => u
  | None => AS_URGENCY_KIND_UNKNOWN
  end.

Definition as_xmldata_dump_node_children (node : xmlNode) : string :=
  fold_left
    (fun str iter =>
       if negb (is_element iter) then str
       else
         let str := if (0 <? Z.of_nat (String.length str)) then str ++ newline else str in
         str ++ xmlNodeDump iter)
    (node_children node) "".

Definition as_xmldata_get_children_as_strv (node : xmlNode) (element_name : string)
    : list string :=
  fold_left
    (fun list iter =>
       if negb (is_element iter) then list
       else if streq (Some (node_name iter)) (Some element_name) then
         match xmlNodeGetContent iter with
         | Some content => (list ++ [g_strchomp (g_strchug content)])%list
         | None => list
         end
       else list)
    (node_children node) [].

(** One turn of the loop of [as_xmldata_process_screenshot]. *)
Definition process_screenshot_child (priv : AsXMLDataPrivate) (scr : AsScreenshot)
    (iter : xmlNode) : AsScreenshot :=
  if negb (is_element iter) then scr
  else
    let node_name := node_name iter in
    let content := g_strstrip (as_xmldata_get_node_value iter) in
    if streq (Some node_name) (Some "image") then
      match content with
      | None => scr
      | Some content =>
          let img := as_image_new in
          let width :=
            match xmlGetProp iter "width" with
            | None => 0
            | Some str => guint64_of (g_ascii_strtoll str)
            end in
          let height :=
            match xmlGetProp iter "height" with
            | None => 0
            | Some str => guint64_of (g_ascii_strtoll str)
            end in
          if AsParserMode_eqb (priv_mode priv) AS_PARSER_MODE_DISTRO
             && ((width =? 0) || (height =? 0))
          then scr
          else
            let img := as_image_set_width img width in
            let img := as_image_set_height img height in
            let stype := xmlGetProp iter "type" in
            let img :=
              if streq stype (Some "thumbnail")
              then as_image_set_kind img AS_IMAGE_KIND_THUMBNAIL
              else as_image_set_kind img AS_IMAGE_KIND_SOURCE in
            let img :=
              match priv_media_baseurl priv with
              | None => as_image_set_url img content
              | Some baseurl => as_image_set_url img (g_build_filename baseurl content)
              end in
            as_screenshot_add_image scr img
      end
    else if streq (Some node_name) (Some "caption") then
      match content with
      | Some content =>
          match as_xmldata_get_node_locale priv iter with
          | Some lang => as_screenshot_set_caption scr content lang
          | None => scr
          end
      | None => scr
      end
    else scr.

Definition as_xmldata_process_screenshot (priv : AsXMLDataPrivate) (node : xmlNode)
    (scr : AsScreenshot) : AsScreenshot :=
  fold_left (process_screenshot_child priv) (node_children node) scr.

Definition as_xmldata_process_screenshots_tag (priv : AsXMLDataPrivate) (node : xmlNode)
    (cpt : AsComponent) : AsComponent :=
  fold_left
    (fun cpt iter =>
       if negb (is_element iter) then cpt
       else if streq (Some (node_name iter)) (Some "screenshot") then
         let sshot := as_screenshot_new in
         let sshot :=
           as_screenshot_set_active_locale sshot (as_component_get_active_locale cpt) in
         let prop := xmlGetProp iter "type" in
         let sshot :=
           if streq prop (Some "default")
           then as_screenshot_set_kind sshot AS_SCREENSHOT_KIND_DEFAULT
           else sshot in
         let sshot := as_xmldata_process_screenshot priv iter sshot in
         if as_screenshot_is_valid sshot then as_component_add_screenshot cpt sshot
         else cpt
       else cpt)
    (node_children node) cpt.

(** [g_hash_table_foreach] over a table of the model. *)
Definition g_hash_table_foreach {V E : Type} (table : list (string * V))
    (func : string -> V -> E -> E) (user_data : E) : E :=
  fold_left (fun e kv => func (fst kv) (snd kv) e) table user_data.

Definition as_xmldata_upstream_description_to_cpt (key : string) (value : string)
    (cpt : AsComponent) : AsComponent :=
  as_component_set_description cpt value key.

Definition as_xmldata_upstream_description_to_release (key : string) (value : string)
    (rel : AsRelease) : AsRelease :=
  as_release_set_description rel value key.

(** One turn of the loop of [as_xmldata_parse_upstream_description_tag]:
    the GString found or created under [lang] grows by one line. *)
Definition upstream_description_child (priv : AsXMLDataPrivate)
    (desc : list (string * string)) (iter : xmlNode) : list (string * string) :=
  if negb (is_element iter) then desc
  else
    match as_xmldata_get_node_locale priv iter with
    | None => desc
    | Some lang =>
        let node_name := node_name iter in
        let content := as_xmldata_get_node_value iter in
        let str :=
          match str_lookup desc lang with
          | Some str => str
          | None => ""
          end in
        str_insert desc lang
          (str ++ newline ++ "<" ++ node_name ++ ">" ++ printf_s content
               ++ "</" ++ node_name ++ ">")
    end.

Definition upstream_description_table (priv : AsXMLDataPrivate) (node : xmlNode)
    : list (string * string) :=
  fold_left (upstream_description_child priv) (node_children node) [].

Definition as_xmldata_parse_upstream_description_tag {E : Type}
    (priv : AsXMLDataPrivate) (node : xmlNode) (func : string -> string -> E -> E)
    (entity : E) : E :=
  let desc := upstream_description_table priv node in
  g_hash_table_foreach desc func entity.

(** One turn of the inner loop of [as_xmldata_process_releases_tag].  The
    source tests the type of the enclosing release node [iter] there, not
    of the child [iter2]. *)
Definition process_release_child (priv : AsXMLDataPrivate) (iter : xmlNode)
    (release : AsRelease) (iter2 : xmlNode) : AsRelease :=
  if negb (is_element iter) then release
  else if streq (Some (node_name iter2)) (Some "location") then
    as_release_add_location release (as_xmldata_get_node_value iter2)
  else if streq (Some (node_name iter2)) (Some "checksum") then
    let prop := xmlGetProp iter2 "type" in
    let cs_kind := as_checksum_kind_from_string prop in
    if negb (cs_kind =? AS_CHECKSUM_KIND_NONE)
    then as_release_set_checksum release (as_xmldata_get_node_value iter2) cs_kind
    else release
  else if streq (Some (node_name iter2)) (Some "size") then
    let prop := xmlGetProp iter2 "type" in
    let s_kind := as_size_kind_from_string prop in
    if negb (s_kind =? AS_SIZE_KIND_UNKNOWN) then
      let size :=
        match as_xmldata_get_node_value iter2 with
        | Some content => g_ascii_strtoull content
        | None => 0
        end in
      if 0 <? size then as_release_set_size release size s_kind else release
    else release
  else if streq (Some (node_name iter2)) (Some "description") then
    if AsParserMode_eqb (priv_mode priv) AS_PARSER_MODE_DISTRO then
      let content := as_xmldata_dump_node_children iter2 in
      match as_xmldata_get_node_locale priv iter2 with
      | Some lang => as_release_set_description release content lang
      | None => release
      end
    else
      as_xmldata_parse_upstream_description_tag priv iter2
        as_xmldata_upstream_description_to_release release
  else release.

(** The release record built from one [<release>] element. *)
Definition process_release (priv : AsXMLDataPrivate) (cpt : AsComponent)
    (iter : xmlNode) : AsRelease :=
  let release := as_release_new in
  let release :=
    as_release_set_active_locale release (as_component_get_active_locale cpt) in
  let release := as_release_set_version release (xmlGetProp iter "version") in
  let release :=
    match xmlGetProp iter "date" with
    | Some prop =>
        match as_iso8601_to_datetime prop with
        | Some time => as_release_set_timestamp release time
        | None => release
        end
    | None => release
    end in
  let release :=
    match xmlGetProp iter "timestamp" with
    | Some prop =>
        let timestamp := guint64_of (g_ascii_strtoll prop) in
        as_release_set_timestamp release timestamp
    | None => release
    end in
  let release :=
    match xmlGetProp iter "urgency" with
    | Some prop => as_release_set_urgency release (as_urgency_kind_from_string (Some prop))
    | None => release
    end in
  fold_left (process_release_child priv iter) (node_children iter) release.

Definition as_xmldata_process_releases_tag (priv : AsXMLDataPrivate) (node : xmlNode)
    (cpt : AsComponent) : AsComponent :=
  fold_left
    (fun cpt iter =>
       if negb (is_element iter) then cpt
       else if streq (Some (node_name iter)) (Some "release")
       then as_component_add_release cpt (process_release priv cpt iter)
       else cpt)
    (node_children node) cpt.

(** One turn of the loop of [as_xmldata_process_provides]. *)
Definition process_provides_child (cpt : AsComponent) (iter : xmlNode) : AsComponent :=
  if negb (is_element iter) then cpt
  else
    let node_name := node_name iter in
    match as_xmldata_get_node_value iter with
    | None => cpt
    | Some content =>
        if streq (Some node_name) (Some "library") then
          as_component_add_provided_item cpt AS_PROVIDED_KIND_LIBRARY content
        else if streq (Some node_name) (Some "binary") then
          as_component_add_provided_item cpt AS_PROVIDED_KIND_BINARY content
        else if streq (Some node_name) (Some "font") then
          as_component_add_provided_item cpt AS_PROVIDED_KIND_FONT content
        else if streq (Some node_name) (Some "modalias") then
          as_component_add_provided_item cpt AS_PROVIDED_KIND_MODALIAS content
        else if streq (Some node_name) (Some "firmware") then
          match xmlGetProp iter "type" with
          | Some fwtype =>
              if streq (Some fwtype) (Some "runtime") then
                as_component_add_provided_item cpt AS_PROVIDED_KIND_FIRMWARE_RUNTIME content
              else if streq (Some fwtype) (Some "flashed") then
                as_component_add_provided_item cpt AS_PROVIDED_KIND_FIRMWARE_FLASHED content
              else cpt
          | None => cpt
          end
        else if streq (Some node_name) (Some "python2") then
          as_component_add_provided_item cpt AS_PROVIDED_KIND_PYTHON_2 content
        else if streq (Some node_name) (Some "python3") then
          as_component_add_provided_item cpt AS_PROVIDED_KIND_PYTHON content
        else if streq (Some node_name) (Some "dbus") then
          let dbustype := xmlGetProp iter "type" in
          if streq dbustype (Some "system") then
            as_component_add_provided_item cpt AS_PROVIDED_KIND_DBUS_SYSTEM content
          else if streq dbustype (Some "user") || streq dbustype (Some "session") then
            as_component_add_provided_item cpt AS_PROVIDED_KIND_DBUS_USER content
          else cpt
        else cpt
    end.

Definition as_xmldata_process_provides (node : xmlNode) (cpt : AsComponent)
    : AsComponent :=
  fold_left process_provides_child (node_children node) cpt.

Definition as_xmldata_set_component_type_from_node (node : xmlNode) (cpt : AsComponent)
    : AsComponent :=
  let cpttype := xmlGetProp node "type" in
  match cpttype with
  | None => as_component_set_kind cpt AS_COMPONENT_KIND_GENERIC
  | Some _ =>
      if streq cpttype (Some "generic")
      then as_component_set_kind cpt AS_COMPONENT_KIND_GENERIC
      else as_component_set_kind cpt (as_component_kind_from_string cpttype)
  end.

Definition as_xmldata_process_languages_tag (priv : AsXMLDataPrivate) (node : xmlNode)
    (cpt : AsComponent) : AsComponent :=
  fold_left
    (fun cpt iter =>
       if negb (is_element iter) then cpt
       else if streq (Some (node_name iter)) (Some "lang") then
         let percentage :=
           match xmlGetProp iter "percentage" with
           | Some prop => guint64_of (g_ascii_strtoll prop)
           | None => 0
           end in
         let locale := as_xmldata_get_node_locale priv iter in
         as_component_add_language cpt locale percentage
       else cpt)
    (node_children node) cpt.

(** One turn of the loop of [as_xmldata_parse_component_node]; besides the
    component the loop carries the two arrays [pkgnames] and
    [compulsory_for_desktops]. *)
Definition parse_component_child (priv : AsXMLDataPrivate)
    (st : AsComponent * list string * list string) (iter : xmlNode)
    : AsComponent * list string * list string :=
  let '(cpt, pkgnames, compulsory_for_desktops) := st in
  if negb (is_element iter) then st
  else
    let node_name := Some (node_name iter) in
    let content := g_strstrip (as_xmldata_get_node_value iter) in
    let lang := as_xmldata_get_node_locale priv iter in
    if streq node_name (Some "id") then
      let cpt := as_component_set_id cpt content in
      let cpt :=
        if AsParserMode_eqb (priv_mode priv) AS_PARSER_MODE_UPSTREAM
           && (as_component_get_kind cpt =? AS_COMPONENT_KIND_GENERIC)
        then as_xmldata_set_component_type_from_node iter cpt
        else cpt in
      (cpt, pkgnames, compulsory_for_desktops)
    else if streq node_name (Some "pkgname") then
      match content with
      | Some content => (cpt, (pkgnames ++ [content])%list, compulsory_for_desktops)
      | None => st
      end
    else if streq node_name (Some "source_pkgname") then
      (as_component_set_source_pkgname cpt content, pkgnames, compulsory_for_desktops)
    else if streq node_name (Some "name") then
      match lang with
      | Some lang =>
          (as_component_set_name cpt content lang, pkgnames, compulsory_for_desktops)
      | None => st
      end
    else if streq node_name (Some "summary") then
      match lang with
      | Some lang =>
          (as_component_set_summary cpt content lang, pkgnames, compulsory_for_desktops)
      | None => st
      end
    else if streq node_name (Some "description") then
      if AsParserMode_eqb (priv_mode priv) AS_PARSER_MODE_DISTRO then
        match lang with
        | Some lang =>
            let desc := as_xmldata_dump_node_children iter in
            (as_component_set_description cpt desc lang, pkgnames,
             compulsory_for_desktops)
        | None => st
        end
      else
        (as_xmldata_parse_upstream_description_tag priv iter
           as_xmldata_upstream_description_to_cpt cpt,
         pkgnames, compulsory_for_desktops)
    else if streq node_name (Some "icon") then
      match content with
      | None => st
      | Some content =>
          let prop := xmlGetProp iter "type" in
          let icon := as_icon_new in
          if streq prop (Some "stock") then
            let icon := as_icon_set_kind icon AS_ICON_KIND_STOCK in
            let icon := as_icon_set_name icon content in
            (as_component_add_icon cpt icon, pkgnames, compulsory_for_desktops)
          else if streq prop (Some "cached") then
            let icon := as_icon_set_kind icon AS_ICON_KIND_CACHED in
            let icon := as_icon_set_filename icon content in
            (as_component_add_icon cpt icon, pkgnames, compulsory_for_desktops)
          else if streq prop (Some "local") then
            let icon := as_icon_set_kind icon AS_ICON_KIND_LOCAL in
            let icon := as_icon_set_filename icon content in
            (as_component_add_icon cpt icon, pkgnames, compulsory_for_desktops)
          else if streq prop (Some "remote") then
            let icon := as_icon_set_kind icon AS_ICON_KIND_REMOTE in
            let icon :=
              match priv_media_baseurl priv with
              | None => as_icon_set_url icon content
              | Some baseurl => as_icon_set_url icon (g_build_filename baseurl content)
              end in
            (as_component_add_icon cpt icon, pkgnames, compulsory_for_desktops)
          else st
      end
    else if streq node_name (Some "url") then
      match content with
      | Some content =>
          let urltype_str := xmlGetProp iter "type" in
          let url_kind := as_url_kind_from_string urltype_str in
          if negb (url_kind =? AS_URL_KIND_UNKNOWN)
          then (as_component_add_url cpt url_kind content, pkgnames,
                compulsory_for_desktops)
          else st
      | None => st
      end
    else if streq node_name (Some "categories") then
      let cat_array := as_xmldata_get_children_as_strv iter "category" in
      (as_component_set_categories cpt cat_array, pkgnames, compulsory_for_desktops)
    else if streq node_name (Some "keywords") then
      let kw_array := as_xmldata_get_children_as_strv iter "keyword" in
      (as_component_set_keywords cpt kw_array, pkgnames, compulsory_for_desktops)
    else if streq node_name (Some "mimetypes") then
      let mime_array := as_xmldata_get_children_as_strv iter "mimetype" in
      (fold_left
         (fun cpt m => as_component_add_provided_item cpt AS_PROVIDED_KIND_MIMETYPE m)
         mime_array cpt,
       pkgnames, compulsory_for_desktops)
    else if streq node_name (Some "provides") then
      (as_xmldata_process_provides iter cpt, pkgnames, compulsory_for_desktops)
    else if streq node_name (Some "screenshots") then
      (as_xmldata_process_screenshots_tag priv iter cpt, pkgnames,
       compulsory_for_desktops)
    else if streq node_name (Some "project_license") then
      match content with
      | Some content =>
          (as_component_set_project_license cpt content, pkgnames,
           compulsory_for_desktops)
      | None => st
      end
    else if streq node_name (Some "project_group") then
      match content with
      | Some content =>
          (as_component_set_project_group cpt content, pkgnames,
           compulsory_for_desktops)
      | None => st
      end
    else if streq node_name (Some "developer_name") then
      match lang with
      | Some lang =>
          (as_component_set_developer_name cpt content lang, pkgnames,
           compulsory_for_desktops)
      | None => st
      end
    else if streq node_name (Some "compulsory_for_desktop") then
      match content with
      | Some content => (cpt, pkgnames, (compulsory_for_desktops ++ [content])%list)
      | None => st
      end
    else if streq node_name (Some "releases") then
      (as_xmldata_process_releases_tag priv iter cpt, pkgnames, compulsory_for_desktops)
    else if streq node_name (Some "extends") then
      match content with
      | Some content =>
          (as_component_add_extends cpt content, pkgnames, compulsory_for_desktops)
      | None => st
      end
    else if streq node_name (Some "languages") then
      (as_xmldata_process_languages_tag priv iter cpt, pkgnames,
       compulsory_for_desktops)
    else if streq node_name (Some "bundle") then
      match content with
      | Some content =>
          let type_str := xmlGetProp iter "type" in
          let bundle_kind := as_bundle_kind_from_string type_str in
          let bundle_kind :=
            if negb (bundle_kind =? AS_BUNDLE_KIND_UNKNOWN)
            then AS_BUNDLE_KIND_LIMBA
            else bundle_kind in
          (as_component_add_bundle_id cpt bundle_kind content, pkgnames,
           compulsory_for_desktops)
      | None => st
      end
    else st.

(** The record [as_xmldata_parse_component_node] holds when it reaches its
    validity test. *)
Definition parse_component_record (priv : AsXMLDataPrivate) (node : xmlNode)
    : AsComponent :=
  let cpt := as_component_new in
  let cpt := as_xmldata_set_component_type_from_node node cpt in
  let cpt := as_component_set_priority cpt (priv_default_priority priv) in
  let cpt := as_component_set_active_locale cpt (priv_locale priv) in
  let '(cpt, pkgnames, compulsory_for_desktops) :=
    fold_left (parse_component_child priv) (node_children node) (cpt, [], []) in
  let cpt := as_component_set_origin cpt (priv_origin priv) in
  let cpt := as_component_set_pkgnames cpt pkgnames in
  as_component_set_compulsory_for_desktops cpt compulsory_for_desktops.

(** Returns the component (NULL on failure) and the error it set. *)
Definition as_xmldata_parse_component_node (priv : AsXMLDataPrivate) (node : xmlNode)
    (allow_invalid : bool) : option AsComponent * option GError :=
  let cpt := parse_component_record priv node in
  if allow_invalid || as_component_is_valid cpt then (Some cpt, None)
  else
    let cpt_str := as_component_to_string cpt in
    (None,
     Some {| error_code := AS_METADATA_ERROR_FAILED;
             error_message := "Invalid component: " ++ cpt_str |}).

(** The loop of [as_xmldata_parse_components_node] over the children that
    are left; it stops at the first error. *)
Fixpoint parse_components_children (priv : AsXMLDataPrivate) (cpts : list AsComponent)
    (children : list xmlNode) (allow_invalid : bool)
    : list AsComponent * option GError :=
  match children with
  | [] => (cpts, None)
  | iter :: rest =>
      if negb (is_element iter) then
        parse_components_children priv cpts rest allow_invalid
      else if streq (Some (node_name iter)) (Some "component") then
        match as_xmldata_parse_component_node priv iter allow_invalid with
        | (_, Some tmp_error) => (cpts, Some tmp_error)
        | (Some cpt, None) =>
            parse_components_children priv (cpts ++ [cpt])%list rest allow_invalid
        | (None, None) => parse_components_children priv cpts rest allow_invalid
        end
      else parse_components_children priv cpts rest allow_invalid
  end.

(** The fields of the state [as_xmldata_parse_components_node] writes from
    the attributes of the root.  The source stores the pointer to the
    [media_baseurl] string and releases the string at once: without the
    attribute the field is NULL, with it the field points to released
    memory, and what the decoder later reads there is
    [read_freed_string] of the attribute. *)
Definition components_node_state (priv : AsXMLDataPrivate) (node : xmlNode)
    : AsXMLDataPrivate :=
  let priv := priv <| priv_origin := xmlGetProp node "origin" |> in
  let media_baseurl := xmlGetProp node "media_baseurl" in
  let priv :=
    priv <| priv_media_baseurl := option_map read_freed_string media_baseurl |> in
  match xmlGetProp node "priority" with
  | Some priority_str =>
      priv <| priv_default_priority := gint_of (g_ascii_strtoll priority_str) |>
  | None => priv
  end.

Definition as_xmldata_parse_components_node (priv : AsXMLDataPrivate)
    (cpts : list AsComponent) (node : xmlNode) (allow_invalid : bool)
    : AsXMLDataPrivate * list AsComponent * option GError :=
  let priv := components_node_state priv node in
  let '(cpts, error) :=
    parse_components_children priv cpts (node_children node) allow_invalid in
  (priv, cpts, error).
End Decode.

(** ** Encoding *)

(** The locale write helper: the node children are added to, and the shared
    [<description>] node of upstream mode.  That node is the last child of
    [helper_parent] from its creation on; the model holds it apart in
    [helper_nd] while it grows and links it in [helper_close]. *)
Record AsLocaleWriteHelper : Type := {
  helper_parent : xmlNode;
  helper_nd : option xmlNode
}.

Definition helper_close (helper : AsLocaleWriteHelper) : xmlNode :=
  match helper_nd helper with
  | Some d => xmlAddChild (helper_parent helper) d
  | None => helper_parent helper
  end.

Section Encode.
Context {ext : AsCollaborators}.

Definition as_xmldata_xml_add_node (root : xmlNode) (name : string)
    (value : option string) : xmlNode :=
  if as_str_empty value then root
  else xmlAddChild root (new_text_child name value).

(** The loop of [as_xmldata_xml_add_description] that copies the children
    of the parsed markup under [dnode]. *)
Definition add_description_children (priv : AsXMLDataPrivate) (dnode droot : xmlNode)
    (lang : string) : xmlNode :=
  let localized := negb (streq (Some lang) (Some "C")) in
  let tag (cn : xmlNode) : xmlNode :=
    if AsParserMode_eqb (priv_mode priv) AS_PARSER_MODE_UPSTREAM && localized
    then xmlNewProp cn "xml:lang" (Some lang)
    else cn in
  fold_left
    (fun dnode iter =>
       if streq (Some (node_name iter)) (Some "ul")
          || streq (Some (node_name iter)) (Some "ol")
       then
         let enumNode := xmlNewNode (node_name iter) in
         let enumNode :=
           fold_left (fun enumNode iter2 => xmlAddChild enumNode (tag iter2))
             (node_children iter) enumNode in
         xmlAddChild dnode enumNode
       else xmlAddChild dnode (tag iter))
    (node_children droot) dnode.

Definition as_xmldata_xml_add_description (priv : AsXMLDataPrivate)
    (helper : AsLocaleWriteHelper) (description_markup : option string) (lang : string)
    : AsLocaleWriteHelper * bool :=
  if as_str_empty description_markup then (helper, false)
  else
    let xmldata := "<root>" ++ printf_s description_markup ++ "</root>" in
    match xmlParseDoc xmldata with
    | None => (helper, false)
    | Some doc =>
        match xmlDocGetRootElement doc with
        | None => (helper, false)
        | Some droot =>
            if AsParserMode_eqb (priv_mode priv) AS_PARSER_MODE_UPSTREAM then
              let dnode :=
                match helper_nd helper with
                | None => xmlNewNode "description"
                | Some d => d
                end in
              let dnode := add_description_children priv dnode droot lang in
              (helper <| helper_nd := Some dnode |>, true)
            else
              let dnode := xmlNewNode "description" in
              let localized := negb (streq (Some lang) (Some "C")) in
              let dnode :=
                if localized then xmlNewProp dnode "xml:lang" (Some lang) else dnode in
              let dnode := add_description_children priv dnode droot lang in
              (helper <| helper_parent ::= fun p => xmlAddChild p dnode |>, true)
        end
    end.

Definition as_xmldata_xml_add_node_list (root : xmlNode) (name : option string)
    (child_name : string) (strv : option (list string)) : xmlNode :=
  match strv with
  | None => root
  | Some strv =>
      let fill (node : xmlNode) : xmlNode :=
        fold_left (fun node s => xmlAddChild node (new_text_child child_name (Some s)))
          strv node in
      match name with
      | None => fill root
      | Some name => xmlAddChild root (fill (new_text_child name None))
      end
  end.

Definition _as_xmldata_lang_hashtable_to_nodes (node_name : string) (key : string)
    (value : option string) (parent : xmlNode) : xmlNode :=
  if as_str_empty value then parent
  else
    let cnode := new_text_child node_name value in
    let cnode :=
      if negb (streq (Some key) (Some "C")) then xmlNewProp cnode "xml:lang" (Some key)
      else cnode in
    xmlAddChild parent cnode.

Definition _as_xmldata_desc_lang_hashtable_to_nodes (priv : AsXMLDataPrivate)
    (key : string) (value : string) (helper : AsLocaleWriteHelper)
    : AsLocaleWriteHelper :=
  if as_str_empty (Some value) then helper
  else fst (as_xmldata_xml_add_description priv helper (Some value) key).

Definition _as_xmldata_serialize_image (img : AsImage) (subnode : xmlNode) : xmlNode :=
  let n_image := new_text_child "image" (img_url img) in
  let n_image :=
    match img_kind img with
    | AS_IMAGE_KIND_THUMBNAIL => xmlNewProp n_image "type" (Some "thumbnail")
    | AS_IMAGE_KIND_SOURCE => xmlNewProp n_image "type" (Some "source")
    end in
  let n_image :=
    if (0 <? img_width img) && (0 <? img_height img) then
      let n_image :=
        xmlNewProp n_image "width" (Some (printf_i (img_width img))) in
      xmlNewProp n_image "height" (Some (printf_i (img_height img)))
    else n_image in
  xmlAddChild subnode n_image.

Definition screenshot_to_node (sshot : AsScreenshot) : xmlNode :=
  let subnode := new_text_child "screenshot" (Some "") in
  let subnode :=
    match scr_kind sshot with
    | AS_SCREENSHOT_KIND_DEFAULT => xmlNewProp subnode "type" (Some "default")
    | AS_SCREENSHOT_KIND_NORMAL => subnode
    end in
  let str := as_screenshot_get_caption sshot in
  let subnode :=
    if negb (streq str (Some "")) then xmlAddChild subnode (new_text_child "caption" str)
    else subnode in
  fold_left (fun subnode img => _as_xmldata_serialize_image img subnode)
    (scr_images sshot) subnode.

Definition as_xmldata_add_screenshot_subnodes (cpt : AsComponent) (root : xmlNode)
    : xmlNode :=
  fold_left (fun root sshot => xmlAddChild root (screenshot_to_node sshot))
    (as_component_get_screenshots cpt) root.

(** The [<release>] element [as_xmldata_add_release_subnodes] writes for one
    release. *)
Definition release_to_node (priv : AsXMLDataPrivate) (release : AsRelease) : xmlNode :=
  let subnode := new_text_child "release" (Some "") in
  let subnode := xmlNewProp subnode "version" (as_release_get_version release) in
  let unixtime := glong_of (as_release_get_timestamp release) in
  let subnode :=
    if 0 <? unixtime then
      if AsParserMode_eqb (priv_mode priv) AS_PARSER_MODE_DISTRO then
        let time_str := printf_d unixtime in
        xmlNewProp subnode "timestamp" (Some time_str)
      else
        let time_str := g_time_val_to_iso8601 unixtime in
        xmlNewProp subnode "date" time_str
    else subnode in
  let subnode :=
    if negb (as_release_get_urgency release =? AS_URGENCY_KIND_UNKNOWN) then
      let urgency_str := as_urgency_kind_to_string (as_release_get_urgency release) in
      xmlNewProp subnode "urgency" urgency_str
    else subnode in
  let subnode :=
    fold_left (fun subnode lurl => xmlAddChild subnode (new_text_child "location" lurl))
      (as_release_get_locations release) subnode in
  let subnode :=
    fold_left
      (fun subnode j =>
         match as_release_get_checksum release j with
         | Some cs =>
             let cs_node := new_text_child "checksum" (Some cs) in
             let cs_node := xmlNewProp cs_node "type" (as_checksum_kind_to_string j) in
             xmlAddChild subnode cs_node
         | None => subnode
         end)
      (enum_range 0 AS_CHECKSUM_KIND_LAST) subnode in
  let subnode :=
    fold_left
      (fun subnode j =>
         if 0 <? as_release_get_size release j then
           let size_str := printf_d (as_release_get_size release j) in
           let s_node := new_text_child "size" (Some size_str) in
           let s_node := xmlNewProp s_node "type" (as_size_kind_to_string j) in
           xmlAddChild subnode s_node
         else subnode)
      (enum_range 0 AS_SIZE_KIND_LAST) subnode in
  let str := as_release_get_description release in
  if negb (streq str (Some "")) then xmlAddChild subnode (new_text_child "description" str)
  else subnode.

Definition as_xmldata_add_release_subnodes (priv : AsXMLDataPrivate) (cpt : AsComponent)
    (root : xmlNode) : xmlNode :=
  fold_left (fun root release => xmlAddChild root (release_to_node priv release))
    (as_component_get_releases cpt) root.

Definition as_xmldata_component_to_node (priv : AsXMLDataPrivate) (cpt : AsComponent)
    : option xmlNode :=
  let kind := as_component_get_kind cpt in
  let cnode := xmlNewNode "component" in
  let cnode :=
    if negb (kind =? AS_COMPONENT_KIND_GENERIC) && negb (kind =? AS_COMPONENT_KIND_UNKNOWN)
    then xmlNewProp cnode "type" (as_component_kind_to_string kind)
    else cnode in
  let cnode := as_xmldata_xml_add_node cnode "id" (as_component_get_id cpt) in
  let cnode :=
    g_hash_table_foreach (as_component_get_name_table cpt)
      (_as_xmldata_lang_hashtable_to_nodes "name") cnode in
  let cnode :=
    g_hash_table_foreach (as_component_get_summary_table cpt)
      (_as_xmldata_lang_hashtable_to_nodes "summary") cnode in
  let cnode :=
    g_hash_table_foreach (as_component_get_developer_name_table cpt)
      (_as_xmldata_lang_hashtable_to_nodes "developer_name") cnode in
  let cnode :=
    helper_close
      (g_hash_table_foreach (as_component_get_description_table cpt)
         (_as_xmldata_desc_lang_hashtable_to_nodes priv)
         {| helper_parent := cnode; helper_nd := None |}) in
  let cnode :=
    as_xmldata_xml_add_node cnode "project_license"
      (as_component_get_project_license cpt) in
  let cnode :=
    as_xmldata_xml_add_node cnode "project_group" (as_component_get_project_group cpt) in
  let cnode :=
    as_xmldata_xml_add_node_list cnode None "pkgname" (as_component_get_pkgnames cpt) in
  let cnode :=
    as_xmldata_xml_add_node_list cnode None "extends"
      (Some (as_component_get_extends cpt)) in
  let cnode :=
    as_xmldata_xml_add_node_list cnode None "compulsory_for_desktop"
      (as_component_get_compulsory_for_desktops cpt) in
  let cnode :=
    as_xmldata_xml_add_node_list cnode (Some "keywords") "keyword"
      (as_component_get_keywords cpt) in
  let cnode :=
    as_xmldata_xml_add_node_list cnode (Some "categories") "category"
      (as_component_get_categories cpt) in
  let cnode :=
    fold_left
      (fun cnode i =>
         match as_component_get_url cpt i with
         | None => cnode
         | Some value =>
             let n := new_text_child "url" (Some value) in
             xmlAddChild cnode (xmlNewProp n "type" (as_url_kind_to_string i))
         end)
      (enum_range AS_URL_KIND_UNKNOWN AS_URL_KIND_LAST) cnode in
  let cnode :=
    fold_left
      (fun cnode icon =>
         let value :=
           match icon_kind icon with
           | AS_ICON_KIND_LOCAL => icon_filename icon
           | AS_ICON_KIND_REMOTE => icon_url icon
           | _ => icon_name icon
           end in
         match value with
         | None => cnode
         | Some value =>
             let n := new_text_child "icon" (Some value) in
             xmlAddChild cnode
               (xmlNewProp n "type" (as_icon_kind_to_string (icon_kind icon)))
         end)
      (as_component_get_icons cpt) cnode in
  let cnode :=
    fold_left
      (fun cnode i =>
         match as_component_get_bundle_id cpt i with
         | None => cnode
         | Some value =>
             let n := new_text_child "bundle" (Some value) in
             xmlAddChild cnode (xmlNewProp n "type" (as_bundle_kind_to_string i))
         end)
      (enum_range AS_BUNDLE_KIND_UNKNOWN AS_BUNDLE_KIND_LAST) cnode in
  let cnode :=
    match as_component_get_releases cpt with
    | [] => cnode
    | _ :: _ =>
        xmlAddChild cnode
          (as_xmldata_add_release_subnodes priv cpt (new_text_child "releases" None))
    end in
  let cnode :=
    match as_component_get_screenshots cpt with
    | [] => cnode
    | _ :: _ =>
        xmlAddChild cnode
          (as_xmldata_add_screenshot_subnodes cpt (new_text_child "screenshots" None))
    end in
  Some cnode.

(** ** Documents *)

Definition g_set_error_literal (code : AsMetadataError) (message : string) : GError :=
  {| error_code := code; error_message := message |}.

(** Returns the state, the component (NULL when there is none) and the
    error that was set. *)
Definition as_xmldata_parse_upstream_data (priv : AsXMLDataPrivate)
    (data : option string) : AsXMLDataPrivate * option AsComponent * option GError :=
  match data with
  | None => (priv, None, None)
  | Some data =>
      match xmlParseDoc data with
      | None =>
          (priv, None,
           Some (g_set_error_literal AS_METADATA_ERROR_FAILED "Could not parse XML!"))
      | Some doc =>
          match xmlDocGetRootElement doc with
          | None =>
              (priv, None,
               Some (g_set_error_literal AS_METADATA_ERROR_FAILED
                       "The XML document appears to be empty."))
          | Some root =>
              let priv := set_mode priv AS_PARSER_MODE_UPSTREAM in
              if streq (Some (node_name root)) (Some "components") then
                (priv, None,
                 Some (g_set_error_literal AS_METADATA_ERROR_UNEXPECTED_FORMAT_KIND
                         "Tried to parse distro metadata as upstream metadata."))
              else if streq (Some (node_name root)) (Some "component") then
                let '(cpt, error) := as_xmldata_parse_component_node priv root true in
                (priv, cpt, error)
              else if streq (Some (node_name root)) (Some "application") then
                let '(cpt, error) := as_xmldata_parse_component_node priv root true in
                (priv, cpt, error)
              else
                (priv, None,
                 Some (g_set_error_literal AS_METADATA_ERROR_FAILED
                         "XML file does not contain valid AppStream data!"))
          end
      end
  end.

(** Returns the state, the array of components (NULL when none was
    created) and the error that was set. *)
Definition as_xmldata_parse_distro_data (priv : AsXMLDataPrivate)
    (data : option string)
    : AsXMLDataPrivate * option (list AsComponent) * option GError :=
  match data with
  | None => (priv, None, None)
  | Some data =>
      match xmlParseDoc data with
      | None =>
          (priv, None,
           Some (g_set_error_literal AS_METADATA_ERROR_FAILED "Could not parse XML!"))
      | Some doc =>
          match xmlDocGetRootElement doc with
          | None =>
              (priv, None,
               Some (g_set_error_literal AS_METADATA_ERROR_FAILED
                       "The XML document is empty."))
          | Some root =>
              let priv := set_mode priv AS_PARSER_MODE_DISTRO in
              let cpts : list AsComponent := [] in
              if streq (Some (node_name root)) (Some "components") then
                let '(priv, cpts, error) :=
                  as_xmldata_parse_components_node priv cpts root false in
                (priv, Some cpts, error)
              else if streq (Some (node_name root)) (Some "component") then
                match as_xmldata_parse_component_node priv root true with
                | (Some cpt, error) => (priv, Some (cpts ++ [cpt])%list, error)
                | (None, error) => (priv, Some cpts, error)
                end
              else
                (priv, Some cpts,
                 Some (g_set_error_literal AS_METADATA_ERROR_FAILED
                         "XML file does not contain valid AppStream data!"))
          end
      end
  end.


(** The root element [as_xmldata_serialize_to_distro] builds for a list
    that is not empty; [priv] is the state with the mode already set. *)
Definition serialize_distro_root (priv : AsXMLDataPrivate) (cpts : list AsComponent)
    : xmlNode :=
  let root := xmlNewNode "components" in
  let root := xmlNewProp root "version" (Some "0.8") in
  let root :=
    match priv_origin priv with
    | Some origin => xmlNewProp root "origin" (Some origin)
    | None => root
    end in
  fold_left
    (fun root cpt =>
       match as_xmldata_component_to_node priv cpt with
       | None => root
       | Some node => xmlAddChild root node
       end)
    cpts root.

(** Returns the state and the XML text, NULL when nothing was written. *)
Definition as_xmldata_serialize_to_distro (priv : AsXMLDataPrivate)
    (cpts : list AsComponent) : AsXMLDataPrivate * option string :=
  if (Z.of_nat (length cpts) =? 0) then (priv, None)
  else
    let priv := set_mode priv AS_PARSER_MODE_DISTRO in
    let root := serialize_distro_root priv cpts in
    let doc := {| doc_root := Some root |} in
    (priv, Some (xmlDocDumpMemory doc)).
End Encode.

(** ** A sample of the collaborators

    One concrete [AsCollaborators], to run the model on documents: a parser
    that knows the documents of a given table, a plain printer of trees,
    decimal number conversions, a table of dates, a mark in place of what
    released memory reads as, and the enumerations with the first few of
    their values. *)

Definition dquote : string := String "034"%char EmptyString.

Fixpoint sample_node_dump (n : xmlNode) : string :=
  match n with
  | XmlNode XML_ELEMENT_NODE nm ps _ ch =>
      let attrs :=
        String.concat ""
          (map (fun kv => " " ++ fst kv ++ "=" ++ dquote ++ snd kv ++ dquote) ps) in
      match ch with
      | [] => "<" ++ nm ++ attrs ++ "/>"
      | _ :: _ =>
          "<" ++ nm ++ attrs ++ ">" ++ String.concat "" (map sample_node_dump ch)
              ++ "</" ++ nm ++ ">"
      end
  | XmlNode XML_TEXT_NODE _ _ c _ => c
  | XmlNode XML_CDATA_SECTION_NODE _ _ c _ => "<![CDATA[" ++ c ++ "]]>"
  | XmlNode XML_COMMENT_NODE _ _ c _ => "<!--" ++ c ++ "-->"
  end.

Definition sample_doc_dump (doc : xmlDoc) : string :=
  match doc_root doc with
  | Some root => sample_node_dump root
  | None => ""
  end.

Definition digit_of (c : ascii) : option Z :=
  let n := nat_of_ascii c in
  if ((48 <=? n) && (n <=? 57))%nat then Some (Z.of_nat n - 48) else None.

Fixpoint parse_digits (s : string) (acc : Z) : Z :=
  match s with
  | EmptyString => acc
  | String c s' =>
      match digit_of c with
      | Some d => parse_digits s' (10 * acc + d)
      | None => acc
      end
  end.

Definition sample_strtoll (s : string) : Z :=
  match g_strchug s with
  | String "-"%char s' => Z.max (- 2 ^ 63) (- parse_digits s' 0)
  | String "+"%char s' => Z.min (2 ^ 63 - 1) (parse_digits s' 0)
  | s' => Z.min (2 ^ 63 - 1) (parse_digits s' 0)
  end.

Definition sample_strtoull (s : string) : Z :=
  match g_strchug s with
  | String "-"%char s' => (- Z.min (2 ^ 64 - 1) (parse_digits s' 0)) mod 2 ^ 64
  | String "+"%char s' => Z.min (2 ^ 64 - 1) (parse_digits s' 0)
  | s' => Z.min (2 ^ 64 - 1) (parse_digits s' 0)
  end.

Definition sample_dates : list (string * Z) :=
  [("2020-01-01T00:00:00", 1577836800); ("2016-02-29", 1456704000)].

Definition sample_kind_from_string (names : list (string * Z)) (unknown : Z)
    (s : option string) : Z :=
  match s with
  | Some s =>
      match str_lookup names s with
      | Some k => k
      | None => unknown
      end
  | None => unknown
  end.

Definition sample_kind_to_string (names : list (string * Z)) (k : Z) : option string :=
  option_map fst (find (fun kv => snd kv =? k) names).

Definition sample_component_kinds : list (string * Z) :=
  [("generic", 1); ("desktop", 2); ("font", 3); ("codec", 4); ("inputmethod", 5);
   ("addon", 6); ("firmware", 7)].
Definition sample_url_kinds : list (string * Z) :=
  [("homepage", 1); ("bugtracker", 2); ("faq", 3); ("help", 4); ("donation", 5)].
Definition sample_bundle_kinds : list (string * Z) := [("limba", 1); ("xdg-app", 2)].
Definition sample_checksum_kinds : list (string * Z) := [("sha1", 1); ("sha256", 2)].
Definition sample_size_kinds : list (string * Z) := [("download", 1); ("installed", 2)].
Definition sample_urgency_kinds : list (string * Z) :=
  [("low", 1); ("medium", 2); ("high", 3); ("critical", 4)].

Definition sample_localized (active : option string) (t : list (string * string))
    : option string :=
  match active with
  | Some l =>
      match str_lookup t l with
      | Some v => Some v
      | None => str_lookup t "C"
      end
  | None => str_lookup t "C"
  end.

Definition sample_collaborators (docs : list (string * xmlDoc)) : AsCollaborators :=
  {| xmlParseDoc := str_lookup docs;
     xmlNodeDump := sample_node_dump;
     xmlDocDumpMemory := sample_doc_dump;
     g_ascii_strtoll := sample_strtoll;
     g_ascii_strtoull := sample_strtoull;
     g_build_filename := fun a b => a ++ "/" ++ b;
     read_freed_string := fun _ => "?";
     g_time_val_to_iso8601 :=
       fun t => option_map fst (find (fun kv => snd kv =? t) sample_dates);
     as_iso8601_to_datetime := str_lookup sample_dates;
     AS_COMPONENT_KIND_UNKNOWN := 0;
     AS_COMPONENT_KIND_GENERIC := 1;
     as_component_kind_from_string := sample_kind_from_string sample_component_kinds 0;
     as_component_kind_to_string := sample_kind_to_string sample_component_kinds;
     AS_URL_KIND_UNKNOWN := 0;
     AS_URL_KIND_LAST := 6;
     as_url_kind_from_string := sample_kind_from_string sample_url_kinds 0;
     as_url_kind_to_string := sample_kind_to_string sample_url_kinds;
     AS_BUNDLE_KIND_UNKNOWN := 0;
     AS_BUNDLE_KIND_LIMBA := 1;
     AS_BUNDLE_KIND_LAST := 3;
     as_bundle_kind_from_string := sample_kind_from_string sample_bundle_kinds 0;
     as_bundle_kind_to_string := sample_kind_to_string sample_bundle_kinds;
     AS_CHECKSUM_KIND_NONE := 0;
     AS_CHECKSUM_KIND_LAST := 3;
     as_checksum_kind_from_string := sample_kind_from_string sample_checksum_kinds 0;
     as_checksum_kind_to_string := sample_kind_to_string sample_checksum_kinds;
     AS_SIZE_KIND_UNKNOWN := 0;
     AS_SIZE_KIND_LAST := 3;
     as_size_kind_from_string := sample_kind_from_string sample_size_kinds 0;
     as_size_kind_to_string := sample_kind_to_string sample_size_kinds;
     AS_URGENCY_KIND_UNKNOWN := 0;
     as_urgency_kind_from_string := sample_kind_from_string sample_urgency_kinds 0;
     as_urgency_kind_to_string := sample_kind_to_string sample_urgency_kinds;
     as_icon_kind_to_string :=
       fun k =>
         match k with
         | AS_ICON_KIND_UNKNOWN => Some "unknown"
         | AS_ICON_KIND_STOCK => Some "stock"
         | AS_ICON_KIND_CACHED => Some "cached"
         | AS_ICON_KIND_LOCAL => Some "local"
         | AS_ICON_KIND_REMOTE => Some "remote"
         end;
     as_component_is_valid := fun cpt => negb (as_str_empty (cpt_id cpt));
     as_component_to_string := fun cpt => "[AsComponent::" ++ printf_s (cpt_id cpt) ++ "]";
     as_screenshot_is_valid :=
       fun scr => match scr_images scr with [] => false | _ :: _ => true end;
     as_screenshot_get_caption :=
       fun scr => sample_localized (scr_active_locale scr) (scr_caption scr);
     as_release_get_description :=
       fun rel => sample_localized (rel_active_locale rel) (rel_description rel) |}.

(** Shorthands for writing documents down. *)
Definition elem (name : string) (attrs : list (string * string)) (children : list xmlNode)
    : xmlNode :=
  XmlNode XML_ELEMENT_NODE name attrs "" children.
Definition text (s : string) : xmlNode := xmlNewText s.

(** ** Statements of the specification

    Definitions that follow the wording of the specification, to compare
    the code with. *)


(** The children of a [<releases>] node that are release elements. *)
Definition release_element (n : xmlNode) : bool :=
  is_element n && streq (Some (node_name n)) (Some "release").

(** The children of a [<components>] node that are component elements. *)
Definition component_element (n : xmlNode) : bool :=
  is_element n && streq (Some (node_name n)) (Some "component").

(** The error [as_xmldata_parse_component_node] sets for a record that is
    not valid. *)
Definition invalid_component_error {ext : AsCollaborators} (cpt : AsComponent) : GError :=
  {| error_code := AS_METADATA_ERROR_FAILED;
     error_message := "Invalid component: " ++ as_component_to_string cpt |}.

(** Sample documents. *)
Definition sample_releases : xmlNode :=
  elem "releases" []
    [elem "release"
       [("version", "1.2"); ("date", "2020-01-01T00:00:00"); ("timestamp", "1600000000")]
       [];
     text " ";
     elem "release" [("version", "1.1"); ("date", "yesterday")] [];
     elem "release" [("version", "1.0"); ("date", "2016-02-29")] []].

Definition sample_collection_text : string :=
  "<components version='0.8' origin='sample'>"
  ++ "<component><id>a.desktop</id></component>"
  ++ "<component><name>B</name></component>"
  ++ "<component><id>c.desktop</id></component>"
  ++ "</components>".

Definition sample_collection_first : xmlNode :=
  elem "component" [] [elem "id" [] [text "a.desktop"]].
Definition sample_collection_second : xmlNode :=
  elem "component" [] [elem "name" [] [text "B"]].
Definition sample_collection_third : xmlNode :=
  elem "component" [] [elem "id" [] [text "c.desktop"]].

Definition sample_collection_root : xmlNode :=
  elem "components" [("version", "0.8"); ("origin", "sample")]
    [sample_collection_first; sample_collection_second; sample_collection_third].

Definition sample_collection_docs : list (string * xmlDoc) :=
  [(sample_collection_text, {| doc_root := Some sample_collection_root |})].

(** The line the upstream description decoder appends for one child. *)
Definition description_line (iter : xmlNode) : string :=
  newline ++ "<" ++ node_name iter ++ ">" ++ printf_s (as_xmldata_get_node_value iter)
          ++ "</" ++ node_name iter ++ ">".

(** The element children whose locale resolves to the key [k]. *)
Definition locale_child (priv : AsXMLDataPrivate) (k : string) (iter : xmlNode) : bool :=
  is_element iter && streq (as_xmldata_get_node_locale priv iter) (Some k).

(** An element that holds text nodes only, its text, and its markup: the
    text between the opening and the closing tag of its name. *)
Definition text_only (iter : xmlNode) : bool := forallb is_text (node_children iter).

Definition text_of (iter : xmlNode) : string :=
  concat_strings (map node_content (node_children iter)).

Definition text_element_markup (iter : xmlNode) : string :=
  "<" ++ node_name iter ++ ">" ++ text_of iter ++ "</" ++ node_name iter ++ ">".

(** The description string of the specification for the locale key [k]: the
    markup of the children that resolve to [k], joined with a newline as
    separator. *)
Definition spec_upstream_description (serialize : xmlNode -> string)
    (priv : AsXMLDataPrivate) (node : xmlNode) (k : string) : option string :=
  match filter (locale_child priv k) (node_children node) with
  | [] => None
  | matched => Some (String.concat newline (map serialize matched))
  end.

Definition sample_description : xmlNode :=
  elem "description" []
    [elem "p" [] [text "Hello"];
     elem "p" [("lang", "de")] [text "Hallo"];
     elem "p" [("lang", "fr")] [text "Salut"];
     elem "p" [] [text "World"]].

Definition sample_paragraph : xmlNode :=
  elem "description" [] [elem "p" [] [text "Hello"]].

(** The number [as_xmldata_process_screenshot] reads from the [width] or
    [height] attribute of an image. *)
Definition image_size_attribute {ext : AsCollaborators} (iter : xmlNode) (name : string)
    : Z :=
  match xmlGetProp iter name with
  | None => 0
  | Some str => guint64_of (g_ascii_strtoll str)
  end.

Definition sample_image_sized : xmlNode :=
  elem "image" [("width", "800"); ("height", "600")] [text "http://example.org/a.png"].
Definition sample_image_unsized : xmlNode :=
  elem "image" [] [text "http://example.org/b.png"].

Definition sample_screenshot : xmlNode :=
  elem "screenshot" [("type", "default")] ([sample_image_sized] ++ [sample_image_unsized]).

Definition sample_distro_state : AsXMLDataPrivate :=
  set_mode (as_xmldata_initialize as_xmldata_init "C" None None 0) AS_PARSER_MODE_DISTRO.
Definition sample_upstream_state : AsXMLDataPrivate :=
  set_mode (as_xmldata_initialize as_xmldata_init "C" None None 0) AS_PARSER_MODE_UPSTREAM.

(** The kind [as_xmldata_parse_component_node] files a bundle id under. *)
Definition stored_bundle_kind {ext : AsCollaborators} (type_str : option string) : Z :=
  if as_bundle_kind_from_string type_str =? AS_BUNDLE_KIND_UNKNOWN
  then AS_BUNDLE_KIND_UNKNOWN
  else AS_BUNDLE_KIND_LIMBA.

(** The text of an element with the white space at its ends taken off. *)
Definition stripped_content (iter : xmlNode) : string :=
  g_strchomp (g_strchug (xmlBufGetNodeContent iter)).

Definition sample_bundle_component : xmlNode :=
  elem "component" []
    ([elem "id" [] [text "org.example.App"]]
       ++ [elem "bundle" [("type", "xdg-app")] [text " org.example.App "]]).

Definition sample_provides : xmlNode :=
  elem "provides" []
    ([elem "firmware" [("type", "runtime")] [text "x.bin"]]
       ++ [elem "firmware" [] [text "y.bin"]]).

(** A text libxml2 parses to a document without a root element. *)
Definition sample_rootless_text : string := "<!-- nothing -->".
Definition sample_rootless_docs : list (string * xmlDoc) :=
  [(sample_rootless_text, {| doc_root := None |})].

Definition sample_release : AsRelease :=
  as_release_set_timestamp (as_release_set_version as_release_new (Some "1.2")) 1577836800.

Definition sample_upstream_text : string := "<component type='desktop'>...</component>".

Definition sample_upstream_root : xmlNode :=
  elem "component" [("type", "desktop")]
    [text " ";
     elem "id" [] [text "org.example.App"];
     elem "name" [] [text "App"];
     elem "name" [("lang", "de")] [text "Anwendung"];
     elem "name" [("lang", "fr")] [text "Appli"];
     elem "summary" [] [text " An example "];
     elem "description" []
       [elem "p" [] [text "Hello"]; elem "p" [("lang", "de")] [text "Hallo"]];
     elem "url" [("type", "homepage")] [text "http://example.org"];
     elem "provides" []
       [elem "binary" [] [text "app"];
        elem "firmware" [("type", "flashed")] [text "x.bin"];
        elem "dbus" [("type", "session")] [text "org.example.App"];
        elem "dbus" [] [text "org.example.Dropped"]];
     elem "bundle" [("type", "limba")] [text "app-1.0"];
     elem "releases" []
       [elem "release" [("version", "1.0"); ("timestamp", "1600000000")]
          [elem "size" [("type", "download")] [text "2048"]]]].

Definition sample_upstream_docs : list (string * xmlDoc) :=
  [(sample_upstream_text, {| doc_root := Some sample_upstream_root |})].

Definition sample_list_description : xmlNode :=
  elem "description" []
    [elem "ul" [] [elem "li" [] [text "one"]; elem "li" [] [text "two"]]].

(** The element children of the given name. *)
Definition named_element (name : string) (n : xmlNode) : bool :=
  is_element n && streq (Some (node_name n)) (Some name).

(** The fields the context stamps on a component before the loop. *)
Definition same_stamp (c1 c2 : AsComponent) : Prop :=
  cpt_priority c1 = cpt_priority c2 /\ cpt_active_locale c1 = cpt_active_locale c2.

(** What [as_xmldata_parse_component_node] does with the state of its loop
    once the children are through. *)
Definition component_finish (priv : AsXMLDataPrivate)
    (st : AsComponent * list string * list string) : AsComponent :=
  let '(cpt, pkgnames, compulsory_for_desktops) := st in
  as_component_set_compulsory_for_desktops
    (as_component_set_pkgnames (as_component_set_origin cpt (priv_origin priv)) pkgnames)
    compulsory_for_desktops.

Definition sample_collection_state : AsXMLDataPrivate :=
  as_xmldata_initialize as_xmldata_init "C" None None 5.

Definition sample_legacy_component : xmlNode :=
  elem "component" []
    ([elem "name" [] [text "App"]]
       ++ [elem "id" [("type", "desktop")] [text " app.desktop "]]).

Definition sample_icon_component : xmlNode :=
  elem "component" []
    ([elem "icon" [("type", "stock")] [text "app"];
      elem "icon" [("type", "huge")] [text "dropped.png"]]
       ++ [elem "icon" [("type", "remote")] [text "icons/app.png"]]).

Definition sample_media_state : AsXMLDataPrivate :=
  set_mode
    (as_xmldata_initialize as_xmldata_init "C" None (Some "http://media.example.org") 0)
    AS_PARSER_MODE_DISTRO.

Definition sample_url_component : xmlNode :=
  elem "component" []
    ([elem "url" [("type", "homepage")] [text "http://old.example.org"];
      elem "url" [("type", "blog")] [text "http://blog.example.org"]]
       ++ [elem "url" [("type", "homepage")] [text " http://example.org "]]).

Definition sample_languages_component : xmlNode :=
  elem "component" []
    ([] ++ [elem "languages" []
              [elem "lang" [("percentage", "96")] [text "gu"];
               elem "lang" [("lang", "de"); ("percentage", "80")] [text "de"];
               elem "lang" [("lang", "fr")] [text "fr"]]]).

(** The percentage [as_xmldata_process_languages_tag] reads from a [<lang>]
    element. *)
Definition language_percentage {ext : AsCollaborators} (iter : xmlNode) : Z :=
  match xmlGetProp iter "percentage" with
  | Some prop => guint64_of (g_ascii_strtoll prop)
  | None => 0
  end.

Definition sample_categories_component : xmlNode :=
  elem "component" []
    ([elem "categories" [] [elem "category" [] [text "Old"]]]
       ++ [elem "categories" []
             [text " "; elem "category" [] [text " Game "]; elem "keyword" [] [text "x"];
              elem "category" [] [text "Puzzle"]]]).

(** The number [as_xmldata_process_releases_tag] reads from the text of a
    [<size>] element. *)
Definition size_content {ext : AsCollaborators} (iter2 : xmlNode) : Z :=
  match as_xmldata_get_node_value iter2 with
  | Some content => g_ascii_strtoull content
  | None => 0
  end.

Definition sample_checksum_release : xmlNode :=
  elem "release" [("version", "1.0")]
    ([elem "checksum" [("type", "sha256")] [text "aaaa"];
      elem "checksum" [("type", "md5")] [text "cccc"];
      elem "size" [("type", "installed")] [text "0"]]
       ++ [elem "checksum" [("type", "sha256")] [text "bbbb"]]).

Definition sample_size_release : xmlNode :=
  elem "release" [("version", "1.0")]
    ([elem "size" [("type", "installed")] [text "none"]]
       ++ [elem "size" [("type", "download")] [text "2048"]]).

Definition sample_distro_description_component : xmlNode :=
  elem "component" []
    ([elem "description" [("lang", "fr")] [elem "p" [] [text "Salut"]]]
       ++ [elem "description" []
             [text " "; elem "p" [] [text "Hello"];
              elem "ul" [] [elem "li" [] [text "one"]]]]).

Definition sample_application_text : string := "<application>...</application>".
Definition sample_application_root : xmlNode :=
  elem "application" [] [elem "name" [] [text "No id"]].
Definition sample_application_docs : list (string * xmlDoc) :=
  [(sample_application_text, {| doc_root := Some sample_application_root |})].

(** Type, name and attributes of a node: what adding children leaves as it
    is. *)
Definition same_shell (n1 n2 : xmlNode) : Prop :=
  node_type n1 = node_type n2
  /\ node_name n1 = node_name n2
  /\ node_properties n1 = node_properties n2.


(** The screenshot record built from one [<screenshot>] element for a
    component whose active locale is [locale]. *)
Definition screenshot_record {ext : AsCollaborators} (priv : AsXMLDataPrivate)
    (locale : option string) (iter : xmlNode) : AsScreenshot :=
  let sshot := as_screenshot_set_active_locale as_screenshot_new locale in
  let sshot :=
    if streq (xmlGetProp iter "type") (Some "default")
    then as_screenshot_set_kind sshot AS_SCREENSHOT_KIND_DEFAULT
    else sshot in
  as_xmldata_process_screenshot priv iter sshot.

(** The names of the children [as_xmldata_parse_component_node] looks at. *)
Definition component_child_names : list string :=
  ["id"; "pkgname"; "source_pkgname"; "name"; "summary"; "description"; "icon"; "url";
   "categories"; "keywords"; "mimetypes"; "provides"; "screenshots"; "project_license";
   "project_group"; "developer_name"; "compulsory_for_desktop"; "releases"; "extends";
   "languages"; "bundle"].

(** The names of the children [as_xmldata_process_provides] looks at. *)
Definition provides_child_names : list string :=
  ["library"; "binary"; "font"; "modalias"; "firmware"; "python2"; "python3"; "dbus"].

Definition sample_screenshots : xmlNode :=
  elem "screenshots" []
    [elem "screenshot" [("type", "default")]
       [elem "caption" [] [text " Main window "];
        elem "caption" [("lang", "fr")] [text "Fenetre"];
        elem "image" [] [text "http://example.org/a.png"]];
     elem "screenshot" [] [elem "caption" [] [text "No image"]]].

Definition sample_unknown_component : xmlNode :=
  elem "component" []
    ([elem "id" [] [text "org.example.App"]]
       ++ [elem "metadata" [] [elem "value" [("key", "x")] [text "y"]]]).

(** The element names [as_xmldata_process_provides] turns into an item
    whatever their attributes, with the kind of the item. *)
Definition plain_provided_kinds : list (string * AsProvidedKind) :=
  [("library", AS_PROVIDED_KIND_LIBRARY); ("binary", AS_PROVIDED_KIND_BINARY);
   ("font", AS_PROVIDED_KIND_FONT); ("modalias", AS_PROVIDED_KIND_MODALIAS);
   ("python2", AS_PROVIDED_KIND_PYTHON_2); ("python3", AS_PROVIDED_KIND_PYTHON)].

Definition sample_plain_provides : xmlNode :=
  elem "provides" []
    ([elem "binary" [] [text " foo "]] ++ [elem "python3" [] [text "foomod"]]).

Definition sample_caption_screenshot : xmlNode :=
  elem "screenshot" []
    ([elem "caption" [] [text "Main window"]]
       ++ [elem "caption" [("lang", "de")] [text " Hauptfenster "]]).

Definition sample_distro_components {ext : AsCollaborators} : list AsComponent :=
  [as_component_set_id as_component_new (Some "org.example.One");
   as_component_set_id (as_component_set_kind as_component_new 2) (Some "org.example.Two")].



(** An element written as the upstream description decoder writes it: the
    text of everything below it between the tags of its own name; the tags
    of elements nested in it are not in it. *)
Definition flattened_markup (iter : xmlNode) : string :=
  "<" ++ node_name iter ++ ">" ++ xmlBufGetNodeContent iter
      ++ "</" ++ node_name iter ++ ">".

Definition sample_valid_collection_text : string :=
  "<components version='0.8' origin='sample'>"
  ++ "<component><id>a.desktop</id></component>"
  ++ "<component><id>c.desktop</id></component>"
  ++ "</components>".

Definition sample_valid_collection_root : xmlNode :=
  elem "components" [("version", "0.8"); ("origin", "sample")]
    [sample_collection_first; sample_collection_third].

Definition sample_valid_collection_docs : list (string * xmlDoc) :=
  [(sample_valid_collection_text, {| doc_root := Some sample_valid_collection_root |})].

(** * Properties *)

(** ** String comparison *)

Lemma string_compare_refl (s : string) : String.compare s s = Eq.
Proof.
  pose proof (String.compare_antisym s s) as H.
  destruct (String.compare s s); simpl in H; congruence.
Qed.

Lemma strcmp_zero (a b : string) : strcmp a b = 0 <-> a = b.
Proof.
  unfold strcmp; split.
  - destruct (String.compare a b) eqn:E; try discriminate.
    intros _; now apply String.compare_eq_iff.
  - intros ->; now rewrite string_compare_refl.
Qed.

Lemma streq_true (a b : option string) : streq a b = true <-> a = b.
Proof.
  unfold streq; rewrite Z.eqb_eq.
  destruct a as [a|], b as [b|]; simpl; try (split; congruence).
  rewrite strcmp_zero; split; congruence.
Qed.

Lemma streq_false (a b : option string) : streq a b = false <-> a <> b.
Proof.
  rewrite <- streq_true; destruct (streq a b); split; congruence.
Qed.

Lemma streq_refl (a : option string) : streq a a = true.
Proof. now apply streq_true. Qed.

Lemma streq_Some (a b : string) : streq (Some a) (Some b) = (a =? b)%string.
Proof.
  destruct (String.eqb_spec a b) as [->|N].
  - apply streq_refl.
  - apply streq_false; congruence.
Qed.

Lemma streq_None_Some (b : string) : streq None (Some b) = false.
Proof. reflexivity. Qed.

(** ** The locale of a node *)



Lemma get_node_locale_cases (priv : AsXMLDataPrivate) (node : xmlNode) :
  as_xmldata_get_node_locale priv node =
  match xmlGetProp node "lang" with
  | None => Some "C"
  | Some lang =>
      if streq (priv_locale priv) (Some "ALL") then Some lang
      else if streq (Some lang) (priv_locale priv) then Some lang
      else if streq (Some lang) (priv_locale_short priv) then priv_locale priv
      else None
  end.
Proof. reflexivity. Qed.


(** ** Folds and tables *)

Lemma fold_left_invariant {A B : Type} (P : A -> Prop) (f : A -> B -> A)
    (l : list B) (a : A) :
  P a -> (forall a' b, P a' -> P (f a' b)) -> P (fold_left f l a).
Proof.
  revert a; induction l as [|b l IH]; simpl; intros a Ha Hf; auto.
Qed.

Lemma str_lookup_insert {V : Type} (t : list (string * V)) (k k' : string) (v : V) :
  str_lookup (str_insert t k v) k'
  = if (k =? k')%string then Some v else str_lookup t k'.
Proof.
  unfold str_lookup, str_insert.
  induction t as [|[k0 v0] t IH]; simpl.
  - reflexivity.
  - destruct (String.eqb_spec k0 k) as [->|N]; simpl.
    + destruct (k =? k')%string; reflexivity.
    + rewrite IH. destruct (String.eqb_spec k0 k') as [->|N'].
      * destruct (String.eqb_spec k k'); congruence.
      * reflexivity.
Qed.

Lemma enum_lookup_insert {V : Type} (t : list (Z * V)) (k k' : Z) (v : V) :
  enum_lookup (enum_insert t k v) k' = if k =? k' then Some v else enum_lookup t k'.
Proof.
  unfold enum_lookup, enum_insert.
  induction t as [|[k0 v0] t IH]; simpl.
  - reflexivity.
  - destruct (Z.eqb_spec k0 k) as [->|N]; simpl.
    + destruct (k =? k'); reflexivity.
    + rewrite IH. destruct (Z.eqb_spec k0 k') as [->|N'].
      * destruct (Z.eqb_spec k k'); congruence.
      * reflexivity.
Qed.

(** ** Release timestamps *)

Section ReleaseTimestamp.
Context {ext : AsCollaborators}.

Lemma foreach_release_timestamp (desc : list (string * string)) (rel : AsRelease) :
  rel_timestamp (g_hash_table_foreach desc as_xmldata_upstream_description_to_release rel)
  = rel_timestamp rel.
Proof.
  unfold g_hash_table_foreach.
  apply (fold_left_invariant (fun r => rel_timestamp r = rel_timestamp rel)); auto.
Qed.

Lemma process_release_child_timestamp (priv : AsXMLDataPrivate) (iter iter2 : xmlNode)
    (rel : AsRelease) :
  rel_timestamp (process_release_child priv iter rel iter2) = rel_timestamp rel.
Proof.
  unfold process_release_child, as_xmldata_parse_upstream_description_tag.
  repeat match goal with
         | |- context [if ?c then _ else _] => destruct c
         | |- context [match ?c with Some _ => _ | None => _ end] => destruct c
         end;
    try reflexivity; apply foreach_release_timestamp.
Qed.

Lemma process_release_children_timestamp (priv : AsXMLDataPrivate) (iter : xmlNode)
    (l : list xmlNode) (rel : AsRelease) :
  rel_timestamp (fold_left (process_release_child priv iter) l rel) = rel_timestamp rel.
Proof.
  apply (fold_left_invariant (fun r => rel_timestamp r = rel_timestamp rel)); auto.
  intros r b Hr. now rewrite process_release_child_timestamp.
Qed.

(** The timestamp of the record of a release element, by its [date] and
    [timestamp] attributes. *)
Lemma process_release_timestamp (priv : AsXMLDataPrivate) (cpt : AsComponent)
    (iter : xmlNode) :
  rel_timestamp (process_release priv cpt iter)
  = match xmlGetProp iter "timestamp" with
    | Some t => guint64_of (g_ascii_strtoll t)
    | None =>
        match xmlGetProp iter "date" with
        | Some d =>
            match as_iso8601_to_datetime d with
            | Some time => time
            | None => rel_timestamp as_release_new
            end
        | None => rel_timestamp as_release_new
        end
    end.
Proof.
  unfold process_release. rewrite process_release_children_timestamp.
  destruct (xmlGetProp iter "urgency"), (xmlGetProp iter "timestamp");
    try reflexivity;
    destruct (xmlGetProp iter "date") as [d|]; try reflexivity;
    destruct (as_iso8601_to_datetime d); reflexivity.
Qed.

Lemma process_release_active_locale (priv : AsXMLDataPrivate) (c1 c2 : AsComponent)
    (iter : xmlNode) :
  as_component_get_active_locale c1 = as_component_get_active_locale c2 ->
  process_release priv c1 iter = process_release priv c2 iter.
Proof. unfold process_release; intros ->; reflexivity. Qed.

(** Every [<release>] element of a [<releases>] node gives one release
    record, in document order; nothing else does. *)
Lemma process_releases_tag_releases (priv : AsXMLDataPrivate) (node : xmlNode)
    (cpt : AsComponent) :
  cpt_releases (as_xmldata_process_releases_tag priv node cpt)
  = (cpt_releases cpt
     ++ map (process_release priv cpt) (filter release_element (node_children node)))%list.
Proof.
  unfold as_xmldata_process_releases_tag.
  set (step := fun (cpt : AsComponent) (iter : xmlNode) => _).
  assert (H : forall l c,
             as_component_get_active_locale c = as_component_get_active_locale cpt ->
             as_component_get_active_locale (fold_left step l c)
             = as_component_get_active_locale cpt
             /\ cpt_releases (fold_left step l c)
                = (cpt_releases c
                   ++ map (process_release priv cpt) (filter release_element l))%list).
  { induction l as [|n l IH]; intros c Hc; simpl.
    - now rewrite app_nil_r.
    - unfold release_element at 1. unfold step at 2 4.
      destruct (is_element n); simpl; [|now apply IH].
      destruct (streq (Some (node_name n)) (Some "release")); [|now apply IH].
      destruct (IH (as_component_add_release c (process_release priv c n)) Hc)
        as [IH1 IH2].
      split; [exact IH1|].
      rewrite IH2; simpl. rewrite <- app_assoc; simpl.
      now rewrite (process_release_active_locale priv c cpt n Hc). }
  now apply H.
Qed.
End ReleaseTimestamp.

(** C2.  Decoding of releases: each [<release>] element gives one release
    record whatever its attributes hold; when it carries a [date] and a
    [timestamp] attribute the record's timestamp is the number read from the
    [timestamp] attribute; a [date] alone that parses gives its time; a
    [date] that does not parse leaves the timestamp as if the attribute were
    absent. *)
Theorem release_timestamp_precedence {ext : AsCollaborators} (priv : AsXMLDataPrivate)
    (node : xmlNode) (cpt : AsComponent) :
  cpt_releases (as_xmldata_process_releases_tag priv node cpt)
  = (cpt_releases cpt
     ++ map (process_release priv cpt) (filter release_element (node_children node)))%list
  /\
  (forall iter d t,
     xmlGetProp iter "date" = Some d ->
     xmlGetProp iter "timestamp" = Some t ->
     rel_timestamp (process_release priv cpt iter) = guint64_of (g_ascii_strtoll t))
  /\
  (forall iter d time,
     xmlGetProp iter "date" = Some d ->
     as_iso8601_to_datetime d = Some time ->
     xmlGetProp iter "timestamp" = None ->
     rel_timestamp (process_release priv cpt iter) = time)
  /\
  (forall iter d,
     xmlGetProp iter "date" = Some d ->
     as_iso8601_to_datetime d = None ->
     rel_timestamp (process_release priv cpt iter)
     = match xmlGetProp iter "timestamp" with
       | Some t => guint64_of (g_ascii_strtoll t)
       | None => rel_timestamp as_release_new
       end).
Proof.
  split; [apply process_releases_tag_releases|].
  split; [|split].
  - intros iter d t Hd Ht. now rewrite process_release_timestamp, Ht.
  - intros iter d time Hd Hv Ht. now rewrite process_release_timestamp, Ht, Hd, Hv.
  - intros iter d Hd Hv. rewrite process_release_timestamp, Hd, Hv.
    now destruct (xmlGetProp iter "timestamp").
Qed.

Lemma release_timestamp_precedence_witness :
  map rel_timestamp
    (cpt_releases
       (as_xmldata_process_releases_tag (ext := sample_collaborators [])
          as_xmldata_init sample_releases (as_component_new (ext := sample_collaborators []))))
  = [1600000000; 0; 1456704000].
Proof.
  rewrite (proj1 (release_timestamp_precedence (ext := sample_collaborators [])
                    as_xmldata_init sample_releases as_component_new)).
  reflexivity.
Defined.

(** ** Collections *)

Section Collections.
Context {ext : AsCollaborators}.

Lemma parse_component_node_cases (priv : AsXMLDataPrivate) (node : xmlNode)
    (allow_invalid : bool) :
  as_xmldata_parse_component_node priv node allow_invalid
  = if allow_invalid || as_component_is_valid (parse_component_record priv node)
    then (Some (parse_component_record priv node), None)
    else (None, Some (invalid_component_error (parse_component_record priv node))).
Proof. reflexivity. Qed.

(** The loop over the children of a collection whose components are all
    valid up to one that is not. *)
Lemma parse_components_children_abort (priv : AsXMLDataPrivate)
    (pre : list xmlNode) (bad : xmlNode) (post : list xmlNode) :
  (forall n, In n pre -> component_element n = true ->
             as_component_is_valid (parse_component_record priv n) = true) ->
  component_element bad = true ->
  as_component_is_valid (parse_component_record priv bad) = false ->
  forall cpts,
    parse_components_children priv cpts (pre ++ bad :: post) false
    = ((cpts ++ map (parse_component_record priv) (filter component_element pre))%list,
       Some (invalid_component_error (parse_component_record priv bad))).
Proof.
  intros Hpre Hbad Hinv.
  induction pre as [|n pre IH]; intros cpts; simpl.
  - unfold component_element in Hbad. apply andb_prop in Hbad as [Hb1 Hb2].
    rewrite Hb1, Hb2; simpl.
    rewrite parse_component_node_cases, Hinv; simpl. now rewrite app_nil_r.
  - assert (Hpre' : forall m, In m pre -> component_element m = true ->
              as_component_is_valid (parse_component_record priv m) = true)
      by (intros m Hm; apply Hpre; now right).
    specialize (IH Hpre').
    pose proof (Hpre n (or_introl eq_refl)) as Hn.
    unfold component_element in *.
    destruct (is_element n); simpl; [|apply IH].
    destruct (streq (Some (node_name n)) (Some "component")); simpl; [|apply IH].
    rewrite parse_component_node_cases, (Hn eq_refl); simpl.
    rewrite IH, <- app_assoc. reflexivity.
Qed.

(** When every component is valid the loop decodes all of them. *)
Lemma parse_components_children_all_valid (priv : AsXMLDataPrivate)
    (l : list xmlNode) :
  (forall n, In n l -> component_element n = true ->
             as_component_is_valid (parse_component_record priv n) = true) ->
  forall cpts,
    parse_components_children priv cpts l false
    = ((cpts ++ map (parse_component_record priv) (filter component_element l))%list,
       None).
Proof.
  induction l as [|n l IH]; intros Hl cpts; simpl.
  - now rewrite app_nil_r.
  - assert (Hl' : forall m, In m l -> component_element m = true ->
              as_component_is_valid (parse_component_record priv m) = true)
      by (intros m Hm; apply Hl; now right).
    specialize (IH Hl').
    pose proof (Hl n (or_introl eq_refl)) as Hn.
    unfold component_element in *.
    destruct (is_element n); simpl; [|apply IH].
    destruct (streq (Some (node_name n)) (Some "component")); simpl; [|apply IH].
    rewrite parse_component_node_cases, (Hn eq_refl); simpl.
    rewrite IH, <- app_assoc. reflexivity.
Qed.
End Collections.

(** C3.  A distro parse of a [<components>] document in which a component
    element decodes to a record that is not valid, all component elements
    before it being valid: the parse sets the error that carries the dump of
    that record, the array it hands back holds the components decoded
    before it, in order, and whatever follows the failing element has no
    part in the result.  The root carries no [media_baseurl] attribute:
    with one the state points to released memory, and the records built
    from it are not determined by the program. *)
Theorem invalid_component_aborts_collection {ext : AsCollaborators}
    (priv : AsXMLDataPrivate) (data : string) (doc : xmlDoc) (root : xmlNode)
    (pre : list xmlNode) (bad : xmlNode) (post : list xmlNode) :
  xmlParseDoc data = Some doc ->
  xmlDocGetRootElement doc = Some root ->
  node_name root = "components" ->
  xmlGetProp root "media_baseurl" = None ->
  node_children root = (pre ++ bad :: post)%list ->
  (forall n, In n pre -> component_element n = true ->
     as_component_is_valid
       (parse_component_record
          (components_node_state (set_mode priv AS_PARSER_MODE_DISTRO) root) n) = true) ->
  component_element bad = true ->
  as_component_is_valid
    (parse_component_record
       (components_node_state (set_mode priv AS_PARSER_MODE_DISTRO) root) bad) = false ->
  as_xmldata_parse_distro_data priv (Some data)
  = (components_node_state (set_mode priv AS_PARSER_MODE_DISTRO) root,
     Some (map (parse_component_record
                  (components_node_state (set_mode priv AS_PARSER_MODE_DISTRO) root))
             (filter component_element pre)),
     Some (invalid_component_error
             (parse_component_record
                (components_node_state (set_mode priv AS_PARSER_MODE_DISTRO) root) bad))).
Proof.
  intros Hdoc Hroot Hname _ Hch Hpre Hbad Hinv.
  unfold as_xmldata_parse_distro_data.
  rewrite Hdoc, Hroot, Hname; simpl.
  unfold as_xmldata_parse_components_node.
  rewrite Hch, (parse_components_children_abort _ pre bad post Hpre Hbad Hinv).
  reflexivity.
Qed.

Lemma invalid_component_aborts_collection_witness :
  let '(_, cpts, error) :=
    as_xmldata_parse_distro_data (ext := sample_collaborators sample_collection_docs)
      (as_xmldata_initialize as_xmldata_init "C" None None 0)
      (Some sample_collection_text) in
  option_map (map cpt_id) cpts = Some [Some "a.desktop"]
  /\ error = Some {| error_code := AS_METADATA_ERROR_FAILED;
                     error_message := "Invalid component: [AsComponent::(null)]" |}.
Proof.
  rewrite (invalid_component_aborts_collection
             (ext := sample_collaborators sample_collection_docs)
             (as_xmldata_initialize as_xmldata_init "C" None None 0)
             sample_collection_text
             {| doc_root := Some sample_collection_root |}
             sample_collection_root
             [sample_collection_first] sample_collection_second [sample_collection_third]
             eq_refl eq_refl eq_refl eq_refl eq_refl).
  - split; reflexivity.
  - intros n [<-|[]] _; reflexivity.
  - reflexivity.
  - reflexivity.
Defined.

(** ** Upstream descriptions *)

Lemma string_app_assoc (a b c : string) : (a ++ b) ++ c = a ++ (b ++ c).
Proof. induction a as [|x a IH]; simpl; [reflexivity|now rewrite IH]. Qed.

Lemma string_app_nil_r (a : string) : a ++ "" = a.
Proof. induction a as [|x a IH]; simpl; [reflexivity|now rewrite IH]. Qed.

Lemma str_lookup_not_in {V : Type} (t : list (string * V)) (k : string) :
  ~ In k (map fst t) -> str_lookup t k = None.
Proof.
  unfold str_lookup. induction t as [|[k0 v0] t IH]; simpl; intros H; [reflexivity|].
  destruct (String.eqb_spec k0 k) as [->|N]; [tauto|]. apply IH; tauto.
Qed.

Lemma str_insert_keys {V : Type} (t : list (string * V)) (k : string) (v : V) :
  NoDup (map fst t) -> NoDup (map fst (str_insert t k v)).
Proof.
  assert (Hin : forall (t : list (string * V)) x,
             In x (map fst (str_insert t k v)) -> x = k \/ In x (map fst t)).
  { clear t. unfold str_insert. induction t as [|[k0 v0] t IH]; simpl; intros x Hx.
    - destruct Hx as [<-|[]]; auto.
    - destruct (String.eqb_spec k0 k); simpl in *.
      + destruct Hx; auto.
      + destruct Hx as [<-|Hx]; auto. destruct (IH _ Hx); auto. }
  induction t as [|[k0 v0] t IH]; simpl; intros Hnd.
  - constructor; [intros []|constructor].
  - inversion Hnd as [|? ? Hni Hnd']; subst.
    unfold str_insert in *; simpl.
    destruct (String.eqb_spec k0 k); simpl.
    + constructor; assumption.
    + constructor; [|now apply IH].
      intros Hx. destruct (Hin _ _ Hx); [congruence|tauto].
Qed.

Section UpstreamDescription.
Context {ext : AsCollaborators}.

(** The table after the loop, read at one key: the lines of the children
    of that key, in document order, after what the key held before. *)
Lemma upstream_description_fold (priv : AsXMLDataPrivate) (k : string)
    (l : list xmlNode) (desc : list (string * string)) :
  str_lookup (fold_left (upstream_description_child priv) l desc) k
  = match filter (locale_child priv k) l with
    | [] => str_lookup desc k
    | matched =>
        Some (match str_lookup desc k with Some s => s | None => "" end
              ++ concat_strings (map description_line matched))
    end.
Proof.
  revert desc; induction l as [|iter l IH]; intros desc; simpl; [reflexivity|].
  rewrite IH; clear IH.
  unfold upstream_description_child, locale_child at 2.
  destruct (is_element iter); simpl; [|reflexivity].
  destruct (as_xmldata_get_node_locale priv iter) as [lang|]; [|reflexivity].
  rewrite streq_Some, str_lookup_insert.
  fold (description_line iter).
  destruct (String.eqb_spec lang k) as [->|N].
  - destruct (filter (locale_child priv k) l) as [|m ms]; simpl.
    + now rewrite string_app_nil_r.
    + now rewrite string_app_assoc.
  - reflexivity.
Qed.

Lemma upstream_description_keys (priv : AsXMLDataPrivate) (l : list xmlNode)
    (desc : list (string * string)) :
  NoDup (map fst desc) ->
  NoDup (map fst (fold_left (upstream_description_child priv) l desc)).
Proof.
  intros H0.
  apply (fold_left_invariant (fun d => NoDup (map fst d))); [exact H0|].
  intros d iter Hd.
  unfold upstream_description_child.
  destruct (is_element iter); simpl; [|assumption].
  destruct (as_xmldata_get_node_locale priv iter); [|assumption].
  now apply str_insert_keys.
Qed.

(** Storing a table without repeated keys through a keyed setter. *)
Lemma foreach_keyed_lookup {E : Type} (get : E -> list (string * string))
    (set : string -> string -> E -> E)
    (Hset : forall key value e, get (set key value e) = str_insert (get e) key value)
    (desc : list (string * string)) (e : E) (k : string) :
  NoDup (map fst desc) ->
  str_lookup (get (g_hash_table_foreach desc set e)) k
  = match str_lookup desc k with
    | Some v => Some v
    | None => str_lookup (get e) k
    end.
Proof.
  unfold g_hash_table_foreach.
  revert e; induction desc as [|[k0 v0] desc IH]; intros e Hnd; simpl; [reflexivity|].
  inversion Hnd as [|? ? Hni Hnd']; subst.
  rewrite (IH _ Hnd'), Hset, str_lookup_insert.
  unfold str_lookup at 3; simpl. fold (@str_lookup string desc k).
  destruct (String.eqb_spec k0 k) as [->|N]; [|reflexivity].
  now rewrite (str_lookup_not_in desc k Hni).
Qed.

Lemma text_only_content (iter : xmlNode) :
  is_element iter = true -> text_only iter = true ->
  as_xmldata_get_node_value iter = Some (text_of iter).
Proof.
  destruct iter as [t nm ps c ch]; unfold is_element, text_only, text_of; simpl.
  destruct t; try discriminate. intros _ Hch.
  unfold as_xmldata_get_node_value; simpl. do 2 f_equal.
  induction ch as [|[t' nm' ps' c' ch'] ch IH]; simpl in *; [reflexivity|].
  apply andb_prop in Hch as [H1 H2]. rewrite (IH H2).
  unfold is_text in H1; simpl in H1. destruct t'; try discriminate; reflexivity.
Qed.

Lemma upstream_description_table_lookup (priv : AsXMLDataPrivate) (node : xmlNode)
    (k : string) :
  str_lookup (upstream_description_table priv node) k
  = match filter (locale_child priv k) (node_children node) with
    | [] => None
    | matched => Some (concat_strings (map description_line matched))
    end.
Proof.
  unfold upstream_description_table. rewrite upstream_description_fold.
  reflexivity.
Qed.
End UpstreamDescription.

Lemma element_node_value (iter : xmlNode) :
  is_element iter = true ->
  as_xmldata_get_node_value iter = Some (xmlBufGetNodeContent iter).
Proof.
  destruct iter as [t nm ps c ch]; unfold is_element; simpl.
  destruct t; try discriminate; reflexivity.
Qed.

Lemma description_lines_flattened (priv : AsXMLDataPrivate)
    (k : string) (l : list xmlNode) :
  map description_line (filter (locale_child priv k) l)
  = map (fun iter => newline ++ flattened_markup iter) (filter (locale_child priv k) l).
Proof.
  apply map_ext_in. intros iter Hin.
  apply filter_In in Hin as [_ Hk].
  unfold locale_child in Hk. apply andb_prop in Hk as [He _].
  unfold description_line, flattened_markup, as_xmldata_get_node_value.
  destruct iter as [t nm ps c ch]. unfold is_element in He; simpl in He.
  destruct t; try discriminate. reflexivity.
Qed.

(** C4, as the code has it.  Decoding an upstream [<description>] element
    files its element children under the locale key each resolves to, and
    leaves out a child whose locale does not resolve.  The string of a key
    is, for each of its children in document order, a newline followed by
    the text content of the child between the tags of the child's name:
    for a child that holds only text that is its text, for a child with
    elements nested in it the text of all of them with their tags dropped.
    So the string of every key that has a child begins with a newline.  It
    is stored on the component, or on the release, under that key, and a
    key without children keeps what it had. *)
Theorem upstream_description_by_locale
    (priv : AsXMLDataPrivate) (node : xmlNode) (cpt : AsComponent) (rel : AsRelease)
    (k : string) :
  str_lookup
    (cpt_description
       (as_xmldata_parse_upstream_description_tag priv node
          as_xmldata_upstream_description_to_cpt cpt)) k
  = match filter (locale_child priv k) (node_children node) with
    | [] => str_lookup (cpt_description cpt) k
    | matched =>
        Some (concat_strings
                (map (fun iter => newline ++ flattened_markup iter) matched))
    end
  /\
  str_lookup
    (rel_description
       (as_xmldata_parse_upstream_description_tag priv node
          as_xmldata_upstream_description_to_release rel)) k
  = match filter (locale_child priv k) (node_children node) with
    | [] => str_lookup (rel_description rel) k
    | matched =>
        Some (concat_strings
                (map (fun iter => newline ++ flattened_markup iter) matched))
    end
  /\
  ((exists iter, In iter (node_children node) /\ locale_child priv k iter = true) ->
   exists rest,
     str_lookup
       (cpt_description
          (as_xmldata_parse_upstream_description_tag priv node
             as_xmldata_upstream_description_to_cpt cpt)) k
     = Some (newline ++ rest)
     /\
     str_lookup
       (rel_description
          (as_xmldata_parse_upstream_description_tag priv node
             as_xmldata_upstream_description_to_release rel)) k
     = Some (newline ++ rest))
  /\
  (forall iter, is_element iter = true -> text_only iter = true ->
     flattened_markup iter = text_element_markup iter).
Proof.
  pose proof (description_lines_flattened priv k (node_children node)) as Hl.
  assert (Hnd : NoDup (map fst (upstream_description_table priv node)))
    by apply upstream_description_keys, NoDup_nil.
  assert (Hc : str_lookup
                 (cpt_description
                    (as_xmldata_parse_upstream_description_tag priv node
                       as_xmldata_upstream_description_to_cpt cpt)) k
               = match filter (locale_child priv k) (node_children node) with
                 | [] => str_lookup (cpt_description cpt) k
                 | matched =>
                     Some (concat_strings
                             (map (fun iter => newline ++ flattened_markup iter) matched))
                 end).
  { unfold as_xmldata_parse_upstream_description_tag; cbv zeta.
    rewrite (foreach_keyed_lookup cpt_description
               as_xmldata_upstream_description_to_cpt (fun _ _ _ => eq_refl) _ _ _ Hnd).
    rewrite upstream_description_table_lookup.
    destruct (filter (locale_child priv k) (node_children node)); [reflexivity|].
    now rewrite Hl. }
  assert (Hr : str_lookup
                 (rel_description
                    (as_xmldata_parse_upstream_description_tag priv node
                       as_xmldata_upstream_description_to_release rel)) k
               = match filter (locale_child priv k) (node_children node) with
                 | [] => str_lookup (rel_description rel) k
                 | matched =>
                     Some (concat_strings
                             (map (fun iter => newline ++ flattened_markup iter) matched))
                 end).
  { unfold as_xmldata_parse_upstream_description_tag; cbv zeta.
    rewrite (foreach_keyed_lookup rel_description
               as_xmldata_upstream_description_to_release (fun _ _ _ => eq_refl)
               _ _ _ Hnd).
    rewrite upstream_description_table_lookup.
    destruct (filter (locale_child priv k) (node_children node)); [reflexivity|].
    now rewrite Hl. }
  split; [exact Hc|]. split; [exact Hr|]. split.
  - intros (iter & Hin & Hk).
    assert (Hf : In iter (filter (locale_child priv k) (node_children node)))
      by (apply filter_In; split; assumption).
    rewrite Hc, Hr.
    destruct (filter (locale_child priv k) (node_children node)) as [|m ms];
      [destruct Hf|].
    exists (flattened_markup m
            ++ concat_strings (map (fun iter => newline ++ flattened_markup iter) ms)).
    split; reflexivity.
  - intros iter He Ht.
    unfold flattened_markup, text_element_markup.
    pose proof (text_only_content iter He Ht) as H1.
    pose proof (element_node_value iter He) as H2.
    rewrite H1 in H2. injection H2 as ->. reflexivity.
Qed.

Lemma upstream_description_by_locale_witness :
  str_lookup
    (cpt_description
       (as_xmldata_parse_upstream_description_tag
          (as_xmldata_initialize as_xmldata_init "de_DE" None None 0) sample_description
          as_xmldata_upstream_description_to_cpt
          (as_component_new (ext := sample_collaborators [])))) "C"
  = Some (newline ++ "<p>Hello</p>" ++ newline ++ "<p>World</p>")
  /\
  str_lookup
    (cpt_description
       (as_xmldata_parse_upstream_description_tag
          (as_xmldata_initialize as_xmldata_init "de_DE" None None 0) sample_description
          as_xmldata_upstream_description_to_cpt
          (as_component_new (ext := sample_collaborators [])))) "de_DE"
  = Some (newline ++ "<p>Hallo</p>")
  /\
  str_lookup
    (cpt_description
       (as_xmldata_parse_upstream_description_tag
          (as_xmldata_initialize as_xmldata_init "de_DE" None None 0) sample_description
          as_xmldata_upstream_description_to_cpt
          (as_component_new (ext := sample_collaborators [])))) "fr"
  = None
  /\
  str_lookup
    (cpt_description
       (as_xmldata_parse_upstream_description_tag
          (as_xmldata_initialize as_xmldata_init "C" None None 0) sample_list_description
          as_xmldata_upstream_description_to_cpt
          (as_component_new (ext := sample_collaborators [])))) "C"
  = Some (newline ++ "<ul>onetwo</ul>")
  /\
  exists rest,
    str_lookup
      (cpt_description
         (as_xmldata_parse_upstream_description_tag
            (as_xmldata_initialize as_xmldata_init "C" None None 0) sample_paragraph
            as_xmldata_upstream_description_to_cpt
            (as_component_new (ext := sample_collaborators [])))) "C"
    = Some (newline ++ rest).
Proof.
  split; [|split; [|split; [|split]]].
  - rewrite (proj1 (upstream_description_by_locale
                      _ sample_description _ as_release_new "C")).
    reflexivity.
  - rewrite (proj1 (upstream_description_by_locale
                      _ sample_description _ as_release_new "de_DE")).
    reflexivity.
  - rewrite (proj1 (upstream_description_by_locale
                      _ sample_description _ as_release_new "fr")).
    reflexivity.
  - rewrite (proj1 (upstream_description_by_locale
                      _ sample_list_description _ as_release_new "C")).
    reflexivity.
  - destruct (proj1 (proj2 (proj2
                (upstream_description_by_locale
                   (as_xmldata_initialize as_xmldata_init "C" None None 0)
                   sample_paragraph (as_component_new (ext := sample_collaborators []))
                   as_release_new "C"))))
      as [rest [H _]].
    + exists (elem "p" [] [text "Hello"]). split; [left; reflexivity|reflexivity].
    + exists rest. exact H.
Defined.

(** C4 as the specification words it fails on a description of one
    paragraph: the specification joins the markup of the children with a
    newline between them, which gives the paragraph alone; the code puts a
    newline before every child, the first included. *)
Lemma upstream_description_separator_counterexample :
  str_lookup
    (cpt_description
       (as_xmldata_parse_upstream_description_tag
          (as_xmldata_initialize as_xmldata_init "C" None None 0) sample_paragraph
          as_xmldata_upstream_description_to_cpt
          (as_component_new (ext := sample_collaborators [])))) "C"
  = Some (newline ++ "<p>Hello</p>")
  /\
  spec_upstream_description sample_node_dump
    (as_xmldata_initialize as_xmldata_init "C" None None 0) sample_paragraph "C"
  = Some "<p>Hello</p>"
  /\
  str_lookup
    (cpt_description
       (as_xmldata_parse_upstream_description_tag
          (as_xmldata_initialize as_xmldata_init "C" None None 0) sample_paragraph
          as_xmldata_upstream_description_to_cpt
          (as_component_new (ext := sample_collaborators [])))) "C"
  <> spec_upstream_description sample_node_dump
       (as_xmldata_initialize as_xmldata_init "C" None None 0) sample_paragraph "C".
Proof.
  split; [reflexivity|]. split; [reflexivity|]. vm_compute. discriminate.
Qed.

(** ** Screenshots *)

Lemma process_screenshot_last {ext : AsCollaborators} (priv : AsXMLDataPrivate)
    (t : xmlElementType) (nm : string) (ps : list (string * string)) (c : string)
    (pre : list xmlNode) (iter : xmlNode) (scr : AsScreenshot) :
  as_xmldata_process_screenshot priv (XmlNode t nm ps c (pre ++ [iter])) scr
  = process_screenshot_child priv
      (as_xmldata_process_screenshot priv (XmlNode t nm ps c pre) scr) iter.
Proof.
  unfold as_xmldata_process_screenshot; simpl. now rewrite fold_left_app.
Qed.

(** C5.  An [<image>] child of a screenshot, met after the children [pre]:
    a missing [width] or [height] attribute reads as 0; in distro mode the
    image is left out when the width or the height read is 0, and added
    with the two numbers otherwise; in upstream mode it is always added,
    with width and height 0 when the attributes are missing. *)
Theorem image_size_by_mode {ext : AsCollaborators} (priv : AsXMLDataPrivate)
    (t : xmlElementType) (nm : string) (ps : list (string * string)) (c : string)
    (pre : list xmlNode) (iter : xmlNode) (scr : AsScreenshot) :
  is_element iter = true ->
  node_name iter = "image" ->
  (xmlGetProp iter "width" = None -> image_size_attribute iter "width" = 0)
  /\
  (xmlGetProp iter "height" = None -> image_size_attribute iter "height" = 0)
  /\
  (priv_mode priv = AS_PARSER_MODE_DISTRO ->
   image_size_attribute iter "width" = 0 \/ image_size_attribute iter "height" = 0 ->
   as_xmldata_process_screenshot priv (XmlNode t nm ps c (pre ++ [iter])) scr
   = as_xmldata_process_screenshot priv (XmlNode t nm ps c pre) scr)
  /\
  (priv_mode priv = AS_PARSER_MODE_DISTRO ->
   image_size_attribute iter "width" <> 0 ->
   image_size_attribute iter "height" <> 0 ->
   exists img,
     as_xmldata_process_screenshot priv (XmlNode t nm ps c (pre ++ [iter])) scr
     = as_screenshot_add_image
         (as_xmldata_process_screenshot priv (XmlNode t nm ps c pre) scr) img
     /\ img_width img = image_size_attribute iter "width"
     /\ img_height img = image_size_attribute iter "height")
  /\
  (priv_mode priv = AS_PARSER_MODE_UPSTREAM ->
   exists img,
     as_xmldata_process_screenshot priv (XmlNode t nm ps c (pre ++ [iter])) scr
     = as_screenshot_add_image
         (as_xmldata_process_screenshot priv (XmlNode t nm ps c pre) scr) img
     /\ img_width img = image_size_attribute iter "width"
     /\ img_height img = image_size_attribute iter "height").
Proof.
  intros Hel Hname.
  split; [unfold image_size_attribute; now intros ->|].
  split; [unfold image_size_attribute; now intros ->|].
  rewrite process_screenshot_last.
  set (scr' := as_xmldata_process_screenshot priv (XmlNode t nm ps c pre) scr).
  unfold process_screenshot_child.
  rewrite Hel, Hname, (element_node_value iter Hel); simpl.
  fold (image_size_attribute iter "width"). fold (image_size_attribute iter "height").
  split; [|split].
  - intros -> [H|H]; rewrite H; simpl; [reflexivity|].
    now rewrite orb_true_r.
  - intros -> Hw Hh; simpl.
    apply Z.eqb_neq in Hw, Hh. rewrite Hw, Hh; simpl.
    eexists; split; [reflexivity|].
    destruct (streq (xmlGetProp iter "type") (Some "thumbnail")),
      (priv_media_baseurl priv); split; reflexivity.
  - intros ->; simpl.
    eexists; split; [reflexivity|].
    destruct (streq (xmlGetProp iter "type") (Some "thumbnail")),
      (priv_media_baseurl priv); split; reflexivity.
Qed.

Lemma image_size_by_mode_witness :
  map (fun img => (img_width img, img_height img))
    (scr_images
       (as_xmldata_process_screenshot (ext := sample_collaborators [])
          sample_distro_state sample_screenshot as_screenshot_new))
  = [(800, 600)]
  /\
  map (fun img => (img_width img, img_height img))
    (scr_images
       (as_xmldata_process_screenshot (ext := sample_collaborators [])
          sample_upstream_state sample_screenshot as_screenshot_new))
  = [(800, 600); (0, 0)].
Proof.
  pose proof (image_size_by_mode (ext := sample_collaborators []) sample_distro_state
                XML_ELEMENT_NODE "screenshot" [("type", "default")] ""
                [sample_image_sized] sample_image_unsized as_screenshot_new
                eq_refl eq_refl) as [_ [_ [Hd _]]].
  pose proof (image_size_by_mode (ext := sample_collaborators []) sample_upstream_state
                XML_ELEMENT_NODE "screenshot" [("type", "default")] ""
                [sample_image_sized] sample_image_unsized as_screenshot_new
                eq_refl eq_refl) as [_ [_ [_ [_ Hu]]]].
  split.
  - unfold sample_screenshot, elem.
    rewrite (Hd eq_refl (or_introl eq_refl)). reflexivity.
  - destruct (Hu eq_refl) as [img [E [Hw Hh]]].
    unfold sample_screenshot, elem. rewrite E.
    unfold as_screenshot_add_image; simpl scr_images.
    simpl map. rewrite Hw, Hh. reflexivity.
Defined.

(** ** Children of a component *)

Section ComponentChildren.
Context {ext : AsCollaborators}.

Lemma parse_component_node_allow_invalid (priv : AsXMLDataPrivate) (node : xmlNode) :
  as_xmldata_parse_component_node priv node true
  = (Some (parse_component_record priv node), None).
Proof. reflexivity. Qed.

(** The loop of [as_xmldata_parse_component_node] starts from a state
    that the attributes of the component fix. *)
Lemma parse_component_record_fold (priv : AsXMLDataPrivate) (t : xmlElementType)
    (nm : string) (ps : list (string * string)) (c : string) :
  exists st0,
    forall l',
      parse_component_record priv (XmlNode t nm ps c l')
      = let '(cpt, pkgnames, compulsory_for_desktops) :=
          fold_left (parse_component_child priv) l' st0 in
        as_component_set_compulsory_for_desktops
          (as_component_set_pkgnames
             (as_component_set_origin cpt (priv_origin priv)) pkgnames)
          compulsory_for_desktops.
Proof.
  exists (as_component_set_active_locale
            (as_component_set_priority
               (as_xmldata_set_component_type_from_node (XmlNode t nm ps c [])
                  as_component_new)
               (priv_default_priority priv))
            (priv_locale priv), [], []).
  intros l'; reflexivity.
Qed.

Lemma parse_component_child_bundle (priv : AsXMLDataPrivate) (cpt : AsComponent)
    (pkgnames compulsory : list string) (iter : xmlNode) :
  is_element iter = true ->
  node_name iter = "bundle" ->
  parse_component_child priv (cpt, pkgnames, compulsory) iter
  = (as_component_add_bundle_id cpt (stored_bundle_kind (xmlGetProp iter "type"))
       (stripped_content iter),
     pkgnames, compulsory).
Proof.
  intros Hel Hname. unfold parse_component_child.
  rewrite Hel, Hname, (element_node_value iter Hel). simpl.
  unfold stored_bundle_kind, stripped_content.
  destruct (Z.eqb_spec (as_bundle_kind_from_string (xmlGetProp iter "type"))
              AS_BUNDLE_KIND_UNKNOWN) as [E|N]; simpl; [now rewrite E|reflexivity].
Qed.
End ComponentChildren.

(** C6.  A [<bundle>] child of a component, met after the children [pre]:
    its stripped text is stored as bundle id under the kind LIMBA whenever
    the [type] attribute is a known bundle kind, whichever kind that is, and
    under the unknown kind when the attribute is not known. *)
Theorem bundle_kind_coerced_to_limba {ext : AsCollaborators} (priv : AsXMLDataPrivate)
    (t : xmlElementType) (nm : string) (ps : list (string * string)) (c : string)
    (pre : list xmlNode) (iter : xmlNode) :
  is_element iter = true ->
  node_name iter = "bundle" ->
  as_xmldata_parse_component_node priv (XmlNode t nm ps c (pre ++ [iter])) true
  = (Some (parse_component_record priv (XmlNode t nm ps c (pre ++ [iter]))), None)
  /\
  (as_bundle_kind_from_string (xmlGetProp iter "type") <> AS_BUNDLE_KIND_UNKNOWN ->
   cpt_bundles (parse_component_record priv (XmlNode t nm ps c (pre ++ [iter])))
   = cpt_bundles
       (as_component_add_bundle_id (parse_component_record priv (XmlNode t nm ps c pre))
          AS_BUNDLE_KIND_LIMBA (stripped_content iter))
   /\
   as_component_get_bundle_id
     (parse_component_record priv (XmlNode t nm ps c (pre ++ [iter])))
     AS_BUNDLE_KIND_LIMBA
   = Some (stripped_content iter)
   /\
   (as_bundle_kind_from_string (xmlGetProp iter "type") <> AS_BUNDLE_KIND_LIMBA ->
    as_component_get_bundle_id
      (parse_component_record priv (XmlNode t nm ps c (pre ++ [iter])))
      (as_bundle_kind_from_string (xmlGetProp iter "type"))
    = as_component_get_bundle_id (parse_component_record priv (XmlNode t nm ps c pre))
        (as_bundle_kind_from_string (xmlGetProp iter "type"))))
  /\
  (as_bundle_kind_from_string (xmlGetProp iter "type") = AS_BUNDLE_KIND_UNKNOWN ->
   cpt_bundles (parse_component_record priv (XmlNode t nm ps c (pre ++ [iter])))
   = cpt_bundles
       (as_component_add_bundle_id (parse_component_record priv (XmlNode t nm ps c pre))
          AS_BUNDLE_KIND_UNKNOWN (stripped_content iter))).
Proof.
  intros Hel Hname.
  split; [apply parse_component_node_allow_invalid|].
  destruct (parse_component_record_fold priv t nm ps c) as [st0 Hst].
  rewrite !Hst, fold_left_app; simpl.
  destruct (fold_left (parse_component_child priv) pre st0) as [[cpt0 pk] cf].
  rewrite (parse_component_child_bundle priv cpt0 pk cf iter Hel Hname).
  unfold stored_bundle_kind, as_component_get_bundle_id.
  split; intros H.
  - apply Z.eqb_neq in H. rewrite H.
    simpl. rewrite !enum_lookup_insert, Z.eqb_refl.
    repeat split. intros N. apply Z.eqb_neq in N.
    now rewrite Z.eqb_sym, N.
  - apply Z.eqb_eq in H. now rewrite H.
Qed.

Lemma bundle_kind_coerced_to_limba_witness :
  @as_bundle_kind_from_string (sample_collaborators []) (Some "xdg-app") = 2
  /\
  cpt_bundles
    (parse_component_record (ext := sample_collaborators []) sample_upstream_state
       sample_bundle_component)
  = [(@AS_BUNDLE_KIND_LIMBA (sample_collaborators []), "org.example.App")].
Proof.
  split; [reflexivity|].
  assert (Hk : @as_bundle_kind_from_string (sample_collaborators [])
                 (xmlGetProp
                    (elem "bundle" [("type", "xdg-app")] [text " org.example.App "])
                    "type")
               <> @AS_BUNDLE_KIND_UNKNOWN (sample_collaborators []))
    by (vm_compute; discriminate).
  unfold sample_bundle_component; unfold elem at 1.
  rewrite (proj1 (proj1 (proj2
             (bundle_kind_coerced_to_limba (ext := sample_collaborators [])
                sample_upstream_state XML_ELEMENT_NODE "component" [] ""
                [elem "id" [] [text "org.example.App"]]
                (elem "bundle" [("type", "xdg-app")] [text " org.example.App "])
                eq_refl eq_refl)) Hk)).
  reflexivity.
Defined.

(** ** Provided items *)

Lemma process_provides_last (t : xmlElementType) (nm : string)
    (ps : list (string * string)) (c : string) (pre : list xmlNode) (iter : xmlNode)
    (cpt : AsComponent) :
  as_xmldata_process_provides (XmlNode t nm ps c (pre ++ [iter])) cpt
  = process_provides_child (as_xmldata_process_provides (XmlNode t nm ps c pre) cpt) iter.
Proof.
  unfold as_xmldata_process_provides; simpl. now rewrite fold_left_app.
Qed.

(** C7.  A [<firmware>] or [<dbus>] child of [<provides>], met after the
    children [pre]: firmware of type "runtime" adds a firmware-runtime item
    and of type "flashed" a firmware-flashed item; dbus of type "system"
    adds a dbus-system item and of type "user" or "session" a dbus-user
    item; with any other type, or none, the element adds nothing. *)
Theorem provides_firmware_dbus (t : xmlElementType) (nm : string)
    (ps : list (string * string)) (c : string) (pre : list xmlNode) (iter : xmlNode)
    (cpt : AsComponent) :
  is_element iter = true ->
  (node_name iter = "firmware" ->
   (xmlGetProp iter "type" = Some "runtime" ->
    as_xmldata_process_provides (XmlNode t nm ps c (pre ++ [iter])) cpt
    = as_component_add_provided_item
        (as_xmldata_process_provides (XmlNode t nm ps c pre) cpt)
        AS_PROVIDED_KIND_FIRMWARE_RUNTIME (xmlBufGetNodeContent iter))
   /\
   (xmlGetProp iter "type" = Some "flashed" ->
    as_xmldata_process_provides (XmlNode t nm ps c (pre ++ [iter])) cpt
    = as_component_add_provided_item
        (as_xmldata_process_provides (XmlNode t nm ps c pre) cpt)
        AS_PROVIDED_KIND_FIRMWARE_FLASHED (xmlBufGetNodeContent iter))
   /\
   (xmlGetProp iter "type" <> Some "runtime" ->
    xmlGetProp iter "type" <> Some "flashed" ->
    as_xmldata_process_provides (XmlNode t nm ps c (pre ++ [iter])) cpt
    = as_xmldata_process_provides (XmlNode t nm ps c pre) cpt))
  /\
  (node_name iter = "dbus" ->
   (xmlGetProp iter "type" = Some "system" ->
    as_xmldata_process_provides (XmlNode t nm ps c (pre ++ [iter])) cpt
    = as_component_add_provided_item
        (as_xmldata_process_provides (XmlNode t nm ps c pre) cpt)
        AS_PROVIDED_KIND_DBUS_SYSTEM (xmlBufGetNodeContent iter))
   /\
   (xmlGetProp iter "type" = Some "user" \/ xmlGetProp iter "type" = Some "session" ->
    as_xmldata_process_provides (XmlNode t nm ps c (pre ++ [iter])) cpt
    = as_component_add_provided_item
        (as_xmldata_process_provides (XmlNode t nm ps c pre) cpt)
        AS_PROVIDED_KIND_DBUS_USER (xmlBufGetNodeContent iter))
   /\
   (xmlGetProp iter "type" <> Some "system" ->
    xmlGetProp iter "type" <> Some "user" ->
    xmlGetProp iter "type" <> Some "session" ->
    as_xmldata_process_provides (XmlNode t nm ps c (pre ++ [iter])) cpt
    = as_xmldata_process_provides (XmlNode t nm ps c pre) cpt)).
Proof.
  intros Hel.
  rewrite process_provides_last.
  set (cpt' := as_xmldata_process_provides (XmlNode t nm ps c pre) cpt).
  unfold process_provides_child. rewrite Hel, (element_node_value iter Hel); simpl.
  split; intros ->; simpl.
  - split; [|split].
    + intros ->. reflexivity.
    + intros ->. reflexivity.
    + intros N1 N2. destruct (xmlGetProp iter "type") as [ty|]; [|reflexivity].
      apply streq_false in N1, N2. now rewrite N1, N2.
  - split; [|split].
    + intros ->. reflexivity.
    + intros [-> | ->]; reflexivity.
    + intros N1 N2 N3. apply streq_false in N1, N2, N3. now rewrite N1, N2, N3.
Qed.

Lemma provides_firmware_dbus_witness :
  cpt_provided
    (as_xmldata_process_provides sample_provides
       (as_component_new (ext := sample_collaborators [])))
  = [(AS_PROVIDED_KIND_FIRMWARE_RUNTIME, "x.bin")].
Proof.
  unfold sample_provides; unfold elem at 1.
  rewrite (proj2 (proj2 (proj1
             (provides_firmware_dbus XML_ELEMENT_NODE "provides" [] ""
                [elem "firmware" [("type", "runtime")] [text "x.bin"]]
                (elem "firmware" [] [text "y.bin"])
                (as_component_new (ext := sample_collaborators [])) eq_refl)
             eq_refl))).
  - change [elem "firmware" [("type", "runtime")] [text "x.bin"]]
      with ([] ++ [elem "firmware" [("type", "runtime")] [text "x.bin"]])%list.
    rewrite (proj1 (proj1
               (provides_firmware_dbus XML_ELEMENT_NODE "provides" [] "" []
                  (elem "firmware" [("type", "runtime")] [text "x.bin"])
                  (as_component_new (ext := sample_collaborators [])) eq_refl)
               eq_refl) eq_refl).
    reflexivity.
  - discriminate.
  - discriminate.
Defined.

(** ** Trees under construction *)

Lemma xmlAddChild_properties (parent cur : xmlNode) :
  node_properties (xmlAddChild parent cur) = node_properties parent.
Proof.
  destruct parent as [t nm ps c ch]; unfold xmlAddChild.
  destruct (rev ch); [reflexivity|].
  destruct (is_text cur && is_text x && (node_name x =? node_name cur)%string);
    reflexivity.
Qed.

Lemma xmlAddChild_name (parent cur : xmlNode) :
  node_name (xmlAddChild parent cur) = node_name parent.
Proof.
  destruct parent as [t nm ps c ch]; unfold xmlAddChild.
  destruct (rev ch); [reflexivity|].
  destruct (is_text cur && is_text x && (node_name x =? node_name cur)%string);
    reflexivity.
Qed.

Lemma xmlAddChild_type (parent cur : xmlNode) :
  node_type (xmlAddChild parent cur) = node_type parent.
Proof.
  destruct parent as [t nm ps c ch]; unfold xmlAddChild.
  destruct (rev ch); [reflexivity|].
  destruct (is_text cur && is_text x && (node_name x =? node_name cur)%string);
    reflexivity.
Qed.

Lemma xmlAddChild_element (parent cur : xmlNode) :
  is_element cur = true ->
  node_children (xmlAddChild parent cur) = (node_children parent ++ [cur])%list.
Proof.
  destruct parent as [t nm ps c ch], cur as [t' nm' ps' c' ch'].
  unfold xmlAddChild, is_element, is_text; simpl.
  destruct t'; try discriminate. intros _.
  destruct (rev ch); reflexivity.
Qed.

Lemma str_lookup_app {V : Type} (t1 t2 : list (string * V)) (k : string) :
  str_lookup (t1 ++ t2)%list k
  = match str_lookup t1 k with
    | Some v => Some v
    | None => str_lookup t2 k
    end.
Proof.
  unfold str_lookup. induction t1 as [|[k0 v0] t1 IH]; simpl; [reflexivity|].
  destruct (k0 =? k)%string; [reflexivity|apply IH].
Qed.

(** ** Serializing a collection *)

Section SerializeDistro.
Context {ext : AsCollaborators}.

Lemma serialize_distro_root_shape (priv : AsXMLDataPrivate) (cpts : list AsComponent) :
  node_type (serialize_distro_root priv cpts) = XML_ELEMENT_NODE
  /\ node_name (serialize_distro_root priv cpts) = "components"
  /\ node_properties (serialize_distro_root priv cpts)
     = (("version", "0.8")
        :: match priv_origin priv with
           | Some origin => [("origin", origin)]
           | None => []
           end)%list.
Proof.
  unfold serialize_distro_root.
  apply (fold_left_invariant
           (fun root =>
              node_type root = XML_ELEMENT_NODE
              /\ node_name root = "components"
              /\ node_properties root
                 = (("version", "0.8")
                    :: match priv_origin priv with
                       | Some origin => [("origin", origin)]
                       | None => []
                       end)%list)).
  - destruct (priv_origin priv); repeat split.
  - intros root cpt (H1 & H2 & H3).
    destruct (as_xmldata_component_to_node priv cpt); [|now repeat split].
    now rewrite xmlAddChild_type, xmlAddChild_name, xmlAddChild_properties.
Qed.
End SerializeDistro.

(** C8.  Serializing a list of components to distro XML: the empty list
    gives no text; any other list gives the text of a document whose root
    element is [components], with the attribute [version] equal to "0.8"
    and with the attribute [origin] exactly when the state holds an origin,
    equal to it. *)
Theorem serialize_distro_document {ext : AsCollaborators} (priv : AsXMLDataPrivate)
    (cpts : list AsComponent) :
  (cpts = [] -> as_xmldata_serialize_to_distro priv cpts = (priv, None))
  /\
  (cpts <> [] ->
   exists root,
     as_xmldata_serialize_to_distro priv cpts
     = (set_mode priv AS_PARSER_MODE_DISTRO,
        Some (xmlDocDumpMemory {| doc_root := Some root |}))
     /\ is_element root = true
     /\ node_name root = "components"
     /\ xmlGetProp root "version" = Some "0.8"
     /\ xmlGetProp root "origin" = priv_origin priv).
Proof.
  split.
  - intros ->. reflexivity.
  - intros Hne. unfold as_xmldata_serialize_to_distro.
    destruct cpts as [|cpt cpts]; [congruence|].
    replace (Z.of_nat (length (cpt :: cpts)) =? 0) with false
      by (symmetry; apply Z.eqb_neq; simpl length; lia).
    eexists; split; [reflexivity|].
    destruct (serialize_distro_root_shape (set_mode priv AS_PARSER_MODE_DISTRO)
                (cpt :: cpts)) as (H1 & H2 & H3).
    change (priv_origin (set_mode priv AS_PARSER_MODE_DISTRO))
      with (priv_origin priv) in H3.
    unfold is_element, xmlGetProp. rewrite H1, H2, H3.
    destruct (priv_origin priv); repeat split.
Qed.

Lemma serialize_distro_document_witness :
  as_xmldata_serialize_to_distro (ext := sample_collaborators [])
    (as_xmldata_initialize as_xmldata_init "C" (Some "sample") None 0) []
  = (as_xmldata_initialize as_xmldata_init "C" (Some "sample") None 0, None)
  /\
  exists root,
    snd (as_xmldata_serialize_to_distro (ext := sample_collaborators [])
           (as_xmldata_initialize as_xmldata_init "C" (Some "sample") None 0)
           [as_component_new (ext := sample_collaborators [])])
    = Some (sample_doc_dump {| doc_root := Some root |})
    /\ xmlGetProp root "version" = Some "0.8"
    /\ xmlGetProp root "origin" = Some "sample".
Proof.
  split.
  - apply (proj1 (serialize_distro_document (ext := sample_collaborators [])
                    (as_xmldata_initialize as_xmldata_init "C" (Some "sample") None 0)
                    [])).
    reflexivity.
  - destruct (proj2 (serialize_distro_document (ext := sample_collaborators [])
                       (as_xmldata_initialize as_xmldata_init "C" (Some "sample") None 0)
                       [as_component_new (ext := sample_collaborators [])]))
      as [root [E [_ [_ [Hv Ho]]]]]; [discriminate|].
    exists root. rewrite E. split; [reflexivity|]. split; [exact Hv|exact Ho].
Defined.

(** ** Documents without a root *)

(** C9, as the code has it.  Text in which the XML parser finds no root
    element is an error for the upstream parse and for the distro parse
    alike, whichever way the parser reports it: when the parser rejects
    the text, each parse hands back no result and the error that the XML
    could not be parsed; when the parser hands back a document without a
    root, each hands back no result and an error that says the document is
    empty.  A parse hands back no result and no error exactly when it is
    given no text at all. *)
Theorem rootless_document_is_error {ext : AsCollaborators} (priv : AsXMLDataPrivate)
    (data : option string) :
  (forall text,
     data = Some text ->
     xmlParseDoc text = None ->
     as_xmldata_parse_upstream_data priv data
     = (priv, None,
        Some {| error_code := AS_METADATA_ERROR_FAILED;
                error_message := "Could not parse XML!" |})
     /\
     as_xmldata_parse_distro_data priv data
     = (priv, None,
        Some {| error_code := AS_METADATA_ERROR_FAILED;
                error_message := "Could not parse XML!" |}))
  /\
  (forall text doc,
     data = Some text ->
     xmlParseDoc text = Some doc ->
     xmlDocGetRootElement doc = None ->
     as_xmldata_parse_upstream_data priv data
     = (priv, None,
        Some {| error_code := AS_METADATA_ERROR_FAILED;
                error_message := "The XML document appears to be empty." |})
     /\
     as_xmldata_parse_distro_data priv data
     = (priv, None,
        Some {| error_code := AS_METADATA_ERROR_FAILED;
                error_message := "The XML document is empty." |}))
  /\
  (snd (fst (as_xmldata_parse_upstream_data priv data)) = None
   /\ snd (as_xmldata_parse_upstream_data priv data) = None
   <-> data = None)
  /\
  (snd (fst (as_xmldata_parse_distro_data priv data)) = None
   /\ snd (as_xmldata_parse_distro_data priv data) = None
   <-> data = None).
Proof.
  unfold as_xmldata_parse_upstream_data, as_xmldata_parse_distro_data.
  split; [|split; [|split]].
  - intros text -> ->. split; reflexivity.
  - intros text doc -> -> ->. split; reflexivity.
  - split; [|intros ->; split; reflexivity].
    destruct data as [text|]; [|reflexivity].
    intros [Hc He]. exfalso. revert Hc He.
    destruct (xmlParseDoc text) as [doc|]; [|discriminate 2].
    destruct (xmlDocGetRootElement doc) as [root|]; [|discriminate 2].
    cbv zeta. rewrite !parse_component_node_cases. cbn [orb].
    destruct (streq (Some (node_name root)) (Some "components")); [discriminate 2|].
    destruct (streq (Some (node_name root)) (Some "component")); [discriminate 1|].
    destruct (streq (Some (node_name root)) (Some "application"));
      [discriminate 1|discriminate 2].
  - split; [|intros ->; split; reflexivity].
    destruct data as [text|]; [|reflexivity].
    intros [Hc He]. exfalso. revert Hc He.
    destruct (xmlParseDoc text) as [doc|]; [|discriminate 2].
    destruct (xmlDocGetRootElement doc) as [root|]; [|discriminate 2].
    cbv zeta. rewrite !parse_component_node_cases. cbn [orb].
    destruct (streq (Some (node_name root)) (Some "components")).
    + destruct (as_xmldata_parse_components_node
                  (set_mode priv AS_PARSER_MODE_DISTRO) [] root false) as [[p l] e].
      discriminate 1.
    + destruct (streq (Some (node_name root)) (Some "component")); discriminate 1.
Qed.

Lemma rootless_document_is_error_witness :
  as_xmldata_parse_upstream_data (ext := sample_collaborators [])
    as_xmldata_init (Some sample_rootless_text)
  = (as_xmldata_init, None,
     Some {| error_code := AS_METADATA_ERROR_FAILED;
             error_message := "Could not parse XML!" |})
  /\
  as_xmldata_parse_upstream_data (ext := sample_collaborators sample_rootless_docs)
    as_xmldata_init (Some sample_rootless_text)
  = (as_xmldata_init, None,
     Some {| error_code := AS_METADATA_ERROR_FAILED;
             error_message := "The XML document appears to be empty." |}).
Proof.
  split.
  - apply (proj1 (rootless_document_is_error (ext := sample_collaborators [])
                    as_xmldata_init (Some sample_rootless_text))
             sample_rootless_text eq_refl eq_refl).
  - apply (proj1 (proj2 (rootless_document_is_error
                           (ext := sample_collaborators sample_rootless_docs)
                           as_xmldata_init (Some sample_rootless_text)))
             sample_rootless_text {| doc_root := None |} eq_refl eq_refl eq_refl).
Defined.

(** C9 as the specification words it fails: the upstream parse of a text
    without a root element does set an error, with a parser that rejects
    such a text and with one that hands back a document without a root. *)
Lemma rootless_upstream_counterexample :
  snd (as_xmldata_parse_upstream_data (ext := sample_collaborators [])
         as_xmldata_init (Some sample_rootless_text))
  <> None
  /\
  snd (as_xmldata_parse_upstream_data (ext := sample_collaborators sample_rootless_docs)
         as_xmldata_init (Some sample_rootless_text))
  <> None.
Proof. split; vm_compute; discriminate. Qed.

(** ** Serializing releases *)

Section SerializeRelease.
Context {ext : AsCollaborators}.

Lemma fold_add_child_properties {A : Type} (f : xmlNode -> A -> xmlNode)
    (l : list A) (node : xmlNode) :
  (forall n a, node_properties (f n a) = node_properties n) ->
  node_properties (fold_left f l node) = node_properties node.
Proof.
  intros Hf.
  apply (fold_left_invariant (fun n => node_properties n = node_properties node));
    [reflexivity|].
  intros n a Hn. now rewrite Hf.
Qed.

(** The attributes of the [<release>] element, in the order they are
    written. *)
Lemma release_to_node_properties (priv : AsXMLDataPrivate) (release : AsRelease) :
  node_properties (release_to_node priv release)
  = ([("version",
       match as_release_get_version release with Some v => v | None => "" end)]
     ++ (if 0 <? glong_of (as_release_get_timestamp release) then
           if AsParserMode_eqb (priv_mode priv) AS_PARSER_MODE_DISTRO
           then [("timestamp", printf_d (glong_of (as_release_get_timestamp release)))]
           else [("date",
                  match g_time_val_to_iso8601
                          (glong_of (as_release_get_timestamp release)) with
                  | Some s => s
                  | None => ""
                  end)]
         else [])
     ++ (if negb (as_release_get_urgency release =? AS_URGENCY_KIND_UNKNOWN)
         then [("urgency",
                match as_urgency_kind_to_string (as_release_get_urgency release) with
                | Some s => s
                | None => ""
                end)]
         else []))%list.
Proof.
  unfold release_to_node.
  match goal with
  | |- node_properties (if ?b then xmlAddChild ?n ?c else ?n) = _ =>
      replace (node_properties (if b then xmlAddChild n c else n))
        with (node_properties n)
        by (destruct b; [now rewrite xmlAddChild_properties|reflexivity])
  end.
  rewrite fold_add_child_properties
    by (intros n j; destruct (0 <? as_release_get_size release j);
        [apply xmlAddChild_properties|reflexivity]).
  rewrite fold_add_child_properties
    by (intros n j; destruct (as_release_get_checksum release j);
        [apply xmlAddChild_properties|reflexivity]).
  rewrite fold_add_child_properties by (intros n a; apply xmlAddChild_properties).
  destruct (0 <? glong_of (as_release_get_timestamp release));
    destruct (AsParserMode_eqb (priv_mode priv) AS_PARSER_MODE_DISTRO);
    destruct (negb (as_release_get_urgency release =? AS_URGENCY_KIND_UNKNOWN));
    reflexivity.
Qed.

Lemma fold_add_child_type {A : Type} (f : xmlNode -> A -> xmlNode)
    (l : list A) (node : xmlNode) :
  (forall n a, node_type (f n a) = node_type n) ->
  node_type (fold_left f l node) = node_type node.
Proof.
  intros Hf.
  apply (fold_left_invariant (fun n => node_type n = node_type node));
    [reflexivity|].
  intros n a Hn. now rewrite Hf.
Qed.

Lemma release_to_node_element (priv : AsXMLDataPrivate) (release : AsRelease) :
  is_element (release_to_node priv release) = true.
Proof.
  unfold release_to_node, is_element.
  match goal with
  | |- xmlElementType_eqb (node_type (if ?b then xmlAddChild ?n ?c else ?n)) _ = _ =>
      replace (node_type (if b then xmlAddChild n c else n)) with (node_type n)
        by (destruct b; [now rewrite xmlAddChild_type|reflexivity])
  end.
  rewrite fold_add_child_type
    by (intros n j; destruct (0 <? as_release_get_size release j);
        [apply xmlAddChild_type|reflexivity]).
  rewrite fold_add_child_type
    by (intros n j; destruct (as_release_get_checksum release j);
        [apply xmlAddChild_type|reflexivity]).
  rewrite fold_add_child_type by (intros n a; apply xmlAddChild_type).
  destruct (0 <? glong_of (as_release_get_timestamp release));
    destruct (AsParserMode_eqb (priv_mode priv) AS_PARSER_MODE_DISTRO);
    destruct (negb (as_release_get_urgency release =? AS_URGENCY_KIND_UNKNOWN));
    reflexivity.
Qed.

(** The release elements are the children added under [<releases>], one
    for each release of the component, in order. *)
Lemma add_release_subnodes_children (priv : AsXMLDataPrivate) (cpt : AsComponent)
    (root : xmlNode) :
  node_children (as_xmldata_add_release_subnodes priv cpt root)
  = (node_children root
     ++ map (release_to_node priv) (as_component_get_releases cpt))%list.
Proof.
  unfold as_xmldata_add_release_subnodes.
  generalize (as_component_get_releases cpt) as l.
  intros l; revert root; induction l as [|r l IH]; intros root; simpl.
  - now rewrite app_nil_r.
  - rewrite IH, xmlAddChild_element by apply release_to_node_element.
    now rewrite <- app_assoc.
Qed.
End SerializeRelease.

Lemma glong_of_small (z : Z) : 0 <= z < 2 ^ 63 -> glong_of z = z.
Proof.
  intros H. unfold glong_of.
  rewrite Z.mod_small by lia.
  destruct (Z.ltb_spec z (2 ^ 63)); lia.
Qed.

(** C10.  The [<release>] element written for a release, with [unixtime]
    the release's timestamp as the signed number the encoder reads (the
    timestamp itself when it is below 2^63): when [unixtime] is above 0 the
    element carries, in distro mode, the attribute [timestamp] with the
    decimal digits of [unixtime] and no [date], and in upstream mode the
    attribute [date] with the ISO-8601 text of [unixtime] and no
    [timestamp]; when [unixtime] is 0 or less it carries neither.  Each
    release of a component gives one such element under [<releases>]. *)
Theorem release_timestamp_attribute {ext : AsCollaborators} (priv : AsXMLDataPrivate)
    (cpt : AsComponent) (root : xmlNode) (release : AsRelease) :
  node_children (as_xmldata_add_release_subnodes priv cpt root)
  = (node_children root ++ map (release_to_node priv) (as_component_get_releases cpt))%list
  /\
  (0 <= as_release_get_timestamp release < 2 ^ 63 ->
   glong_of (as_release_get_timestamp release) = as_release_get_timestamp release)
  /\
  (0 < glong_of (as_release_get_timestamp release) ->
   priv_mode priv = AS_PARSER_MODE_DISTRO ->
   xmlGetProp (release_to_node priv release) "timestamp"
   = Some (printf_d (glong_of (as_release_get_timestamp release)))
   /\ xmlGetProp (release_to_node priv release) "date" = None)
  /\
  (0 < glong_of (as_release_get_timestamp release) ->
   priv_mode priv = AS_PARSER_MODE_UPSTREAM ->
   xmlGetProp (release_to_node priv release) "date"
   = Some match g_time_val_to_iso8601 (glong_of (as_release_get_timestamp release)) with
          | Some s => s
          | None => ""
          end
   /\ xmlGetProp (release_to_node priv release) "timestamp" = None)
  /\
  (glong_of (as_release_get_timestamp release) <= 0 ->
   xmlGetProp (release_to_node priv release) "timestamp" = None
   /\ xmlGetProp (release_to_node priv release) "date" = None).
Proof.
  split; [apply add_release_subnodes_children|].
  split; [apply glong_of_small|].
  unfold xmlGetProp. rewrite release_to_node_properties.
  set (urgency := if negb (as_release_get_urgency release =? AS_URGENCY_KIND_UNKNOWN)
                  then _ else _).
  assert (Hu : forall k, ("urgency" =? k)%string = false ->
                         str_lookup urgency k = None).
  { intros k Hk. subst urgency.
    destruct (negb (as_release_get_urgency release =? AS_URGENCY_KIND_UNKNOWN));
      [|reflexivity].
    unfold str_lookup, table_lookup. now rewrite Hk. }
  rewrite !str_lookup_app, !Hu by reflexivity.
  split; [|split].
  - intros Hpos ->. apply Z.ltb_lt in Hpos. rewrite Hpos. split; reflexivity.
  - intros Hpos ->. apply Z.ltb_lt in Hpos. rewrite Hpos. split; reflexivity.
  - intros Hle. apply Z.ltb_ge in Hle. rewrite Hle. split; reflexivity.
Qed.

Lemma release_timestamp_attribute_witness :
  xmlGetProp
    (release_to_node (ext := sample_collaborators []) sample_distro_state sample_release)
    "timestamp" = Some "1577836800"
  /\
  xmlGetProp
    (release_to_node (ext := sample_collaborators []) sample_upstream_state sample_release)
    "date" = Some "2020-01-01T00:00:00"
  /\
  xmlGetProp
    (release_to_node (ext := sample_collaborators []) sample_upstream_state as_release_new)
    "date" = None.
Proof.
  split; [|split].
  - refine (proj1 (proj1 (proj2 (proj2
              (release_timestamp_attribute (ext := sample_collaborators [])
                 sample_distro_state (as_component_new (ext := sample_collaborators [])) (xmlNewNode "releases")
                 sample_release))) _ _)); exact eq_refl.
  - refine (proj1 (proj1 (proj2 (proj2 (proj2
              (release_timestamp_attribute (ext := sample_collaborators [])
                 sample_upstream_state (as_component_new (ext := sample_collaborators [])) (xmlNewNode "releases")
                 sample_release)))) _ _)); exact eq_refl.
  - refine (proj2 (proj2 (proj2 (proj2 (proj2
              (release_timestamp_attribute (ext := sample_collaborators [])
                 sample_upstream_state (as_component_new (ext := sample_collaborators [])) (xmlNewNode "releases")
                 as_release_new)))) _)). discriminate.
Defined.

(** ** The model at work *)

(** An upstream document decoded under the active locale de_DE: the French
    name and the untyped dbus element leave no trace, the German
    name is filed under de_DE, the summary is stripped. *)
Example sample_upstream_parse :
  match
    as_xmldata_parse_upstream_data (ext := sample_collaborators sample_upstream_docs)
      (as_xmldata_initialize as_xmldata_init "de_DE" None None 0)
      (Some sample_upstream_text)
  with
  | (priv, Some cpt, None) =>
      priv_mode priv = AS_PARSER_MODE_UPSTREAM
      /\ cpt_id cpt = Some "org.example.App"
      /\ cpt_kind cpt = 2
      /\ cpt_name cpt = [("C", Some "App"); ("de_DE", Some "Anwendung")]
      /\ cpt_summary cpt = [("C", Some "An example")]
      /\ cpt_description cpt
         = [("C", newline ++ "<p>Hello</p>"); ("de_DE", newline ++ "<p>Hallo</p>")]
      /\ cpt_provided cpt
         = [(AS_PROVIDED_KIND_BINARY, "app");
            (AS_PROVIDED_KIND_FIRMWARE_FLASHED, "x.bin");
            (AS_PROVIDED_KIND_DBUS_USER, "org.example.App")]
      /\ cpt_bundles cpt = [(1, "app-1.0")]
      /\ map rel_timestamp (cpt_releases cpt) = [1600000000]
      /\ map rel_sizes (cpt_releases cpt) = [[(1, 2048)]]
  | _ => False
  end.
Proof. vm_compute. repeat split. Qed.

(** A list inside an upstream description: the line written for the [ul]
    child holds the text of the list items between the tags of [ul]; the
    tags of the items are not in it. *)
Example upstream_description_nested_markup :
  upstream_description_table (as_xmldata_initialize as_xmldata_init "C" None None 0)
    sample_list_description
  = [("C", newline ++ "<ul>onetwo</ul>")]
  /\ sample_node_dump (elem "ul" [] [elem "li" [] [text "one"]; elem "li" [] [text "two"]])
     = "<ul><li>one</li><li>two</li></ul>".
Proof. split; reflexivity. Qed.

(** ** What the component loop leaves alone *)

Section ComponentFrame.
Context {ext : AsCollaborators}.

Lemma same_stamp_refl (c : AsComponent) : same_stamp c c.
Proof. split; reflexivity. Qed.

Lemma same_stamp_trans (c1 c2 c3 : AsComponent) :
  same_stamp c1 c2 -> same_stamp c2 c3 -> same_stamp c1 c3.
Proof. intros [A B] [C D]; split; congruence. Qed.

Lemma fold_same_stamp {A : Type} (f : AsComponent -> A -> AsComponent) (l : list A)
    (cpt : AsComponent) :
  (forall c a, same_stamp (f c a) c) -> same_stamp (fold_left f l cpt) cpt.
Proof.
  intros Hf.
  apply (fold_left_invariant (fun c => same_stamp c cpt)); [apply same_stamp_refl|].
  intros c a Hc. exact (same_stamp_trans _ _ _ (Hf c a) Hc).
Qed.

Lemma process_provides_child_stamp (cpt : AsComponent) (iter : xmlNode) :
  same_stamp (process_provides_child cpt iter) cpt.
Proof.
  unfold process_provides_child.
  repeat match goal with
         | |- context [if ?c then _ else _] => destruct c
         | |- context [match ?c with Some _ => _ | None => _ end] => destruct c
         end; split; reflexivity.
Qed.

Lemma set_component_type_stamp (node : xmlNode) (cpt : AsComponent) :
  same_stamp (as_xmldata_set_component_type_from_node node cpt) cpt.
Proof.
  unfold as_xmldata_set_component_type_from_node.
  destruct (xmlGetProp node "type"); [|split; reflexivity].
  destruct (streq _ _); split; reflexivity.
Qed.

Lemma upstream_description_stamp (priv : AsXMLDataPrivate) (iter : xmlNode)
    (cpt : AsComponent) :
  same_stamp
    (as_xmldata_parse_upstream_description_tag priv iter
       as_xmldata_upstream_description_to_cpt cpt) cpt.
Proof.
  unfold as_xmldata_parse_upstream_description_tag, g_hash_table_foreach.
  apply fold_same_stamp. intros c a. split; reflexivity.
Qed.

Lemma screenshots_tag_stamp (priv : AsXMLDataPrivate) (iter : xmlNode)
    (cpt : AsComponent) :
  same_stamp (as_xmldata_process_screenshots_tag priv iter cpt) cpt.
Proof.
  unfold as_xmldata_process_screenshots_tag. apply fold_same_stamp. intros c a.
  repeat match goal with
         | |- context [if ?c then _ else _] => destruct c
         end; split; reflexivity.
Qed.

Lemma releases_tag_stamp (priv : AsXMLDataPrivate) (iter : xmlNode) (cpt : AsComponent) :
  same_stamp (as_xmldata_process_releases_tag priv iter cpt) cpt.
Proof.
  unfold as_xmldata_process_releases_tag. apply fold_same_stamp. intros c a.
  repeat match goal with
         | |- context [if ?c then _ else _] => destruct c
         end; split; reflexivity.
Qed.

Lemma languages_tag_stamp (priv : AsXMLDataPrivate) (iter : xmlNode) (cpt : AsComponent) :
  same_stamp (as_xmldata_process_languages_tag priv iter cpt) cpt.
Proof.
  unfold as_xmldata_process_languages_tag. apply fold_same_stamp. intros c a.
  repeat match goal with
         | |- context [if ?c then _ else _] => destruct c
         end; split; reflexivity.
Qed.
End ComponentFrame.

Section ComponentLoop.
Context {ext : AsCollaborators}.

Lemma process_provides_stamp (iter : xmlNode) (cpt : AsComponent) :
  same_stamp (as_xmldata_process_provides iter cpt) cpt.
Proof.
  unfold as_xmldata_process_provides. apply fold_same_stamp.
  apply process_provides_child_stamp.
Qed.

Ltac stamp_branch :=
  repeat match goal with
         | |- context [if ?c then _ else _] => destruct c
         | |- context [match ?c with Some _ => _ | None => _ end] => destruct c
         end;
  (split; [|split; rewrite ?app_nil_r; reflexivity]);
  first [ split; reflexivity
        | apply process_provides_stamp
        | apply screenshots_tag_stamp
        | apply releases_tag_stamp
        | apply languages_tag_stamp
        | apply upstream_description_stamp
        | apply fold_same_stamp; intros; split; reflexivity
        | eapply same_stamp_trans;
          [apply set_component_type_stamp|split; reflexivity] ].

(** One turn of the component loop: the stamped fields stay, and the two
    arrays grow only by the text of a [pkgname] or
    [compulsory_for_desktop] element. *)
Lemma parse_component_child_frame (priv : AsXMLDataPrivate) (cpt : AsComponent)
    (pk cf : list string) (iter : xmlNode) :
  same_stamp (fst (fst (parse_component_child priv (cpt, pk, cf) iter))) cpt
  /\ snd (fst (parse_component_child priv (cpt, pk, cf) iter))
     = (pk ++ if named_element "pkgname" iter then [stripped_content iter] else [])%list
  /\ snd (parse_component_child priv (cpt, pk, cf) iter)
     = (cf ++ if named_element "compulsory_for_desktop" iter
              then [stripped_content iter] else [])%list.
Proof.
  unfold parse_component_child, named_element, stripped_content.
  destruct (is_element iter) eqn:Hel; simpl;
    [|repeat split; rewrite ?app_nil_r; reflexivity].
  rewrite (element_node_value iter Hel); simpl.
  rewrite !streq_Some.
  repeat match goal with
         | |- context [(node_name iter =? ?s)%string] =>
             destruct (String.eqb_spec (node_name iter) s) as [E|?N];
             [rewrite ?E; simpl; stamp_branch|]
         end.
  simpl. repeat split; rewrite ?app_nil_r; reflexivity.
Qed.
End ComponentLoop.

Section ComponentRecord.
Context {ext : AsCollaborators}.

Lemma parse_component_children_frame (priv : AsXMLDataPrivate) (l : list xmlNode)
    (cpt : AsComponent) (pk cf : list string) :
  same_stamp (fst (fst (fold_left (parse_component_child priv) l (cpt, pk, cf)))) cpt
  /\ snd (fst (fold_left (parse_component_child priv) l (cpt, pk, cf)))
     = (pk ++ map stripped_content (filter (named_element "pkgname") l))%list
  /\ snd (fold_left (parse_component_child priv) l (cpt, pk, cf))
     = (cf ++ map stripped_content
                (filter (named_element "compulsory_for_desktop") l))%list.
Proof.
  revert cpt pk cf; induction l as [|iter l IH]; intros cpt pk cf; cbn [fold_left].
  - simpl. repeat split; now rewrite app_nil_r.
  - cbn [filter].
    destruct (parse_component_child_frame priv cpt pk cf iter) as (S1 & P1 & C1).
    destruct (parse_component_child priv (cpt, pk, cf) iter) as [[cpt1 pk1] cf1].
    simpl in S1, P1, C1.
    destruct (IH cpt1 pk1 cf1) as (S2 & P2 & C2).
    split; [exact (same_stamp_trans _ _ _ S2 S1)|].
    rewrite P2, C2, P1, C1, <- !app_assoc.
    split; f_equal.
    + now destruct (named_element "pkgname" iter).
    + now destruct (named_element "compulsory_for_desktop" iter).
Qed.

Lemma parse_components_children_forall (P : AsComponent -> Prop)
    (priv : AsXMLDataPrivate) (l : list xmlNode) (allow_invalid : bool) :
  (forall n, P (parse_component_record priv n)) ->
  forall cpts, Forall P cpts ->
               Forall P (fst (parse_components_children priv cpts l allow_invalid)).
Proof.
  intros HP. induction l as [|n l IH]; intros cpts Hc; simpl; [assumption|].
  destruct (is_element n); simpl; [|now apply IH].
  destruct (streq (Some (node_name n)) (Some "component")); [|now apply IH].
  rewrite parse_component_node_cases.
  destruct (allow_invalid || as_component_is_valid (parse_component_record priv n));
    [|assumption].
  apply IH. apply Forall_app; split; [assumption|]. constructor; [apply HP|constructor].
Qed.
End ComponentRecord.

Lemma parse_component_record_stamp {ext : AsCollaborators} (priv : AsXMLDataPrivate)
    (node : xmlNode) :
  cpt_origin (parse_component_record priv node) = priv_origin priv
  /\ cpt_priority (parse_component_record priv node) = priv_default_priority priv
  /\ cpt_active_locale (parse_component_record priv node) = priv_locale priv.
Proof.
  destruct node as [t nm ps c l].
  unfold parse_component_record; simpl node_children.
  match goal with
  | |- context [fold_left _ l (?c0, [], [])] =>
      destruct (parse_component_children_frame priv l c0 [] []) as ([S1 S2] & _ & _);
      destruct (fold_left (parse_component_child priv) l (c0, [], []))
        as [[cpt1 pk1] cf1]
  end.
  simpl in S1, S2. repeat split; simpl; assumption.
Qed.

(** X1.  Whatever the children of a component element hold, the decoded
    record carries the origin, the default priority and the active locale
    of the parser state: no child element changes them. *)
Theorem component_carries_context {ext : AsCollaborators} (priv : AsXMLDataPrivate)
    (node : xmlNode) :
  cpt_origin (parse_component_record priv node) = priv_origin priv
  /\ cpt_priority (parse_component_record priv node) = priv_default_priority priv
  /\ cpt_active_locale (parse_component_record priv node) = priv_locale priv.
Proof. apply parse_component_record_stamp. Qed.

(** X2.  The package names of a decoded component are the stripped texts of
    its [pkgname] children, in document order, and its compulsory-for-desktop
    list those of its [compulsory_for_desktop] children; both lists are set
    even when there is no such child. *)
Theorem component_package_names {ext : AsCollaborators} (priv : AsXMLDataPrivate)
    (node : xmlNode) :
  cpt_pkgnames (parse_component_record priv node)
  = Some (map stripped_content (filter (named_element "pkgname") (node_children node)))
  /\
  cpt_compulsory_for_desktops (parse_component_record priv node)
  = Some (map stripped_content
            (filter (named_element "compulsory_for_desktop") (node_children node))).
Proof.
  destruct node as [t nm ps c l].
  unfold parse_component_record; simpl node_children.
  match goal with
  | |- context [fold_left _ l (?c0, [], [])] =>
      destruct (parse_component_children_frame priv l c0 [] []) as (_ & P1 & C1);
      destruct (fold_left (parse_component_child priv) l (c0, [], []))
        as [[cpt1 pk1] cf1]
  end.
  simpl in P1, C1. subst. split; reflexivity.
Qed.

(** X3.  A distro parse of a [<components>] document stamps every component
    it hands back with the [origin] attribute of the root, and with the
    priority read from the root's [priority] attribute or, without that
    attribute, the default priority the state held before. *)
Theorem collection_components_carry_root_attributes {ext : AsCollaborators}
    (priv : AsXMLDataPrivate) (data : string) (doc : xmlDoc) (root : xmlNode) :
  xmlParseDoc data = Some doc ->
  xmlDocGetRootElement doc = Some root ->
  node_name root = "components" ->
  exists cpts,
    snd (fst (as_xmldata_parse_distro_data priv (Some data))) = Some cpts
    /\ Forall
         (fun cpt =>
            cpt_origin cpt = xmlGetProp root "origin"
            /\ cpt_priority cpt
               = match xmlGetProp root "priority" with
                 | Some priority_str => gint_of (g_ascii_strtoll priority_str)
                 | None => priv_default_priority priv
                 end)
         cpts.
Proof.
  intros Hdoc Hroot Hname.
  unfold as_xmldata_parse_distro_data. rewrite Hdoc, Hroot, Hname; simpl.
  unfold as_xmldata_parse_components_node.
  set (priv' := components_node_state (set_mode priv AS_PARSER_MODE_DISTRO) root).
  assert (Ho : priv_origin priv' = xmlGetProp root "origin").
  { unfold priv', components_node_state.
    destruct (xmlGetProp root "priority"); reflexivity. }
  assert (Hp : priv_default_priority priv'
               = match xmlGetProp root "priority" with
                 | Some priority_str => gint_of (g_ascii_strtoll priority_str)
                 | None => priv_default_priority priv
                 end).
  { unfold priv', components_node_state.
    destruct (xmlGetProp root "priority"); reflexivity. }
  assert (H : Forall
                (fun cpt =>
                   cpt_origin cpt = priv_origin priv'
                   /\ cpt_priority cpt = priv_default_priority priv')
                (fst (parse_components_children priv' [] (node_children root) false))).
  { apply parse_components_children_forall; [|constructor].
    intros n. destruct (parse_component_record_stamp priv' n) as (A & B & _).
    now split. }
  destruct (parse_components_children priv' [] (node_children root) false)
    as [cpts err].
  exists cpts; split; [reflexivity|].
  rewrite <- Ho, <- Hp. exact H.
Qed.

Lemma collection_components_carry_root_attributes_witness :
  exists cpts,
    snd (fst (as_xmldata_parse_distro_data
                (ext := sample_collaborators sample_collection_docs)
                sample_collection_state (Some sample_collection_text)))
    = Some cpts
    /\ Forall (fun cpt => cpt_origin cpt = Some "sample" /\ cpt_priority cpt = 5) cpts.
Proof.
  exact (collection_components_carry_root_attributes
           (ext := sample_collaborators sample_collection_docs)
           sample_collection_state sample_collection_text
           {| doc_root := Some sample_collection_root |} sample_collection_root
           eq_refl eq_refl eq_refl).
Defined.

(** ** One more child of a component *)

Lemma parse_component_record_last {ext : AsCollaborators} (priv : AsXMLDataPrivate)
    (t : xmlElementType) (nm : string) (ps : list (string * string)) (c : string)
    (pre : list xmlNode) (iter : xmlNode) :
  exists st,
    parse_component_record priv (XmlNode t nm ps c pre) = component_finish priv st
    /\ parse_component_record priv (XmlNode t nm ps c (pre ++ [iter]))
       = component_finish priv (parse_component_child priv st iter).
Proof.
  destruct (parse_component_record_fold priv t nm ps c) as [st0 Hst].
  exists (fold_left (parse_component_child priv) pre st0).
  rewrite !Hst, fold_left_app; simpl.
  split; reflexivity.
Qed.

Lemma parse_component_child_id {ext : AsCollaborators} (priv : AsXMLDataPrivate)
    (cpt : AsComponent) (pk cf : list string) (iter : xmlNode) :
  is_element iter = true ->
  node_name iter = "id" ->
  parse_component_child priv (cpt, pk, cf) iter
  = (if AsParserMode_eqb (priv_mode priv) AS_PARSER_MODE_UPSTREAM
        && (cpt_kind cpt =? AS_COMPONENT_KIND_GENERIC)
     then as_xmldata_set_component_type_from_node iter
            (as_component_set_id cpt (Some (stripped_content iter)))
     else as_component_set_id cpt (Some (stripped_content iter)),
     pk, cf).
Proof.
  intros Hel Hname. unfold parse_component_child.
  rewrite Hel, Hname, (element_node_value iter Hel). reflexivity.
Qed.

(** X4.  An [<id>] child of a component, met after the children [pre]: its
    stripped text becomes the id.  In upstream mode, when the kind so far is
    the generic one, the kind is read again from the [type] attribute of the
    [<id>] element (generic without the attribute); in distro mode, or when
    the kind so far is not generic, the kind stays. *)
Theorem legacy_type_on_id {ext : AsCollaborators} (priv : AsXMLDataPrivate)
    (t : xmlElementType) (nm : string) (ps : list (string * string)) (c : string)
    (pre : list xmlNode) (iter : xmlNode) :
  is_element iter = true ->
  node_name iter = "id" ->
  cpt_id (parse_component_record priv (XmlNode t nm ps c (pre ++ [iter])))
  = Some (stripped_content iter)
  /\
  (priv_mode priv = AS_PARSER_MODE_UPSTREAM ->
   cpt_kind (parse_component_record priv (XmlNode t nm ps c pre))
   = AS_COMPONENT_KIND_GENERIC ->
   cpt_kind (parse_component_record priv (XmlNode t nm ps c (pre ++ [iter])))
   = match xmlGetProp iter "type" with
     | None => AS_COMPONENT_KIND_GENERIC
     | Some ty =>
         if (ty =? "generic")%string then AS_COMPONENT_KIND_GENERIC
         else as_component_kind_from_string (Some ty)
     end)
  /\
  (priv_mode priv = AS_PARSER_MODE_DISTRO
   \/ cpt_kind (parse_component_record priv (XmlNode t nm ps c pre))
      <> AS_COMPONENT_KIND_GENERIC ->
   cpt_kind (parse_component_record priv (XmlNode t nm ps c (pre ++ [iter])))
   = cpt_kind (parse_component_record priv (XmlNode t nm ps c pre))).
Proof.
  intros Hel Hname.
  destruct (parse_component_record_last priv t nm ps c pre iter)
    as [[[cpt0 pk] cf] [-> ->]].
  rewrite (parse_component_child_id priv cpt0 pk cf iter Hel Hname).
  unfold component_finish.
  change (cpt_kind (as_component_set_compulsory_for_desktops
                      (as_component_set_pkgnames
                         (as_component_set_origin cpt0 (priv_origin priv)) pk) cf))
    with (cpt_kind cpt0).
  split; [|split].
  - destruct (AsParserMode_eqb (priv_mode priv) AS_PARSER_MODE_UPSTREAM
              && (cpt_kind cpt0 =? AS_COMPONENT_KIND_GENERIC)); [|reflexivity].
    unfold as_xmldata_set_component_type_from_node.
    destruct (xmlGetProp iter "type"); [|reflexivity].
    destruct (streq _ _); reflexivity.
  - intros -> Hk. rewrite Hk, Z.eqb_refl; simpl.
    unfold as_xmldata_set_component_type_from_node.
    destruct (xmlGetProp iter "type") as [ty|]; [|reflexivity].
    rewrite streq_Some. destruct (ty =? "generic")%string; reflexivity.
  - intros [-> | Hk]; [reflexivity|].
    apply Z.eqb_neq in Hk. rewrite Hk, andb_false_r. reflexivity.
Qed.

Lemma legacy_type_on_id_witness :
  cpt_id (parse_component_record (ext := sample_collaborators []) sample_upstream_state
            sample_legacy_component) = Some "app.desktop"
  /\
  cpt_kind (parse_component_record (ext := sample_collaborators []) sample_upstream_state
              sample_legacy_component) = 2
  /\
  cpt_kind (parse_component_record (ext := sample_collaborators []) sample_distro_state
              sample_legacy_component) = 1.
Proof.
  pose proof (legacy_type_on_id (ext := sample_collaborators []) sample_upstream_state
                XML_ELEMENT_NODE "component" [] "" [elem "name" [] [text "App"]]
                (elem "id" [("type", "desktop")] [text " app.desktop "])
                eq_refl eq_refl) as (Hid & Hup & _).
  pose proof (legacy_type_on_id (ext := sample_collaborators []) sample_distro_state
                XML_ELEMENT_NODE "component" [] "" [elem "name" [] [text "App"]]
                (elem "id" [("type", "desktop")] [text " app.desktop "])
                eq_refl eq_refl) as (_ & _ & Hd).
  split; [exact Hid|]. split.
  - exact (Hup eq_refl eq_refl).
  - exact (Hd (or_introl eq_refl)).
Defined.

Lemma parse_component_child_icon {ext : AsCollaborators} (priv : AsXMLDataPrivate)
    (cpt : AsComponent) (pk cf : list string) (iter : xmlNode) :
  is_element iter = true ->
  node_name iter = "icon" ->
  parse_component_child priv (cpt, pk, cf) iter
  = (let content := stripped_content iter in
     let prop := xmlGetProp iter "type" in
     if streq prop (Some "stock") then
       as_component_add_icon cpt
         (as_icon_set_name (as_icon_set_kind as_icon_new AS_ICON_KIND_STOCK) content)
     else if streq prop (Some "cached") then
       as_component_add_icon cpt
         (as_icon_set_filename (as_icon_set_kind as_icon_new AS_ICON_KIND_CACHED) content)
     else if streq prop (Some "local") then
       as_component_add_icon cpt
         (as_icon_set_filename (as_icon_set_kind as_icon_new AS_ICON_KIND_LOCAL) content)
     else if streq prop (Some "remote") then
       as_component_add_icon cpt
         (as_icon_set_url (as_icon_set_kind as_icon_new AS_ICON_KIND_REMOTE)
            match priv_media_baseurl priv with
            | None => content
            | Some baseurl => g_build_filename baseurl content
            end)
     else cpt,
     pk, cf).
Proof.
  intros Hel Hname. unfold parse_component_child.
  rewrite Hel, Hname, (element_node_value iter Hel). simpl.
  unfold stripped_content.
  repeat match goal with
         | |- context [if ?c then _ else _] => destruct c
         end; try reflexivity.
  destruct (priv_media_baseurl priv); reflexivity.
Qed.

(** X5.  An [<icon>] child of a component, met after the children [pre]:
    type "stock" adds an icon with the stripped text as name, "cached" and
    "local" one with it as file name, "remote" one with it as URL, joined to
    the media base URL when the state has one; any other type, or none,
    adds no icon. *)
Theorem icon_by_type {ext : AsCollaborators} (priv : AsXMLDataPrivate)
    (t : xmlElementType) (nm : string) (ps : list (string * string)) (c : string)
    (pre : list xmlNode) (iter : xmlNode) :
  is_element iter = true ->
  node_name iter = "icon" ->
  (xmlGetProp iter "type" = Some "stock" ->
   cpt_icons (parse_component_record priv (XmlNode t nm ps c (pre ++ [iter])))
   = (cpt_icons (parse_component_record priv (XmlNode t nm ps c pre))
      ++ [{| icon_kind := AS_ICON_KIND_STOCK; icon_name := Some (stripped_content iter);
             icon_filename := None; icon_url := None |}])%list)
  /\
  (xmlGetProp iter "type" = Some "cached" ->
   cpt_icons (parse_component_record priv (XmlNode t nm ps c (pre ++ [iter])))
   = (cpt_icons (parse_component_record priv (XmlNode t nm ps c pre))
      ++ [{| icon_kind := AS_ICON_KIND_CACHED; icon_name := None;
             icon_filename := Some (stripped_content iter); icon_url := None |}])%list)
  /\
  (xmlGetProp iter "type" = Some "local" ->
   cpt_icons (parse_component_record priv (XmlNode t nm ps c (pre ++ [iter])))
   = (cpt_icons (parse_component_record priv (XmlNode t nm ps c pre))
      ++ [{| icon_kind := AS_ICON_KIND_LOCAL; icon_name := None;
             icon_filename := Some (stripped_content iter); icon_url := None |}])%list)
  /\
  (xmlGetProp iter "type" = Some "remote" ->
   cpt_icons (parse_component_record priv (XmlNode t nm ps c (pre ++ [iter])))
   = (cpt_icons (parse_component_record priv (XmlNode t nm ps c pre))
      ++ [{| icon_kind := AS_ICON_KIND_REMOTE; icon_name := None; icon_filename := None;
             icon_url :=
               Some match priv_media_baseurl priv with
                    | None => stripped_content iter
                    | Some baseurl => g_build_filename baseurl (stripped_content iter)
                    end |}])%list)
  /\
  (xmlGetProp iter "type" <> Some "stock" ->
   xmlGetProp iter "type" <> Some "cached" ->
   xmlGetProp iter "type" <> Some "local" ->
   xmlGetProp iter "type" <> Some "remote" ->
   cpt_icons (parse_component_record priv (XmlNode t nm ps c (pre ++ [iter])))
   = cpt_icons (parse_component_record priv (XmlNode t nm ps c pre))).
Proof.
  intros Hel Hname.
  destruct (parse_component_record_last priv t nm ps c pre iter)
    as [[[cpt0 pk] cf] [-> ->]].
  rewrite (parse_component_child_icon priv cpt0 pk cf iter Hel Hname).
  cbv zeta. unfold component_finish.
  repeat split.
  - intros ->. reflexivity.
  - intros ->. reflexivity.
  - intros ->. reflexivity.
  - intros ->. reflexivity.
  - intros N1 N2 N3 N4. apply streq_false in N1, N2, N3, N4.
    now rewrite N1, N2, N3, N4.
Qed.

Lemma icon_by_type_witness :
  cpt_icons (parse_component_record (ext := sample_collaborators []) sample_media_state
               sample_icon_component)
  = [{| icon_kind := AS_ICON_KIND_STOCK; icon_name := Some "app";
        icon_filename := None; icon_url := None |};
     {| icon_kind := AS_ICON_KIND_REMOTE; icon_name := None; icon_filename := None;
        icon_url := Some "http://media.example.org/icons/app.png" |}].
Proof.
  unfold sample_icon_component; unfold elem at 1.
  rewrite (proj1 (proj2 (proj2 (proj2
             (icon_by_type (ext := sample_collaborators []) sample_media_state
                XML_ELEMENT_NODE "component" [] ""
                [elem "icon" [("type", "stock")] [text "app"];
                 elem "icon" [("type", "huge")] [text "dropped.png"]]
                (elem "icon" [("type", "remote")] [text "icons/app.png"])
                eq_refl eq_refl)))) eq_refl).
  reflexivity.
Defined.

Lemma parse_component_child_url {ext : AsCollaborators} (priv : AsXMLDataPrivate)
    (cpt : AsComponent) (pk cf : list string) (iter : xmlNode) :
  is_element iter = true ->
  node_name iter = "url" ->
  parse_component_child priv (cpt, pk, cf) iter
  = (if as_url_kind_from_string (xmlGetProp iter "type") =? AS_URL_KIND_UNKNOWN
     then cpt
     else as_component_add_url cpt (as_url_kind_from_string (xmlGetProp iter "type"))
            (stripped_content iter),
     pk, cf).
Proof.
  intros Hel Hname. unfold parse_component_child.
  rewrite Hel, Hname, (element_node_value iter Hel). simpl.
  now destruct (as_url_kind_from_string (xmlGetProp iter "type") =? AS_URL_KIND_UNKNOWN).
Qed.

(** X6.  A [<url>] child of a component, met after the children [pre]: when
    its [type] is a known URL kind, the stripped text is the URL of that
    kind from then on, in place of an earlier one, and the URLs of the
    other kinds stay; when the type is unknown or missing no URL changes. *)
Theorem url_by_kind {ext : AsCollaborators} (priv : AsXMLDataPrivate)
    (t : xmlElementType) (nm : string) (ps : list (string * string)) (c : string)
    (pre : list xmlNode) (iter : xmlNode) :
  is_element iter = true ->
  node_name iter = "url" ->
  (as_url_kind_from_string (xmlGetProp iter "type") <> AS_URL_KIND_UNKNOWN ->
   forall kind,
     as_component_get_url
       (parse_component_record priv (XmlNode t nm ps c (pre ++ [iter]))) kind
     = if as_url_kind_from_string (xmlGetProp iter "type") =? kind
       then Some (stripped_content iter)
       else as_component_get_url
              (parse_component_record priv (XmlNode t nm ps c pre)) kind)
  /\
  (as_url_kind_from_string (xmlGetProp iter "type") = AS_URL_KIND_UNKNOWN ->
   cpt_urls (parse_component_record priv (XmlNode t nm ps c (pre ++ [iter])))
   = cpt_urls (parse_component_record priv (XmlNode t nm ps c pre))).
Proof.
  intros Hel Hname.
  destruct (parse_component_record_last priv t nm ps c pre iter)
    as [[[cpt0 pk] cf] [-> ->]].
  rewrite (parse_component_child_url priv cpt0 pk cf iter Hel Hname).
  unfold component_finish, as_component_get_url.
  split.
  - intros Hk kind. apply Z.eqb_neq in Hk. rewrite Hk; simpl.
    apply enum_lookup_insert.
  - intros Hk. apply Z.eqb_eq in Hk. now rewrite Hk.
Qed.

Lemma url_by_kind_witness :
  as_component_get_url
    (parse_component_record (ext := sample_collaborators []) sample_upstream_state
       sample_url_component) 1
  = Some "http://example.org".
Proof.
  unfold sample_url_component; unfold elem at 1.
  rewrite (proj1
             (url_by_kind (ext := sample_collaborators []) sample_upstream_state
                XML_ELEMENT_NODE "component" [] ""
                [elem "url" [("type", "homepage")] [text "http://old.example.org"];
                 elem "url" [("type", "blog")] [text "http://blog.example.org"]]
                (elem "url" [("type", "homepage")] [text " http://example.org "])
                eq_refl eq_refl)).
  - reflexivity.
  - vm_compute; discriminate.
Defined.

(** X7.  The languages of a component: every [<lang>] element under
    [<languages>] adds one entry, in document order, made of the locale its
    [lang] attribute resolves to (the text of the element plays no part,
    and an entry is added even when the locale does not resolve) and of its
    [percentage] attribute as a number, 0 when the attribute is missing. *)
Theorem languages_by_attribute {ext : AsCollaborators} (priv : AsXMLDataPrivate)
    (node : xmlNode) (cpt : AsComponent) :
  cpt_languages (as_xmldata_process_languages_tag priv node cpt)
  = (cpt_languages cpt
     ++ map (fun iter => (as_xmldata_get_node_locale priv iter, language_percentage iter))
          (filter (named_element "lang") (node_children node)))%list
  /\
  (forall iter, xmlGetProp iter "percentage" = None -> language_percentage iter = 0)
  /\
  (forall iter, xmlGetProp iter "lang" = None ->
                as_xmldata_get_node_locale priv iter = Some "C").
Proof.
  split; [|split].
  - unfold as_xmldata_process_languages_tag.
    generalize (node_children node) as l. intros l; revert cpt.
    induction l as [|iter l IH]; intros cpt; simpl.
    + now rewrite app_nil_r.
    + rewrite IH. unfold named_element at 2.
      destruct (is_element iter); simpl; [|reflexivity].
      destruct (streq (Some (node_name iter)) (Some "lang")); [|reflexivity].
      simpl. rewrite <- app_assoc. reflexivity.
  - intros iter H. unfold language_percentage. now rewrite H.
  - intros iter H. unfold as_xmldata_get_node_locale. now rewrite H.
Qed.

Lemma languages_by_attribute_witness :
  cpt_languages
    (parse_component_record (ext := sample_collaborators [])
       (as_xmldata_initialize as_xmldata_init "de_DE" None None 0)
       sample_languages_component)
  = [(Some "C", 96); (Some "de_DE", 80); (None, 0)].
Proof.
  transitivity
    (cpt_languages
       (as_xmldata_process_languages_tag (ext := sample_collaborators [])
          (as_xmldata_initialize as_xmldata_init "de_DE" None None 0)
          (elem "languages" []
             [elem "lang" [("percentage", "96")] [text "gu"];
              elem "lang" [("lang", "de"); ("percentage", "80")] [text "de"];
              elem "lang" [("lang", "fr")] [text "fr"]])
          (as_component_new (ext := sample_collaborators [])))).
  - reflexivity.
  - rewrite (proj1 (languages_by_attribute (ext := sample_collaborators []) _ _ _)).
    reflexivity.
Defined.

(** ** Lists of strings *)

Lemma get_children_as_strv_fold (name : string) (l : list xmlNode) (acc : list string) :
  fold_left
    (fun list iter =>
       if negb (is_element iter) then list
       else if streq (Some (node_name iter)) (Some name) then
         match xmlNodeGetContent iter with
         | Some content => (list ++ [g_strchomp (g_strchug content)])%list
         | None => list
         end
       else list)
    l acc
  = (acc ++ map stripped_content (filter (named_element name) l))%list.
Proof.
  revert acc; induction l as [|iter l IH]; intros acc; simpl.
  - now rewrite app_nil_r.
  - rewrite IH. unfold named_element at 2.
    destruct (is_element iter) eqn:Hel; simpl; [|reflexivity].
    destruct (streq (Some (node_name iter)) (Some name)); [|reflexivity].
    pose proof (element_node_value iter Hel) as Hc.
    unfold as_xmldata_get_node_value in Hc. rewrite Hc; simpl.
    now rewrite <- app_assoc.
Qed.

Lemma get_children_as_strv_elements (node : xmlNode) (name : string) :
  as_xmldata_get_children_as_strv node name
  = map stripped_content (filter (named_element name) (node_children node)).
Proof.
  unfold as_xmldata_get_children_as_strv. now rewrite get_children_as_strv_fold.
Qed.

(** X8.  The lists a component takes from the children of one element, met
    after the children [pre]: [<categories>] and [<keywords>] set the list
    anew, to the stripped texts of their [category] and [keyword] children
    in document order, dropping what an earlier element had set;
    [<mimetypes>] adds one mimetype provided item for each [mimetype] child
    to the items so far. *)
Theorem string_lists_from_children {ext : AsCollaborators} (priv : AsXMLDataPrivate)
    (t : xmlElementType) (nm : string) (ps : list (string * string)) (c : string)
    (pre : list xmlNode) (iter : xmlNode) :
  is_element iter = true ->
  (node_name iter = "categories" ->
   cpt_categories (parse_component_record priv (XmlNode t nm ps c (pre ++ [iter])))
   = Some (map stripped_content (filter (named_element "category") (node_children iter))))
  /\
  (node_name iter = "keywords" ->
   cpt_keywords (parse_component_record priv (XmlNode t nm ps c (pre ++ [iter])))
   = Some (map stripped_content (filter (named_element "keyword") (node_children iter))))
  /\
  (node_name iter = "mimetypes" ->
   cpt_provided (parse_component_record priv (XmlNode t nm ps c (pre ++ [iter])))
   = (cpt_provided (parse_component_record priv (XmlNode t nm ps c pre))
      ++ map (fun m => (AS_PROVIDED_KIND_MIMETYPE, stripped_content m))
           (filter (named_element "mimetype") (node_children iter)))%list).
Proof.
  intros Hel.
  destruct (parse_component_record_last priv t nm ps c pre iter)
    as [[[cpt0 pk] cf] [-> ->]].
  unfold parse_component_child. rewrite Hel, (element_node_value iter Hel).
  split; [|split]; intros ->; simpl; rewrite get_children_as_strv_elements.
  - reflexivity.
  - reflexivity.
  - generalize (filter (named_element "mimetype") (node_children iter)) as l.
    intros l; revert cpt0; induction l as [|m l IH]; intros cpt0; simpl.
    + now rewrite app_nil_r.
    + rewrite IH; simpl. now rewrite <- app_assoc.
Qed.

Lemma string_lists_from_children_witness :
  cpt_categories
    (parse_component_record (ext := sample_collaborators []) sample_upstream_state
       sample_categories_component)
  = Some ["Game"; "Puzzle"].
Proof.
  unfold sample_categories_component; unfold elem at 1.
  rewrite (proj1
             (string_lists_from_children (ext := sample_collaborators [])
                sample_upstream_state XML_ELEMENT_NODE "component" [] ""
                [elem "categories" [] [elem "category" [] [text "Old"]]]
                (elem "categories" []
                   [text " "; elem "category" [] [text " Game "];
                    elem "keyword" [] [text "x"]; elem "category" [] [text "Puzzle"]])
                eq_refl) eq_refl).
  reflexivity.
Defined.

(** ** One more child of a release *)

Lemma process_release_last {ext : AsCollaborators} (priv : AsXMLDataPrivate)
    (cpt : AsComponent) (nm : string) (ps : list (string * string)) (c : string)
    (pre : list xmlNode) (iter2 : xmlNode) :
  process_release priv cpt (XmlNode XML_ELEMENT_NODE nm ps c (pre ++ [iter2]))
  = process_release_child priv (XmlNode XML_ELEMENT_NODE nm ps c (pre ++ [iter2]))
      (process_release priv cpt (XmlNode XML_ELEMENT_NODE nm ps c pre)) iter2.
Proof.
  unfold process_release; simpl node_children.
  rewrite fold_left_app; simpl fold_left. reflexivity.
Qed.

(** X9.  A child of a release element named [checksum], met after the
    children [pre]: when its [type] is a known checksum kind, its text is
    the checksum of that kind from then on, in place of an earlier one, and
    the checksums of the other kinds stay; when the type is not known the
    release is as it was. *)
Theorem checksum_last_wins {ext : AsCollaborators} (priv : AsXMLDataPrivate)
    (cpt : AsComponent) (nm : string) (ps : list (string * string)) (c : string)
    (pre : list xmlNode) (iter2 : xmlNode) :
  node_name iter2 = "checksum" ->
  (as_checksum_kind_from_string (xmlGetProp iter2 "type") <> AS_CHECKSUM_KIND_NONE ->
   forall kind,
     as_release_get_checksum
       (process_release priv cpt (XmlNode XML_ELEMENT_NODE nm ps c (pre ++ [iter2]))) kind
     = if as_checksum_kind_from_string (xmlGetProp iter2 "type") =? kind
       then as_xmldata_get_node_value iter2
       else as_release_get_checksum
              (process_release priv cpt (XmlNode XML_ELEMENT_NODE nm ps c pre)) kind)
  /\
  (as_checksum_kind_from_string (xmlGetProp iter2 "type") = AS_CHECKSUM_KIND_NONE ->
   process_release priv cpt (XmlNode XML_ELEMENT_NODE nm ps c (pre ++ [iter2]))
   = process_release priv cpt (XmlNode XML_ELEMENT_NODE nm ps c pre)).
Proof.
  intros Hname. rewrite process_release_last.
  set (rel := process_release priv cpt (XmlNode XML_ELEMENT_NODE nm ps c pre)).
  unfold process_release_child. rewrite Hname; simpl.
  split.
  - intros Hk kind. apply Z.eqb_neq in Hk. rewrite Hk; simpl.
    unfold as_release_get_checksum, as_release_set_checksum; simpl.
    rewrite enum_lookup_insert.
    now destruct (as_checksum_kind_from_string (xmlGetProp iter2 "type") =? kind).
  - intros Hk. apply Z.eqb_eq in Hk. now rewrite Hk.
Qed.

Lemma checksum_last_wins_witness :
  as_release_get_checksum
    (process_release (ext := sample_collaborators []) sample_distro_state
       (as_component_new (ext := sample_collaborators [])) sample_checksum_release) 2
  = Some "bbbb".
Proof.
  unfold sample_checksum_release; unfold elem at 1.
  rewrite (proj1
             (checksum_last_wins (ext := sample_collaborators []) sample_distro_state
                (as_component_new (ext := sample_collaborators []))
                "release" [("version", "1.0")] ""
                [elem "checksum" [("type", "sha256")] [text "aaaa"];
                 elem "checksum" [("type", "md5")] [text "cccc"];
                 elem "size" [("type", "installed")] [text "0"]]
                (elem "checksum" [("type", "sha256")] [text "bbbb"]) eq_refl)).
  - reflexivity.
  - vm_compute; discriminate.
Defined.

(** X10.  A child of a release element named [size], met after the children
    [pre]: when its [type] is a known size kind and its text reads as a
    number above 0, that number is the size of that kind from then on and
    the sizes of the other kinds stay; when the type is not known, or the
    number read is 0, the release is as it was. *)
Theorem size_positive_only {ext : AsCollaborators} (priv : AsXMLDataPrivate)
    (cpt : AsComponent) (nm : string) (ps : list (string * string)) (c : string)
    (pre : list xmlNode) (iter2 : xmlNode) :
  node_name iter2 = "size" ->
  (as_size_kind_from_string (xmlGetProp iter2 "type") <> AS_SIZE_KIND_UNKNOWN ->
   0 < size_content iter2 ->
   forall kind,
     as_release_get_size
       (process_release priv cpt (XmlNode XML_ELEMENT_NODE nm ps c (pre ++ [iter2]))) kind
     = if as_size_kind_from_string (xmlGetProp iter2 "type") =? kind
       then size_content iter2
       else as_release_get_size
              (process_release priv cpt (XmlNode XML_ELEMENT_NODE nm ps c pre)) kind)
  /\
  (as_size_kind_from_string (xmlGetProp iter2 "type") = AS_SIZE_KIND_UNKNOWN
   \/ size_content iter2 <= 0 ->
   process_release priv cpt (XmlNode XML_ELEMENT_NODE nm ps c (pre ++ [iter2]))
   = process_release priv cpt (XmlNode XML_ELEMENT_NODE nm ps c pre)).
Proof.
  intros Hname. rewrite process_release_last.
  set (rel := process_release priv cpt (XmlNode XML_ELEMENT_NODE nm ps c pre)).
  unfold process_release_child. rewrite Hname; simpl.
  fold (size_content iter2).
  split.
  - intros Hk Hpos kind. apply Z.eqb_neq in Hk. apply Z.ltb_lt in Hpos.
    rewrite Hk, Hpos; simpl.
    unfold as_release_get_size, as_release_set_size; simpl.
    rewrite enum_lookup_insert.
    now destruct (as_size_kind_from_string (xmlGetProp iter2 "type") =? kind).
  - intros [Hk | Hle].
    + apply Z.eqb_eq in Hk. now rewrite Hk.
    + apply Z.ltb_ge in Hle. rewrite Hle.
      now destruct (as_size_kind_from_string (xmlGetProp iter2 "type")
                    =? AS_SIZE_KIND_UNKNOWN).
Qed.

Lemma size_positive_only_witness :
  rel_sizes
    (process_release (ext := sample_collaborators []) sample_distro_state
       (as_component_new (ext := sample_collaborators [])) sample_size_release)
  = [(1, 2048)].
Proof.
  assert (H : process_release (ext := sample_collaborators []) sample_distro_state
                (as_component_new (ext := sample_collaborators []))
                (XmlNode XML_ELEMENT_NODE "release" [("version", "1.0")] ""
                   ([] ++ [elem "size" [("type", "installed")] [text "none"]]))
              = process_release (ext := sample_collaborators []) sample_distro_state
                  (as_component_new (ext := sample_collaborators []))
                  (XmlNode XML_ELEMENT_NODE "release" [("version", "1.0")] "" [])).
  { apply (proj2
             (size_positive_only (ext := sample_collaborators []) sample_distro_state
                (as_component_new (ext := sample_collaborators []))
                "release" [("version", "1.0")] "" []
                (elem "size" [("type", "installed")] [text "none"]) eq_refl)).
    right. vm_compute. discriminate. }
  unfold sample_size_release; unfold elem at 1.
  rewrite process_release_last. simpl app in H. rewrite H.
  reflexivity.
Defined.

(** ** Distro descriptions *)

Section DumpChildren.
Context {ext : AsCollaborators}.

Lemma string_length_app (a b : string) :
  String.length (a ++ b) = (String.length a + String.length b)%nat.
Proof. induction a as [|x a IH]; simpl; [reflexivity|now rewrite IH]. Qed.

Lemma string_length_zero (a : string) : String.length a = 0%nat -> a = "".
Proof. destruct a; [reflexivity|discriminate]. Qed.

(** The loop of [as_xmldata_dump_node_children] from a buffer that is not
    empty: every element child adds a newline and its dump. *)
Lemma dump_fold_nonempty (l : list xmlNode) (str : string) :
  str <> "" ->
  fold_left
    (fun str iter =>
       if negb (is_element iter) then str
       else
         let str := if (0 <? Z.of_nat (String.length str)) then str ++ newline else str in
         str ++ xmlNodeDump iter)
    l str
  = str ++ concat_strings (map (fun n => newline ++ xmlNodeDump n) (filter is_element l)).
Proof.
  revert str; induction l as [|iter l IH]; intros str Hne; simpl.
  - now rewrite string_app_nil_r.
  - destruct (is_element iter); simpl; [|now apply IH].
    assert (Hpos : (0 <? Z.of_nat (String.length str)) = true).
    { apply Z.ltb_lt. destruct str; [congruence|simpl; lia]. }
    rewrite Hpos, IH.
    + now rewrite !string_app_assoc.
    + destruct str; [congruence|discriminate].
Qed.

Lemma concat_newline_cons (d : string) (ds : list string) :
  String.concat newline (d :: ds)
  = d ++ concat_strings (map (fun x => newline ++ x) ds).
Proof.
  revert d; induction ds as [|e ds IH]; intros d.
  - simpl. now rewrite string_app_nil_r.
  - change (String.concat newline (d :: e :: ds))
      with (d ++ newline ++ String.concat newline (e :: ds)).
    rewrite IH. reflexivity.
Qed.
End DumpChildren.

(** X11.  [as_xmldata_dump_node_children] writes the element children of a
    node, each as the printer dumps it, with one newline between two of
    them and none before the first or after the last, provided no element
    child dumps to the empty text; the other children are left out. *)
Theorem dump_children_joined {ext : AsCollaborators} (node : xmlNode) :
  (forall n, In n (node_children node) -> is_element n = true -> xmlNodeDump n <> "") ->
  as_xmldata_dump_node_children node
  = String.concat newline (map xmlNodeDump (filter is_element (node_children node))).
Proof.
  unfold as_xmldata_dump_node_children.
  generalize (node_children node) as l.
  induction l as [|iter l IH]; intros H; [reflexivity|].
  cbn [filter fold_left].
  destruct (is_element iter) eqn:Hel; cbn [negb map].
  - rewrite concat_newline_cons. simpl.
    rewrite dump_fold_nonempty.
    + now rewrite map_map.
    + apply H; [now left|assumption].
  - apply IH. intros n Hn. apply H. now right.
Qed.

Lemma dump_children_joined_witness :
  as_xmldata_dump_node_children (ext := sample_collaborators [])
    (elem "description" []
       [text " "; elem "p" [] [text "Hello"]; text " ";
        elem "ul" [] [elem "li" [] [text "one"]]])
  = "<p>Hello</p>" ++ newline ++ "<ul><li>one</li></ul>".
Proof.
  rewrite (dump_children_joined (ext := sample_collaborators [])).
  - reflexivity.
  - intros n [<-|[<-|[<-|[<-|[]]]]] H; try discriminate H; vm_compute; discriminate.
Defined.

Lemma parse_component_child_distro_description {ext : AsCollaborators}
    (priv : AsXMLDataPrivate) (cpt : AsComponent) (pk cf : list string) (iter : xmlNode) :
  is_element iter = true ->
  node_name iter = "description" ->
  priv_mode priv = AS_PARSER_MODE_DISTRO ->
  parse_component_child priv (cpt, pk, cf) iter
  = (match as_xmldata_get_node_locale priv iter with
     | Some lang => as_component_set_description cpt (as_xmldata_dump_node_children iter) lang
     | None => cpt
     end, pk, cf).
Proof.
  intros Hel Hname Hmode. unfold parse_component_child.
  rewrite Hel, Hname, Hmode, (element_node_value iter Hel). simpl.
  now destruct (as_xmldata_get_node_locale priv iter).
Qed.

(** X12.  A [<description>] child of a component in distro mode, met after
    the children [pre]: when the locale of the element resolves, the dump of
    its children is the description of that locale from then on and the
    descriptions of the other locales stay; when it does not resolve, the
    descriptions are as they were. *)
Theorem distro_description_by_locale {ext : AsCollaborators} (priv : AsXMLDataPrivate)
    (t : xmlElementType) (nm : string) (ps : list (string * string)) (c : string)
    (pre : list xmlNode) (iter : xmlNode) :
  is_element iter = true ->
  node_name iter = "description" ->
  priv_mode priv = AS_PARSER_MODE_DISTRO ->
  (forall lang,
     as_xmldata_get_node_locale priv iter = Some lang ->
     forall k,
       str_lookup
         (cpt_description (parse_component_record priv (XmlNode t nm ps c (pre ++ [iter]))))
         k
       = if (lang =? k)%string then Some (as_xmldata_dump_node_children iter)
         else str_lookup
                (cpt_description (parse_component_record priv (XmlNode t nm ps c pre))) k)
  /\
  (as_xmldata_get_node_locale priv iter = None ->
   cpt_description (parse_component_record priv (XmlNode t nm ps c (pre ++ [iter])))
   = cpt_description (parse_component_record priv (XmlNode t nm ps c pre))).
Proof.
  intros Hel Hname Hmode.
  destruct (parse_component_record_last priv t nm ps c pre iter)
    as [[[cpt0 pk] cf] [-> ->]].
  rewrite (parse_component_child_distro_description priv cpt0 pk cf iter Hel Hname Hmode).
  unfold component_finish.
  split.
  - intros lang -> k. simpl. apply str_lookup_insert.
  - intros ->. reflexivity.
Qed.

Lemma distro_description_by_locale_witness :
  str_lookup
    (cpt_description
       (parse_component_record (ext := sample_collaborators []) sample_distro_state
          sample_distro_description_component)) "C"
  = Some ("<p>Hello</p>" ++ newline ++ "<ul><li>one</li></ul>")
  /\
  str_lookup
    (cpt_description
       (parse_component_record (ext := sample_collaborators []) sample_distro_state
          sample_distro_description_component)) "fr"
  = None.
Proof.
  pose proof (proj1
                (distro_description_by_locale (ext := sample_collaborators [])
                   sample_distro_state XML_ELEMENT_NODE "component" [] ""
                   [elem "description" [("lang", "fr")] [elem "p" [] [text "Salut"]]]
                   (elem "description" []
                      [text " "; elem "p" [] [text "Hello"];
                       elem "ul" [] [elem "li" [] [text "one"]]])
                   eq_refl eq_refl eq_refl) "C" eq_refl) as H.
  split.
  - exact (H "C").
  - exact (H "fr").
Defined.

(** ** Keys of the locale tables *)

Lemma node_locale_range (priv : AsXMLDataPrivate) (node : xmlNode) (k : string) :
  priv_locale priv <> Some "ALL" ->
  as_xmldata_get_node_locale priv node = Some k ->
  k = "C" \/ priv_locale priv = Some k.
Proof.
  intros Hall. rewrite get_node_locale_cases.
  destruct (xmlGetProp node "lang") as [lang|]; [|intros [= <-]; now left].
  apply streq_false in Hall. rewrite Hall.
  destruct (streq (Some lang) (priv_locale priv)) eqn:E1.
  - apply streq_true in E1. intros [= <-]. now right.
  - destruct (streq (Some lang) (priv_locale_short priv)); [|discriminate].
    intros ->. now right.
Qed.

(** X13.  Unless the active locale is "ALL", the upstream description
    decoder files text under no key but "C" and the active locale: a key of
    the table it builds is one of the two. *)
Theorem upstream_description_keys_in_range (priv : AsXMLDataPrivate) (node : xmlNode)
    (k : string) :
  priv_locale priv <> Some "ALL" ->
  str_lookup (upstream_description_table priv node) k <> None ->
  k = "C" \/ priv_locale priv = Some k.
Proof.
  intros Hall. rewrite upstream_description_table_lookup.
  destruct (filter (locale_child priv k) (node_children node)) as [|m ms] eqn:E;
    [congruence|].
  intros _.
  assert (Hm : In m (filter (locale_child priv k) (node_children node)))
    by (rewrite E; now left).
  apply filter_In in Hm as [_ Hm]. unfold locale_child in Hm.
  apply andb_prop in Hm as [_ Hm]. apply streq_true in Hm.
  exact (node_locale_range priv m k Hall Hm).
Qed.

Lemma upstream_description_keys_in_range_witness :
  "de_DE" = "C"
  \/ priv_locale (as_xmldata_initialize as_xmldata_init "de_DE" None None 0)
     = Some "de_DE".
Proof.
  apply (upstream_description_keys_in_range
           (as_xmldata_initialize as_xmldata_init "de_DE" None None 0)
           sample_description "de_DE").
  - discriminate.
  - vm_compute. discriminate.
Defined.

(** ** Roots of documents *)

(** X14.  The upstream parse by the root of the document.  Text that does
    not parse is an error and leaves the state as it was.  Otherwise the
    mode becomes upstream, and: a [components] root is the error of the
    unexpected format kind; a [component] or [application] root gives the
    decoded record and no error, whether the record is valid or not; any
    other root is an error. *)
Theorem upstream_root_dispatch {ext : AsCollaborators} (priv : AsXMLDataPrivate)
    (data : string) :
  (xmlParseDoc data = None ->
   as_xmldata_parse_upstream_data priv (Some data)
   = (priv, None,
      Some {| error_code := AS_METADATA_ERROR_FAILED;
              error_message := "Could not parse XML!" |}))
  /\
  (forall doc root,
     xmlParseDoc data = Some doc ->
     xmlDocGetRootElement doc = Some root ->
     (node_name root = "components" ->
      as_xmldata_parse_upstream_data priv (Some data)
      = (set_mode priv AS_PARSER_MODE_UPSTREAM, None,
         Some {| error_code := AS_METADATA_ERROR_UNEXPECTED_FORMAT_KIND;
                 error_message :=
                   "Tried to parse distro metadata as upstream metadata." |}))
     /\
     (node_name root = "component" \/ node_name root = "application" ->
      as_xmldata_parse_upstream_data priv (Some data)
      = (set_mode priv AS_PARSER_MODE_UPSTREAM,
         Some (parse_component_record (set_mode priv AS_PARSER_MODE_UPSTREAM) root),
         None))
     /\
     (node_name root <> "components" ->
      node_name root <> "component" ->
      node_name root <> "application" ->
      as_xmldata_parse_upstream_data priv (Some data)
      = (set_mode priv AS_PARSER_MODE_UPSTREAM, None,
         Some {| error_code := AS_METADATA_ERROR_FAILED;
                 error_message :=
                   "XML file does not contain valid AppStream data!" |}))).
Proof.
  unfold as_xmldata_parse_upstream_data.
  split; [intros ->; reflexivity|].
  intros doc root -> ->. rewrite !streq_Some.
  split; [|split].
  - intros ->. reflexivity.
  - intros [-> | ->]; reflexivity.
  - intros N1 N2 N3. apply String.eqb_neq in N1, N2, N3. now rewrite N1, N2, N3.
Qed.

Lemma upstream_root_dispatch_witness :
  match
    as_xmldata_parse_upstream_data (ext := sample_collaborators sample_application_docs)
      as_xmldata_init (Some sample_application_text)
  with
  | (_, Some cpt, None) =>
      cpt_id cpt = None
      /\ as_component_is_valid (AsCollaborators := sample_collaborators sample_application_docs)
           cpt = false
  | _ => False
  end.
Proof.
  rewrite (proj1 (proj2 (proj2
             (upstream_root_dispatch (ext := sample_collaborators sample_application_docs)
                as_xmldata_init sample_application_text)
             {| doc_root := Some sample_application_root |} sample_application_root
             eq_refl eq_refl)) (or_intror eq_refl)).
  split; reflexivity.
Defined.

(** X15.  The distro parse by the root of the document.  Text that does not
    parse is an error, with no array.  A [component] root gives an array
    with the one decoded record and no error, whether the record is valid
    or not.  A root that is neither [components] nor [component] gives an
    empty array together with an error.  A [components] root without a
    [media_baseurl] attribute whose component children are all valid gives
    all of them, in document order, and no error. *)
Theorem distro_root_dispatch {ext : AsCollaborators} (priv : AsXMLDataPrivate)
    (data : string) :
  (xmlParseDoc data = None ->
   as_xmldata_parse_distro_data priv (Some data)
   = (priv, None,
      Some {| error_code := AS_METADATA_ERROR_FAILED;
              error_message := "Could not parse XML!" |}))
  /\
  (forall doc root,
     xmlParseDoc data = Some doc ->
     xmlDocGetRootElement doc = Some root ->
     (node_name root = "component" ->
      as_xmldata_parse_distro_data priv (Some data)
      = (set_mode priv AS_PARSER_MODE_DISTRO,
         Some [parse_component_record (set_mode priv AS_PARSER_MODE_DISTRO) root],
         None))
     /\
     (node_name root <> "components" ->
      node_name root <> "component" ->
      as_xmldata_parse_distro_data priv (Some data)
      = (set_mode priv AS_PARSER_MODE_DISTRO, Some [],
         Some {| error_code := AS_METADATA_ERROR_FAILED;
                 error_message :=
                   "XML file does not contain valid AppStream data!" |}))
     /\
     (node_name root = "components" ->
      xmlGetProp root "media_baseurl" = None ->
      (forall n, In n (node_children root) -> component_element n = true ->
                 as_component_is_valid
                   (parse_component_record
                      (components_node_state (set_mode priv AS_PARSER_MODE_DISTRO) root)
                      n) = true) ->
      as_xmldata_parse_distro_data priv (Some data)
      = (components_node_state (set_mode priv AS_PARSER_MODE_DISTRO) root,
         Some (map (parse_component_record
                      (components_node_state (set_mode priv AS_PARSER_MODE_DISTRO) root))
                 (filter component_element (node_children root))),
         None))).
Proof.
  unfold as_xmldata_parse_distro_data.
  split; [intros ->; reflexivity|].
  intros doc root -> ->. rewrite !streq_Some.
  split; [|split].
  - intros ->. reflexivity.
  - intros N1 N2. apply String.eqb_neq in N1, N2. now rewrite N1, N2.
  - intros -> _ Hvalid. simpl. unfold as_xmldata_parse_components_node.
    now rewrite (parse_components_children_all_valid _ _ Hvalid).
Qed.

Lemma distro_root_dispatch_witness :
  as_xmldata_parse_distro_data (ext := sample_collaborators sample_application_docs)
    as_xmldata_init (Some sample_application_text)
  = (set_mode as_xmldata_init AS_PARSER_MODE_DISTRO, Some [],
     Some {| error_code := AS_METADATA_ERROR_FAILED;
             error_message := "XML file does not contain valid AppStream data!" |})
  /\
  (let '(_, cpts, error) :=
     as_xmldata_parse_distro_data (ext := sample_collaborators sample_valid_collection_docs)
       as_xmldata_init (Some sample_valid_collection_text) in
   option_map (map cpt_id) cpts = Some [Some "a.desktop"; Some "c.desktop"]
   /\ error = None).
Proof.
  split.
  - apply (proj1 (proj2 (proj2
             (distro_root_dispatch (ext := sample_collaborators sample_application_docs)
                as_xmldata_init sample_application_text)
             {| doc_root := Some sample_application_root |} sample_application_root
             eq_refl eq_refl))); discriminate.
  - rewrite (proj2 (proj2 (proj2
               (distro_root_dispatch
                  (ext := sample_collaborators sample_valid_collection_docs)
                  as_xmldata_init sample_valid_collection_text)
               {| doc_root := Some sample_valid_collection_root |}
               sample_valid_collection_root eq_refl eq_refl)) eq_refl eq_refl).
    + split; reflexivity.
    + intros n [<-|[<-|[]]] _; reflexivity.
Defined.

(** ** A release written and read again *)

Section ReleaseRoundTrip.
Context {ext : AsCollaborators}.

Lemma process_release_child_version (priv : AsXMLDataPrivate) (iter iter2 : xmlNode)
    (rel : AsRelease) :
  rel_version (process_release_child priv iter rel iter2) = rel_version rel.
Proof.
  unfold process_release_child, as_xmldata_parse_upstream_description_tag.
  repeat match goal with
         | |- context [if ?c then _ else _] => destruct c
         | |- context [match ?c with Some _ => _ | None => _ end] => destruct c
         end;
    try reflexivity.
  unfold g_hash_table_foreach.
  apply (fold_left_invariant (fun r => rel_version r = rel_version rel)); auto.
Qed.

Lemma process_release_version (priv : AsXMLDataPrivate) (cpt : AsComponent)
    (iter : xmlNode) :
  rel_version (process_release priv cpt iter) = xmlGetProp iter "version".
Proof.
  unfold process_release.
  rewrite (fold_left_invariant
             (fun r => rel_version r = xmlGetProp iter "version")
             (process_release_child priv iter)); [reflexivity| |].
  - repeat match goal with
           | |- context [match ?c with Some _ => _ | None => _ end] => destruct c
           end; reflexivity.
  - intros r n Hr. now rewrite process_release_child_version.
Qed.
End ReleaseRoundTrip.

(** X16.  Decoding the [<release>] element the encoder writes for a release
    whose timestamp lies between 1 and 2^63 - 1 gives the timestamp back: in
    distro mode when the number parser reads back the digits printed for
    it, in upstream mode when the ISO-8601 reader reads back the date
    written for it.  The version read is the version written, the empty
    text for a release without version. *)
Theorem release_round_trip {ext : AsCollaborators} (priv priv' : AsXMLDataPrivate)
    (cpt : AsComponent) (release : AsRelease) :
  0 < rel_timestamp release < 2 ^ 63 ->
  (priv_mode priv = AS_PARSER_MODE_DISTRO ->
   g_ascii_strtoll (printf_d (rel_timestamp release)) = rel_timestamp release ->
   rel_timestamp (process_release priv' cpt (release_to_node priv release))
   = rel_timestamp release)
  /\
  (priv_mode priv = AS_PARSER_MODE_UPSTREAM ->
   forall date,
     g_time_val_to_iso8601 (rel_timestamp release) = Some date ->
     as_iso8601_to_datetime date = Some (rel_timestamp release) ->
     rel_timestamp (process_release priv' cpt (release_to_node priv release))
     = rel_timestamp release)
  /\
  rel_version (process_release priv' cpt (release_to_node priv release))
  = Some match rel_version release with Some v => v | None => "" end.
Proof.
  intros Hts.
  assert (Hg : glong_of (as_release_get_timestamp release) = rel_timestamp release)
    by (apply glong_of_small; unfold as_release_get_timestamp; lia).
  assert (Hpos : (0 <? rel_timestamp release) = true) by (apply Z.ltb_lt; lia).
  rewrite process_release_timestamp, process_release_version.
  unfold xmlGetProp. rewrite release_to_node_properties, Hg, Hpos.
  split; [|split].
  - intros -> Hrt. simpl. rewrite Hrt.
    unfold guint64_of. apply Z.mod_small. lia.
  - intros -> date Hd Hr. simpl. rewrite Hd.
    destruct (negb (as_release_get_urgency release =? AS_URGENCY_KIND_UNKNOWN)); simpl;
      now rewrite Hr.
  - reflexivity.
Qed.

Lemma release_round_trip_witness :
  rel_timestamp
    (process_release (ext := sample_collaborators []) sample_upstream_state
       (as_component_new (ext := sample_collaborators []))
       (release_to_node (ext := sample_collaborators []) sample_distro_state
          sample_release))
  = 1577836800.
Proof.
  apply (proj1
           (release_round_trip (ext := sample_collaborators []) sample_distro_state
              sample_upstream_state (as_component_new (ext := sample_collaborators []))
              sample_release ltac:(split; reflexivity))); reflexivity.
Defined.

(** ** The shell of the element written for a component *)

Section ComponentShell.
Context {ext : AsCollaborators}.

Lemma same_shell_refl (n : xmlNode) : same_shell n n.
Proof. repeat split. Qed.

Lemma same_shell_trans (n1 n2 n3 : xmlNode) :
  same_shell n1 n2 -> same_shell n2 n3 -> same_shell n1 n3.
Proof. intros (A & B & C) (D & E & F); repeat split; congruence. Qed.

Lemma xmlAddChild_shell (parent cur : xmlNode) : same_shell (xmlAddChild parent cur) parent.
Proof.
  repeat split;
    [apply xmlAddChild_type|apply xmlAddChild_name|apply xmlAddChild_properties].
Qed.

Lemma fold_shell {A : Type} (f : xmlNode -> A -> xmlNode) (l : list A) (node : xmlNode) :
  (forall n a, same_shell (f n a) n) -> same_shell (fold_left f l node) node.
Proof.
  intros Hf.
  apply (fold_left_invariant (fun n => same_shell n node)); [apply same_shell_refl|].
  intros n a Hn. exact (same_shell_trans _ _ _ (Hf n a) Hn).
Qed.

Lemma xml_add_node_shell (root : xmlNode) (name : string) (value : option string) :
  same_shell (as_xmldata_xml_add_node root name value) root.
Proof.
  unfold as_xmldata_xml_add_node.
  destruct (as_str_empty value); [apply same_shell_refl|apply xmlAddChild_shell].
Qed.

Lemma lang_nodes_shell (name : string) (table : list (string * option string))
    (parent : xmlNode) :
  same_shell
    (g_hash_table_foreach table (_as_xmldata_lang_hashtable_to_nodes name) parent) parent.
Proof.
  unfold g_hash_table_foreach. apply fold_shell. intros n [k v]; simpl.
  unfold _as_xmldata_lang_hashtable_to_nodes.
  destruct (as_str_empty v); [apply same_shell_refl|apply xmlAddChild_shell].
Qed.

Lemma xml_add_description_parent_shell (priv : AsXMLDataPrivate)
    (helper : AsLocaleWriteHelper) (markup : option string) (lang : string) :
  same_shell
    (helper_parent (fst (as_xmldata_xml_add_description priv helper markup lang)))
    (helper_parent helper).
Proof.
  unfold as_xmldata_xml_add_description.
  destruct (as_str_empty markup); [apply same_shell_refl|].
  destruct (xmlParseDoc _) as [doc|]; [|apply same_shell_refl].
  destruct (xmlDocGetRootElement doc); [|apply same_shell_refl].
  destruct (AsParserMode_eqb (priv_mode priv) AS_PARSER_MODE_UPSTREAM); simpl;
    [apply same_shell_refl|apply xmlAddChild_shell].
Qed.

Lemma description_nodes_shell (priv : AsXMLDataPrivate) (table : list (string * string))
    (helper : AsLocaleWriteHelper) :
  same_shell
    (helper_close
       (g_hash_table_foreach table (_as_xmldata_desc_lang_hashtable_to_nodes priv) helper))
    (helper_parent helper).
Proof.
  assert (H : same_shell
                (helper_parent
                   (g_hash_table_foreach table
                      (_as_xmldata_desc_lang_hashtable_to_nodes priv) helper))
                (helper_parent helper)).
  { unfold g_hash_table_foreach.
    apply (fold_left_invariant
             (fun h => same_shell (helper_parent h) (helper_parent helper)));
      [apply same_shell_refl|].
    intros h [k v] Hh; simpl. unfold _as_xmldata_desc_lang_hashtable_to_nodes.
    destruct (as_str_empty (Some v)); [assumption|].
    exact (same_shell_trans _ _ _ (xml_add_description_parent_shell priv h _ _) Hh). }
  unfold helper_close.
  destruct (helper_nd _); [|assumption].
  exact (same_shell_trans _ _ _ (xmlAddChild_shell _ _) H).
Qed.

Lemma xml_add_node_list_shell (root : xmlNode) (name : option string)
    (child_name : string) (strv : option (list string)) :
  same_shell (as_xmldata_xml_add_node_list root name child_name strv) root.
Proof.
  unfold as_xmldata_xml_add_node_list.
  destruct strv as [strv|]; [|apply same_shell_refl].
  destruct name; [apply xmlAddChild_shell|].
  apply fold_shell. intros n a. apply xmlAddChild_shell.
Qed.

Ltac shell_step :=
  first
    [ apply same_shell_refl
    | eapply same_shell_trans;
      [ first [ apply xmlAddChild_shell
              | apply xml_add_node_shell
              | apply lang_nodes_shell
              | apply description_nodes_shell
              | apply xml_add_node_list_shell
              | apply fold_shell; intros;
                repeat match goal with
                       | |- context [match ?c with Some _ => _ | None => _ end] =>
                           destruct c
                       end;
                first [apply same_shell_refl|apply xmlAddChild_shell] ]
      | ] ].

Lemma component_to_node_shell (priv : AsXMLDataPrivate) (cpt : AsComponent) :
  exists cnode,
    as_xmldata_component_to_node priv cpt = Some cnode
    /\ same_shell cnode
         (if negb (as_component_get_kind cpt =? AS_COMPONENT_KIND_GENERIC)
             && negb (as_component_get_kind cpt =? AS_COMPONENT_KIND_UNKNOWN)
          then xmlNewProp (xmlNewNode "component") "type"
                 (as_component_kind_to_string (as_component_get_kind cpt))
          else xmlNewNode "component").
Proof.
  unfold as_xmldata_component_to_node. eexists; split; [reflexivity|].
  cbv zeta.
  destruct (as_component_get_screenshots cpt); [|shell_step];
    (destruct (as_component_get_releases cpt); [|shell_step]);
    repeat (shell_step; cbn [helper_parent]).
Qed.
End ComponentShell.


(** ** Lists and descriptions written *)

Lemma xmlAddChild_element_node (t : xmlElementType) (nm : string)
    (ps : list (string * string)) (c : string) (ch : list xmlNode) (cur : xmlNode) :
  is_element cur = true ->
  xmlAddChild (XmlNode t nm ps c ch) cur = XmlNode t nm ps c (ch ++ [cur]).
Proof.
  intros Hel. unfold xmlAddChild.
  assert (Ht : is_text cur = false).
  { unfold is_element, is_text in *. destruct (node_type cur); try discriminate;
      reflexivity. }
  rewrite Ht; simpl. destruct (rev ch); reflexivity.
Qed.

Lemma fill_text_children (child_name : string) (strv : list string)
    (t : xmlElementType) (nm : string) (ps : list (string * string)) (c : string)
    (ch : list xmlNode) :
  fold_left (fun node s => xmlAddChild node (new_text_child child_name (Some s))) strv
    (XmlNode t nm ps c ch)
  = XmlNode t nm ps c
      (ch ++ map (fun s => new_text_child child_name (Some s)) strv).
Proof.
  revert ch; induction strv as [|s strv IH]; intros ch; cbn [fold_left map].
  - now rewrite app_nil_r.
  - rewrite xmlAddChild_element_node by reflexivity.
    rewrite IH, <- app_assoc. reflexivity.
Qed.

(** X18.  Writing a list of strings under a node: nothing is written for a
    NULL list; without a wrapper name one element for each string is added
    to the node, in order; with a wrapper name exactly one element of that
    name is added, holding one element for each string, and it is added
    for the empty list too. *)
Theorem node_list_written (t : xmlElementType) (nm : string)
    (ps : list (string * string)) (c : string) (ch : list xmlNode)
    (child_name : string) :
  (forall name,
     as_xmldata_xml_add_node_list (XmlNode t nm ps c ch) name child_name None
     = XmlNode t nm ps c ch)
  /\
  (forall strv,
     as_xmldata_xml_add_node_list (XmlNode t nm ps c ch) None child_name (Some strv)
     = XmlNode t nm ps c
         (ch ++ map (fun s => new_text_child child_name (Some s)) strv))
  /\
  (forall name strv,
     as_xmldata_xml_add_node_list (XmlNode t nm ps c ch) (Some name) child_name
       (Some strv)
     = XmlNode t nm ps c
         (ch ++ [XmlNode XML_ELEMENT_NODE name [] ""
                   (map (fun s => new_text_child child_name (Some s)) strv)])).
Proof.
  split; [reflexivity|]. split.
  - intros strv. unfold as_xmldata_xml_add_node_list. apply fill_text_children.
  - intros name strv. unfold as_xmldata_xml_add_node_list, new_text_child at 2.
    rewrite fill_text_children. simpl app.
    now rewrite xmlAddChild_element_node by reflexivity.
Qed.




(** ** Screenshots of a component *)

(** X20.  The screenshots of a component: every [<screenshot>] element
    under [<screenshots>] is decoded with the active locale of the
    component, its kind the default one exactly when its [type] is
    "default", and is added, in document order, when the validity check of
    screenshots accepts the record; the others are dropped. *)
Theorem screenshots_valid_only {ext : AsCollaborators} (priv : AsXMLDataPrivate)
    (node : xmlNode) (cpt : AsComponent) :
  cpt_screenshots (as_xmldata_process_screenshots_tag priv node cpt)
  = (cpt_screenshots cpt
     ++ filter as_screenshot_is_valid
          (map (screenshot_record priv (cpt_active_locale cpt))
             (filter (named_element "screenshot") (node_children node))))%list
  /\
  (forall iter,
     scr_kind (screenshot_record priv (cpt_active_locale cpt) iter)
     = if streq (xmlGetProp iter "type") (Some "default")
       then AS_SCREENSHOT_KIND_DEFAULT
       else AS_SCREENSHOT_KIND_NORMAL).
Proof.
  split.
  - unfold as_xmldata_process_screenshots_tag.
    set (step := fun (cpt : AsComponent) (iter : xmlNode) => _).
    assert (H : forall l c,
               cpt_active_locale c = cpt_active_locale cpt ->
               cpt_screenshots (fold_left step l c)
               = (cpt_screenshots c
                  ++ filter as_screenshot_is_valid
                       (map (screenshot_record priv (cpt_active_locale cpt))
                          (filter (named_element "screenshot") l)))%list).
    { induction l as [|n l IH]; intros c Hc; cbn [fold_left filter map].
      - now rewrite app_nil_r.
      - unfold named_element at 1. unfold step at 2.
        destruct (is_element n); cbn [negb andb]; [|now apply IH].
        destruct (streq (Some (node_name n)) (Some "screenshot")); [|now apply IH].
        cbn [map filter]. unfold as_component_get_active_locale. rewrite Hc.
        fold (screenshot_record priv (cpt_active_locale cpt) n).
        destruct (as_screenshot_is_valid
                    (screenshot_record priv (cpt_active_locale cpt) n)).
        + rewrite IH by exact Hc. simpl. now rewrite <- app_assoc.
        + now apply IH. }
    now apply H.
  - intros iter. unfold screenshot_record, as_xmldata_process_screenshot.
    destruct (streq (xmlGetProp iter "type") (Some "default"));
      apply (fold_left_invariant (fun s => scr_kind s = _)); try reflexivity;
      intros s n Hs; unfold process_screenshot_child;
      repeat match goal with
             | |- context [if ?c then _ else _] => destruct c
             | |- context [match ?c with Some _ => _ | None => _ end] => destruct c
             end; exact Hs.
Qed.

Lemma screenshots_valid_only_witness :
  map (fun s => (scr_kind s, scr_caption s))
    (cpt_screenshots
       (as_xmldata_process_screenshots_tag (ext := sample_collaborators [])
          sample_upstream_state sample_screenshots
          (as_component_new (ext := sample_collaborators []))))
  = [(AS_SCREENSHOT_KIND_DEFAULT, [("C", "Main window")])].
Proof.
  rewrite (proj1 (screenshots_valid_only (ext := sample_collaborators []) _ _ _)).
  reflexivity.
Defined.

(** X21.  A [<caption>] child of a screenshot, met after the children
    [pre]: when the locale resolver gives a locale for the element, the
    caption of that locale becomes the stripped text of the element, the
    captions of the other locales, the images and the kind staying as
    they were; when the resolver gives none, the screenshot is left as it
    was. *)
Theorem caption_by_locale {ext : AsCollaborators} (priv : AsXMLDataPrivate)
    (t : xmlElementType) (nm : string) (ps : list (string * string)) (c : string)
    (pre : list xmlNode) (iter : xmlNode) (scr : AsScreenshot) :
  is_element iter = true ->
  node_name iter = "caption" ->
  (forall lang,
     as_xmldata_get_node_locale priv iter = Some lang ->
     let before := as_xmldata_process_screenshot priv (XmlNode t nm ps c pre) scr in
     let after := as_xmldata_process_screenshot priv (XmlNode t nm ps c (pre ++ [iter])) scr in
     str_lookup (scr_caption after) lang = Some (stripped_content iter)
     /\ (forall other, other <> lang ->
           str_lookup (scr_caption after) other = str_lookup (scr_caption before) other)
     /\ scr_images after = scr_images before
     /\ scr_kind after = scr_kind before)
  /\
  (as_xmldata_get_node_locale priv iter = None ->
   as_xmldata_process_screenshot priv (XmlNode t nm ps c (pre ++ [iter])) scr
   = as_xmldata_process_screenshot priv (XmlNode t nm ps c pre) scr).
Proof.
  intros Hel Hname.
  rewrite process_screenshot_last.
  set (before := as_xmldata_process_screenshot priv (XmlNode t nm ps c pre) scr).
  unfold process_screenshot_child.
  rewrite Hel, Hname, (element_node_value iter Hel). cbn [negb g_strstrip].
  rewrite !streq_Some. cbn [String.eqb Ascii.eqb Bool.eqb].
  split.
  - intros lang ->. cbv zeta. unfold as_screenshot_set_caption; simpl.
    rewrite str_lookup_insert, String.eqb_refl.
    split; [reflexivity|]. split; [|split; reflexivity].
    intros other N. rewrite str_lookup_insert.
    destruct (String.eqb_spec lang other); [congruence|reflexivity].
  - intros ->. reflexivity.
Qed.

Lemma caption_by_locale_witness :
  str_lookup
    (scr_caption
       (as_xmldata_process_screenshot (ext := sample_collaborators [])
          (as_xmldata_initialize as_xmldata_init "de_DE" None None 0)
          sample_caption_screenshot as_screenshot_new))
    "de_DE"
  = Some "Hauptfenster".
Proof.
  unfold sample_caption_screenshot; unfold elem at 1.
  refine (proj1 (proj1 (caption_by_locale (ext := sample_collaborators []) _ _ _ _ _ _ _ _
                          _ _) "de_DE" _)); reflexivity.
Defined.

(** X22.  The children of [<provides>] that need no attribute, met after
    the children [pre]: a [library], [binary], [font], [modalias],
    [python2] or [python3] element adds one item of the kind of its name,
    holding the text of the element as it stands, white space at the ends
    included; an element of a name the function does not know, and a node
    that is no element, add nothing. *)
Theorem provides_plain_kinds (t : xmlElementType) (nm : string)
    (ps : list (string * string)) (c : string) (pre : list xmlNode) (iter : xmlNode)
    (cpt : AsComponent) :
  (forall name kind,
     In (name, kind) plain_provided_kinds ->
     is_element iter = true ->
     node_name iter = name ->
     as_xmldata_process_provides (XmlNode t nm ps c (pre ++ [iter])) cpt
     = as_component_add_provided_item
         (as_xmldata_process_provides (XmlNode t nm ps c pre) cpt)
         kind (xmlBufGetNodeContent iter))
  /\
  (is_element iter = false \/ ~ In (node_name iter) provides_child_names ->
   as_xmldata_process_provides (XmlNode t nm ps c (pre ++ [iter])) cpt
   = as_xmldata_process_provides (XmlNode t nm ps c pre) cpt).
Proof.
  rewrite process_provides_last.
  set (cpt' := as_xmldata_process_provides (XmlNode t nm ps c pre) cpt).
  unfold process_provides_child.
  split.
  - intros name kind Hin Hel Hname.
    rewrite Hel, (element_node_value iter Hel), Hname. cbn [negb].
    unfold plain_provided_kinds in Hin; simpl in Hin.
    repeat match goal with
           | H : _ \/ _ |- _ => destruct H as [H|H]
           | H : (_, _) = (_, _) |- _ => injection H as <- <-; reflexivity
           | H : False |- _ => destruct H
           end.
  - intros [Hel|Hno].
    + now rewrite Hel.
    + destruct (is_element iter); [|reflexivity]. cbn [negb].
      destruct (as_xmldata_get_node_value iter); [|reflexivity].
      rewrite !streq_Some.
      repeat match goal with
             | |- context [(node_name iter =? ?s)%string] =>
                 destruct (String.eqb_spec (node_name iter) s) as [E|_];
                   [exfalso; apply Hno; rewrite E; simpl; tauto|]
             end.
      reflexivity.
Qed.

Lemma provides_plain_kinds_witness :
  cpt_provided
    (as_xmldata_process_provides sample_plain_provides
       (as_component_new (ext := sample_collaborators [])))
  = [(AS_PROVIDED_KIND_BINARY, " foo "); (AS_PROVIDED_KIND_PYTHON, "foomod")].
Proof.
  unfold sample_plain_provides; unfold elem at 1.
  rewrite (proj1 (provides_plain_kinds _ _ _ _ _ _ _) "python3" AS_PROVIDED_KIND_PYTHON).
  - reflexivity.
  - simpl; tauto.
  - reflexivity.
  - reflexivity.
Defined.

(** X23.  What the component loop passes over: a child that is no element
    (text, comment), and an element whose name is none of those the
    function knows, leave the component that is built exactly as it would
    be without that child; nothing of an unknown element is kept. *)
Theorem unknown_children_ignored {ext : AsCollaborators} (priv : AsXMLDataPrivate)
    (t : xmlElementType) (nm : string) (ps : list (string * string)) (c : string)
    (pre : list xmlNode) (iter : xmlNode) :
  is_element iter = false \/ ~ In (node_name iter) component_child_names ->
  parse_component_record priv (XmlNode t nm ps c (pre ++ [iter]))
  = parse_component_record priv (XmlNode t nm ps c pre)
  /\ as_xmldata_parse_component_node priv (XmlNode t nm ps c (pre ++ [iter]))
     = as_xmldata_parse_component_node priv (XmlNode t nm ps c pre).
Proof.
  intros H.
  assert (Hrec : parse_component_record priv (XmlNode t nm ps c (pre ++ [iter]))
                 = parse_component_record priv (XmlNode t nm ps c pre)).
  { destruct (parse_component_record_last priv t nm ps c pre iter)
      as [[[cpt0 pk] cf] [-> ->]].
    f_equal. unfold parse_component_child.
    destruct H as [Hel|Hno].
    - now rewrite Hel.
    - destruct (is_element iter); [|reflexivity]. cbn [negb]. cbv zeta.
      rewrite !streq_Some.
      repeat match goal with
             | |- context [(node_name iter =? ?s)%string] =>
                 destruct (String.eqb_spec (node_name iter) s) as [E|_];
                   [exfalso; apply Hno; rewrite E; simpl; tauto|]
             end.
      reflexivity. }
  split; [exact Hrec|].
  unfold as_xmldata_parse_component_node. now rewrite Hrec.
Qed.

Lemma unknown_children_ignored_witness :
  parse_component_record (ext := sample_collaborators []) sample_upstream_state
    sample_unknown_component
  = parse_component_record (ext := sample_collaborators []) sample_upstream_state
      (elem "component" [] [elem "id" [] [text "org.example.App"]]).
Proof.
  unfold sample_unknown_component; unfold elem at 1.
  refine (proj1 (unknown_children_ignored (ext := sample_collaborators []) _ _ _ _ _ _ _ _)).
  right. simpl. intros H.
  repeat match goal with
         | H : _ \/ _ |- _ => destruct H as [H|H]
         | H : _ = _ |- _ => discriminate H
         | H : False |- _ => destruct H
         end.
Defined.

(** ** The components of a distro document *)

Section DistroChildren.
Context {ext : AsCollaborators}.

Lemma distro_children_fold (priv : AsXMLDataPrivate) (cpts : list AsComponent) :
  forall root,
  exists nodes,
    Forall2 (fun cpt n => as_xmldata_component_to_node priv cpt = Some n) cpts nodes
    /\ Forall (fun n => is_element n = true /\ node_name n = "component") nodes
    /\ node_children
         (fold_left
            (fun root cpt =>
               match as_xmldata_component_to_node priv cpt with
               | None => root
               | Some node => xmlAddChild root node
               end)
            cpts root)
       = (node_children root ++ nodes)%list.
Proof.
  induction cpts as [|cpt cpts IH]; intros root; cbn [fold_left].
  - exists []. rewrite app_nil_r. repeat constructor.
  - destruct (component_to_node_shell priv cpt) as (cnode & Hc & S1 & S2 & S3).
    assert (Hshape : is_element cnode = true /\ node_name cnode = "component").
    { unfold is_element. rewrite S1, S2.
      destruct (negb (as_component_get_kind cpt =? AS_COMPONENT_KIND_GENERIC)
                && negb (as_component_get_kind cpt =? AS_COMPONENT_KIND_UNKNOWN));
        split; reflexivity. }
    rewrite Hc.
    destruct (IH (xmlAddChild root cnode)) as (nodes & F2 & F & Hch).
    exists (cnode :: nodes). split; [now constructor|]. split; [now constructor|].
    rewrite Hch, xmlAddChild_element by apply Hshape.
    now rewrite <- app_assoc.
Qed.
End DistroChildren.

(** X24.  The distro document of a list of components that is not empty:
    the children of its root are the elements the encoder writes for the
    components, one for each component and in the order of the list, each
    of them an element named [component], written in distro mode. *)
Theorem distro_document_children {ext : AsCollaborators} (priv : AsXMLDataPrivate)
    (cpts : list AsComponent) :
  cpts <> [] ->
  exists root nodes,
    snd (as_xmldata_serialize_to_distro priv cpts)
    = Some (xmlDocDumpMemory {| doc_root := Some root |})
    /\ node_children root = nodes
    /\ Forall2
         (fun cpt n =>
            as_xmldata_component_to_node (set_mode priv AS_PARSER_MODE_DISTRO) cpt = Some n)
         cpts nodes
    /\ Forall (fun n => is_element n = true /\ node_name n = "component") nodes.
Proof.
  intros Hne. unfold as_xmldata_serialize_to_distro.
  destruct cpts as [|cpt cpts]; [congruence|].
  replace (Z.of_nat (length (cpt :: cpts)) =? 0) with false
    by (symmetry; apply Z.eqb_neq; simpl length; lia).
  cbv zeta. cbn [snd].
  unfold serialize_distro_root.
  match goal with
  | |- context [fold_left _ _ ?r0] =>
      destruct (distro_children_fold (set_mode priv AS_PARSER_MODE_DISTRO)
                  (cpt :: cpts) r0) as (nodes & F2 & F & Hch);
        assert (Hnil : node_children r0 = [])
          by (destruct (priv_origin (set_mode priv AS_PARSER_MODE_DISTRO)); reflexivity)
  end.
  rewrite Hnil in Hch; cbn [app] in Hch.
  eexists; exists nodes. split; [reflexivity|]. split; [exact Hch|].
  split; assumption.
Qed.

Lemma distro_document_children_witness :
  exists root nodes,
    snd (as_xmldata_serialize_to_distro (ext := sample_collaborators [])
           sample_upstream_state (sample_distro_components (ext := sample_collaborators [])))
    = Some (xmlDocDumpMemory (AsCollaborators := sample_collaborators [])
              {| doc_root := Some root |})
    /\ node_children root = nodes
    /\ Forall2
         (fun cpt n =>
            as_xmldata_component_to_node (ext := sample_collaborators [])
              (set_mode sample_upstream_state AS_PARSER_MODE_DISTRO) cpt = Some n)
         (sample_distro_components (ext := sample_collaborators [])) nodes
    /\ Forall (fun n => is_element n = true /\ node_name n = "component") nodes.
Proof.
  apply (distro_document_children (ext := sample_collaborators [])).
  discriminate.
Defined.

(** ** The locale of a node and its callers *)



